(** * go-parrot: transport, channel buffers and feature state

    A shallow embedding of the controller side of the drone protocol stack:

    - [ARNetworkAL]: the transport frame and the [Connection] interface;
    - [Wifi]: the UDP implementation of the interface
      (protocols/arnetworkal/wifi/connection.go) and the stand-alone
      [frameReceiver];
    - [ARNetwork]: the controller-to-device buffer ([c2dBuffer]) with its
      send / await-ack / retry loop;
    - [ARCommands]: the decoded arguments handed to the handlers;
    - [Common], [ARDrone3], [AccessoryState]: feature state objects, their
      handlers and their accessors.

    Go values are modelled as follows.  Unsigned and signed machine integers
    are [Z] with the wrap-around written out where the code relies on it; a
    byte slice is a [list Z] of values below 256; an [error] is its message,
    [None] standing for [nil]; a nullable pointer field is an [option]. *)

From Stdlib Require Import String Ascii ZArith List Lia Bool.
Import ListNotations.
Open Scope Z_scope.

(* ================================================================== *)
(** * Machine integers, bytes and errors *)
(* ================================================================== *)

Definition byte := Z.
Definition bytes := list byte.

Definition is_uint8 (z : Z) : Prop := 0 <= z < 256.

(** [uint8] arithmetic wraps modulo 256. *)
Definition uint8 (z : Z) : Z := z mod 256.

(** Go's [int] on the 64-bit platforms the program targets. *)
Definition intMax : Z := 2 ^ 63 - 1.
Definition intMin : Z := - 2 ^ 63.

(** [n++] on an [int]. *)
Definition int_incr (n : Z) : Z := if n =? intMax then intMin else n + 1.

(** A Go [error] value, by its message; [nil] is [None] of [option error]. *)
Definition error := string.

(** [bytes.Equal]: same length and same contents (nil equals empty). *)
Fixpoint bytes_Equal (a b : bytes) : bool :=
  match a, b with
  | [], [] => true
  | x :: a', y :: b' => (x =? y) && bytes_Equal a' b'
  | _, _ => false
  end.

(** The decimal digits of a non-negative number, most significant first,
    as ASCII codes: what [fmt.Sprintf("%d", n)] yields for [n >= 0]. *)
Fixpoint decimal_digits (fuel : nat) (n : Z) (acc : bytes) : bytes :=
  match fuel with
  | O => acc
  | S fuel' =>
      let acc' := (48 + n mod 10) :: acc in
      if n / 10 =? 0 then acc' else decimal_digits fuel' (n / 10) acc'
  end.

(** [[]byte(fmt.Sprintf("%d", n))] for an unsigned [n].  A number below
    [2^k] has at most [k] digits, so the fuel never runs out. *)
Definition Sprintf_d (n : Z) : bytes :=
  decimal_digits (S (Z.to_nat (Z.log2 n))) n [].

(* ================================================================== *)
(** * Package arnetworkal: frames and the connection interface *)
(* ================================================================== *)

Module ARNetworkAL.

Definition FrameType := Z.

(** Modelled from the spec: the frame type constants of package
    arnetworkal are declared elsewhere in the repository; they are numbered
    as the wire format of the specification numbers them. *)
Definition FrameTypeData : FrameType := 1.
Definition FrameTypeLowLatencyData : FrameType := 2.
Definition FrameTypeDataWithAck : FrameType := 3.
Definition FrameTypeAck : FrameType := 4.

(** [arnetworkal.Frame]: [ID] is the channel (buffer) id, [Seq] the
    per-channel sequence number. *)
Record Frame : Type := mkFrame {
  ID : Z;
  Type_ : FrameType;
  Seq : Z;
  Data : bytes
}.

(** [arnetworkal.Frame{}]. *)
Definition zeroFrame : Frame := mkFrame 0 0 0 [].

(** The part of the [arnetworkal.Connection] interface the buffers use.
    An implementation is a state type with a [Send] that returns the
    state after the call and the error, if any. *)
Class Connection (C : Type) : Type := {
  Send : C -> Frame -> C * option error
}.

(** ** Wire format *)

Definition headerSize : Z := 7.

Definition le32 (n : Z) : bytes :=
  [n mod 256; (n / 256) mod 256; (n / 65536) mod 256; (n / 16777216) mod 256].

Definition read_le32 (b0 b1 b2 b3 : byte) : Z :=
  b0 + 256 * b1 + 65536 * b2 + 16777216 * b3.

(** Modelled from the spec: [defaultEncodeFrame] is referenced by the
    connection but defined elsewhere in the repository.  The encoding is the
    7-byte header (type, channel id, sequence, total length including the
    header as a 32-bit little-endian integer) followed by the payload. *)
Definition defaultEncodeFrame (f : Frame) : bytes :=
  [Type_ f; ID f; Seq f]
    ++ le32 (headerSize + Z.of_nat (length (Data f)))
    ++ Data f.

Definition MalformedFrame : error := "malformed frame"%string.

(** Modelled from the spec: [defaultDecodeData] is referenced by the
    connection but defined elsewhere in the repository.  A datagram holds
    frames back to back; decoding stops cleanly at the end of the buffer
    and fails with [MalformedFrame] when a header is cut short or a
    declared length would read past the available bytes (a declared length
    below the header size is read as malformed too).  Every frame consumes
    at least the header, so the length of the datagram is fuel enough. *)
Fixpoint decodeFrames (fuel : nat) (data : bytes) : error + list Frame :=
  match data with
  | [] => inr []
  | t :: i :: s :: l0 :: l1 :: l2 :: l3 :: rest =>
      let total := read_le32 l0 l1 l2 l3 in
      if total <? headerSize then inl MalformedFrame
      else if Z.of_nat (length rest) <? total - headerSize then inl MalformedFrame
      else
        let n := Z.to_nat (total - headerSize) in
        match fuel with
        | O => inl MalformedFrame
        | S fuel' =>
            match decodeFrames fuel' (skipn n rest) with
            | inr fs => inr (mkFrame i t s (firstn n rest) :: fs)
            | inl e => inl e
            end
        end
  | _ => inl MalformedFrame
  end.

Definition defaultDecodeData (data : bytes) : error + list Frame :=
  decodeFrames (length data) data.

(** The frames the codec is specified for: fields that fit their wire
    width, and a total length that fits 32 bits. *)
Definition validFrame (f : Frame) : Prop :=
  is_uint8 (Type_ f) /\ is_uint8 (ID f) /\ is_uint8 (Seq f)
  /\ Forall is_uint8 (Data f)
  /\ headerSize + Z.of_nat (length (Data f)) < 2 ^ 32.

End ARNetworkAL.

(* ================================================================== *)
(** * Package wifi: the UDP connection *)
(* ================================================================== *)

Module Wifi.
Import ARNetworkAL.
Local Open Scope string_scope.

(** maxUDPDataBytes represents the practical maximum numbers of data bytes
    in a UDP packet. *)
Definition maxUDPDataBytes : Z := 65507.

Definition deviceIP : string := "192.168.42.1".
Definition discoveryPort : Z := 44444.

(** ** Sockets *)

(** The errors a socket call returns, by their dynamic type: a
    [*net.OpError], another implementation of [net.Error], or any other
    error.  The first two answer [Timeout()]. *)
Inductive netError : Type :=
| OpError (timeout : bool) (msg : string)
| NetError (timeout : bool) (msg : string)
| PlainError (msg : string).

Definition Error (e : netError) : string :=
  match e with
  | OpError _ m => m
  | NetError _ m => m
  | PlainError m => m
  end.

(** A UDP socket.  [refuses] is the verdict of the operating system on
    sending a datagram ([None]: the datagram goes out whole); what the
    verdict is for a given length depends on the network the socket is
    bound to, and is no part of this program.  [written] holds the
    datagrams sent so far. *)
Record UDPConn : Type := mkUDPConn {
  refuses : bytes -> option error;
  written : list bytes;
  closed : bool
}.

(** [UDPConn.Write]: one call, one datagram. *)
Definition UDPConn_Write (s : UDPConn) (b : bytes) : UDPConn * option error :=
  if closed s then (s, Some "use of closed network connection")
  else
    match refuses s b with
    | Some e => (s, Some e)
    | None => (mkUDPConn (refuses s) (written s ++ [b])%list false, None)
    end.

(** [UDPConn.Close]. *)
Definition UDPConn_Close (s : UDPConn) : UDPConn * option error :=
  if closed s then (s, Some "use of closed network connection")
  else (mkUDPConn (refuses s) (written s) true, None).

(** A socket over IPv4, the protocol of [deviceIP] and so of the socket
    [NewConnection] dials: the operating system refuses every datagram of
    more than [maxUDPDataBytes] bytes (65535 less the 20 bytes of the IP
    header and the 8 of the UDP header). *)
Definition overIPv4 (s : UDPConn) : Prop :=
  forall b : bytes,
    (maxUDPDataBytes < Z.of_nat (length b))%Z -> refuses s b <> None.

(** ** The connection and its receiving goroutine *)

(** Where the goroutine running [receivePackets] stands.  The channels
    [rcvFrameCh] and [rcvErrCh] are unbuffered, so a value in transit is a
    goroutine blocked in the [select] that offers it. *)
Inductive pc : Type :=
| AtSelect
| AtSetReadDeadline
| AtReadFromUDP
| OfferingErr (e : error)
| OfferingFrame (f : Frame) (rest : list Frame)
| Exited.

Record connection : Type := mkConnection {
  c2dPort : Z;
  c2dConn : UDPConn;
  d2cPort : Z;
  d2cConn : UDPConn;
  (** [rcvStopCh] has been closed. *)
  rcvStopClosed : bool;
  (** The receiving goroutine; [rcvDoneCh] is closed once it is [Exited]. *)
  receiver : pc;
  encodeFrame : Frame -> bytes;
  decodeData : bytes -> error + list Frame
}.

Definition set_c2dConn (c : connection) (s : UDPConn) : connection :=
  mkConnection (c2dPort c) s (d2cPort c) (d2cConn c) (rcvStopClosed c)
    (receiver c) (encodeFrame c) (decodeData c).

Definition set_d2cConn (c : connection) (s : UDPConn) : connection :=
  mkConnection (c2dPort c) (c2dConn c) (d2cPort c) s (rcvStopClosed c)
    (receiver c) (encodeFrame c) (decodeData c).

Definition set_receiver (c : connection) (p : pc) : connection :=
  mkConnection (c2dPort c) (c2dConn c) (d2cPort c) (d2cConn c)
    (rcvStopClosed c) p (encodeFrame c) (decodeData c).

Definition set_rcvStopClosed (c : connection) (b : bool) : connection :=
  mkConnection (c2dPort c) (c2dConn c) (d2cPort c) (d2cConn c) b
    (receiver c) (encodeFrame c) (decodeData c).

(** [connection.Send]. *)
Definition Send (c : connection) (frame : Frame) : connection * option error :=
  match UDPConn_Write (c2dConn c) (encodeFrame c frame) with
  | (s, Some err) =>
      (set_c2dConn c s,
       Some ("error writing frame to outbound connection: " ++ err))
  | (s, None) => (set_c2dConn c s, None)
  end.

#[export] Instance wifiConnection : Connection connection :=
  {| ARNetworkAL.Send := Send |}.

(** What the environment contributes to one step of the system made of
    the goroutine, the sockets and the callers of the connection. *)
Inductive event : Type :=
| CloseStopCh
| Scheduled
| SetReadDeadlineReturns (err : option error)
| ReadFromUDPReturns (r : bytes + netError)
| ReceiveCalled
| StopObserved.

(** The range loop over the decoded frames: blocked on the first, back at
    the outer select after the last. *)
Definition deliver (frames : list Frame) : pc :=
  match frames with
  | [] => AtSelect
  | f :: rest => OfferingFrame f rest
  end.

(** The test of line 214: every error is reported except a [*net.OpError]
    that is a timeout. *)
Definition reported (err : netError) : bool :=
  match err with
  | OpError timeout _ => negb timeout
  | _ => true
  end.

(** One step of [receivePackets]; [None] when the goroutine cannot take
    the step where it stands. *)
Definition receivePackets (c : connection) (ev : event) : option connection :=
  match receiver c, ev with
  | AtSelect, Scheduled =>
      if rcvStopClosed c then Some (set_receiver c Exited)
      else Some (set_receiver c AtSetReadDeadline)
  | AtSetReadDeadline, SetReadDeadlineReturns (Some err) =>
      Some (set_receiver c (OfferingErr ("error setting read deadline: " ++ err)))
  | AtSetReadDeadline, SetReadDeadlineReturns None =>
      Some (set_receiver c AtReadFromUDP)
  | AtReadFromUDP, ReadFromUDPReturns (inr err) =>
      if reported err
      then Some (set_receiver c
                   (OfferingErr ("error receiving data from inbound connection: "
                                   ++ Error err)))
      else Some (set_receiver c AtSelect)
  | AtReadFromUDP, ReadFromUDPReturns (inl datagram) =>
      let data := firstn (Z.to_nat maxUDPDataBytes) datagram in
      match decodeData c data with
      | inl err =>
          Some (set_receiver c (OfferingErr ("error decoding inbound data: " ++ err)))
      | inr frames => Some (set_receiver c (deliver frames))
      end
  | OfferingErr _, StopObserved =>
      if rcvStopClosed c then Some (set_receiver c Exited) else None
  | OfferingFrame _ rest, StopObserved =>
      if rcvStopClosed c then Some (set_receiver c (deliver rest)) else None
  | _, _ => None
  end.

(** [connection.Receive]: the value returned and the connection after
    the call; [None] while no case of the select is ready. *)
Definition Receive (c : connection)
  : option ((Frame * bool * option error) * connection) :=
  match receiver c with
  | OfferingFrame frame rest =>
      Some ((frame, true, None), set_receiver c (deliver rest))
  | OfferingErr err =>
      Some ((zeroFrame, false, Some err), set_receiver c AtSelect)
  | Exited => Some ((zeroFrame, false, None), c)
  | _ => None
  end.

(** The first statement of [connection.Close]: [close(c.rcvStopCh)].
    Closing a closed channel panics. *)
Definition closeStopCh (c : connection) : option connection :=
  if rcvStopClosed c then None else Some (set_rcvStopClosed c true).

(** One step of the whole system, with what a [Receive] call returned. *)
Definition step (c : connection) (ev : event)
  : option (connection * list (Frame * bool * option error)) :=
  match ev with
  | CloseStopCh => option_map (fun c' => (c', [])) (closeStopCh c)
  | ReceiveCalled => option_map (fun r => (snd r, [fst r])) (Receive c)
  | _ => option_map (fun c' => (c', [])) (receivePackets c ev)
  end.

Fixpoint run (c : connection) (evs : list event)
  : option (connection * list (Frame * bool * option error)) :=
  match evs with
  | [] => Some (c, [])
  | ev :: evs' =>
      match step c ev with
      | None => None
      | Some (c', out) =>
          match run c' evs' with
          | None => None
          | Some (c'', outs) => Some (c'', (out ++ outs)%list)
          end
      end
  end.

(** The line feed that ends the message of a failed close. *)
Definition LF : string := String (Ascii.ascii_of_nat 10) EmptyString.

(** [connection.Close].  Between the close of [rcvStopCh] and the receive
    on [rcvDoneCh] the rest of the system goes on: [meanwhile] holds its
    steps.  The receive returns once the goroutine has exited; until
    then, and when the channel was closed before (a panic), there is no
    result. *)
Definition Close (c : connection) (meanwhile : list event)
  : option (connection * option error) :=
  match closeStopCh c with
  | None => None
  | Some c1 =>
      match run c1 meanwhile with
      | Some (c2, _) =>
          match receiver c2 with
          | Exited =>
              let (out, outErr) := UDPConn_Close (c2dConn c2) in
              let (inb, inErr) := UDPConn_Close (d2cConn c2) in
              let errStrs :=
                List.app
                  match outErr with
                  | Some err =>
                      ["error closing outbound connection: " ++ err ++ LF]
                  | None => []
                  end
                  match inErr with
                  | Some err =>
                      ["error closing inbound connection: " ++ err ++ LF]
                  | None => []
                  end in
              Some (set_d2cConn (set_c2dConn c2 out) inb,
                    match errStrs with
                    | [] => None
                    | _ =>
                        Some ("error(s) closing connection: "
                                ++ String.concat "; " errStrs)
                    end)
          | _ => None
          end
      | None => None
      end
  end.

(** [n] calls of [Receive] in a row, while they return. *)
Fixpoint ReceiveN (n : nat) (c : connection)
  : list (Frame * bool * option error) :=
  match n with
  | O => []
  | S n' =>
      match Receive c with
      | None => []
      | Some (r, c') => r :: ReceiveN n' c'
      end
  end.

(** ** Session establishment *)

Record connectionNegotiationRequest : Type := mkRequest {
  D2CPort : Z;
  ControllerType : string;
  ControllerName : string
}.

Record connectionNegotiationResponse : Type := mkResponse {
  Status : Z;
  C2DPort : Z
}.

(** A host and a port, as [fmt.Sprintf("%s:%d", host, port)] joins them. *)
Definition addr : Type := string * Z.

(** What the world outside answers to the calls of [NewConnection]. *)
Record network : Type := mkNetwork {
  GetFreePort : error + Z;
  ResolveTCPAddr : addr -> error + addr;
  DialTCP : addr -> option error;
  jsonMarshal : connectionNegotiationRequest -> error + bytes;
  negConnWrite : bytes -> option error;
  (** [ReadBytes(0x00)]: the bytes up to and including the delimiter. *)
  negConnReadBytes : error + bytes;
  jsonUnmarshal : bytes -> error + connectionNegotiationResponse;
  ResolveUDPAddr : addr -> error + addr;
  DialUDP : addr -> error + UDPConn;
  ListenUDP : addr -> error + UDPConn
}.

(** The socket and goroutine operations [NewConnection] performs, in the
    order it performs them. *)
Inductive call : Type :=
| CallDialTCP (a : addr)
| CallTCPWrite (b : bytes)
| CallTCPReadBytes
| CallTCPClose
| CallDialUDP (a : addr)
| CallListenUDP (a : addr)
| GoReceivePackets.

(** Computations that may fail with an error and that log their calls. *)
Definition M (A : Type) : Type := list call -> (error + A) * list call.

Definition ret {A : Type} (a : A) : M A := fun t => (inr a, t).

Definition bind {A B : Type} (m : M A) (k : A -> M B) : M B :=
  fun t =>
    match m t with
    | (inl e, t') => (inl e, t')
    | (inr a, t') => k a t'
    end.

Definition fail {A : Type} (e : error) : M A := fun t => (inl e, t).

Definition perform (c : call) : M unit := fun t => (inr tt, (t ++ [c])%list).

(** [fmt.Errorf(msg ++ "%s", err)] on failure. *)
Definition try {A : Type} (msg : string) (r : error + A) : M A :=
  match r with
  | inl e => fail (msg ++ e)
  | inr a => ret a
  end.

Definition check (msg : string) (r : option error) : M unit :=
  match r with
  | Some e => fail (msg ++ e)
  | None => ret tt
  end.

(** [defer d] before [body]: [d] runs when [body] returns, whatever it
    returns. *)
Definition defer {A : Type} (d : M unit) (body : M A) : M A :=
  fun t => let (r, t') := body t in (r, snd (d t')).

Notation "x <- m ;; k" := (bind m (fun x => k))
  (at level 61, m at next level, right associativity).
Notation "m ;;; k" := (bind m (fun _ => k))
  (at level 61, right associativity).

(** [NewConnection]. *)
Definition NewConnection (net : network) : M connection :=
  d2cPort <- try "error selecting available client-side port: "
               (GetFreePort net) ;;
  negAddr <- try "error resolving address for connection negotiation: "
               (ResolveTCPAddr net (deviceIP, discoveryPort)) ;;
  perform (CallDialTCP negAddr) ;;;
  check "error negotiating connection: " (DialTCP net negAddr) ;;;
  defer (perform CallTCPClose)
    (jsonBytes <- try "error marshaling connection negotiation request: "
                    (jsonMarshal net (mkRequest d2cPort "computer" "go-parrot")) ;;
     perform (CallTCPWrite (jsonBytes ++ [0])%list) ;;;
     check "error sending connection negotiation request: "
       (negConnWrite net (jsonBytes ++ [0])%list) ;;;
     perform CallTCPReadBytes ;;;
     data <- try "error receiving connection negotiation response: "
               (negConnReadBytes net) ;;
     negRes <- try "error unmarshaling connection negotiation response: "
                 (jsonUnmarshal net (removelast data)) ;;
     (* Any non-zero status is a refused connection. *)
     if negb (Status negRes =? 0)%Z
     then fail "connection negotiation failed; connection refused by device"
     else
       (* Establish an outbound connection... *)
       c2dAddr <- try "error resolving address for outbound connection: "
                    (ResolveUDPAddr net (deviceIP, C2DPort negRes)) ;;
       perform (CallDialUDP c2dAddr) ;;;
       c2dConn <- try "error establishing outbound connection: "
                    (DialUDP net c2dAddr) ;;
       (* Establish an inbound connection... *)
       d2cAddr <- try "error resolving address for inbound connection: "
                    (ResolveUDPAddr net (EmptyString, d2cPort)) ;;
       perform (CallListenUDP d2cAddr) ;;;
       d2cConn <- try "error establishing inbound connection: "
                    (ListenUDP net d2cAddr) ;;
       perform GoReceivePackets ;;;
       ret (mkConnection (C2DPort negRes) c2dConn d2cPort d2cConn false
              AtSelect defaultEncodeFrame defaultDecodeData)).

(** The response the handshake obtains, when every step up to the
    decoding of the response succeeds. *)
Definition negotiated (net : network) : option connectionNegotiationResponse :=
  match GetFreePort net with
  | inl _ => None
  | inr d2cPort =>
      match ResolveTCPAddr net (deviceIP, discoveryPort) with
      | inl _ => None
      | inr negAddr =>
          match DialTCP net negAddr,
                jsonMarshal net (mkRequest d2cPort "computer" "go-parrot") with
          | None, inr jsonBytes =>
              match negConnWrite net (jsonBytes ++ [0])%list,
                    negConnReadBytes net with
              | None, inr data =>
                  match jsonUnmarshal net (removelast data) with
                  | inr negRes => Some negRes
                  | inl _ => None
                  end
              | _, _ => None
              end
          | _, _ => None
          end
      end
  end.

(** ** The stand-alone frame receiver *)

(** How a call of [frameReceiver.Receive] ends: it returns, or
    [log.Fatal] ends the process. *)
Inductive received : Type :=
| Returns (r : error + list Frame)
| Fatal (msg : string).

(** [frameReceiver.Receive], given what [SetReadDeadline] and
    [ReadFromUDP] answer; [size] is the length of the datagram buffer. *)
Definition frameReceiver_Receive
    (decodeDatagram : bytes -> error + list Frame) (size : nat)
    (deadline : option error) (read : bytes + netError) : received :=
  match deadline with
  | Some err =>
      Returns (inl ("error setting read deadline for datagram: " ++ err))
  | None =>
      match read with
      | inr err =>
          match err with
          | OpError true _ | NetError true _ =>
              Fatal "detected a probable disconnection"
          | _ =>
              Returns (inl ("error receiving datagram from d2c connection: "
                              ++ Error err))
          end
      | inl datagram => Returns (decodeDatagram (firstn size datagram))
      end
  end.

End Wifi.

(* ================================================================== *)
(** * Package arnetwork: the controller-to-device buffer *)
(* ================================================================== *)

Module ARNetwork.

(** [arnetwork.Frame].  It is declared elsewhere in the repository; the
    buffer reads its [Data] only. *)
Record Frame : Type := mkFrame {
  Data : bytes
}.

(** [C2DBufferConfig], with the fields the buffer reads.  [MaxRetries] is
    an [int] (it is compared with the [int] counter of the loop) and
    [AckTimeout] a duration, in ticks of the clock below. *)
Record C2DBufferConfig : Type := mkConfig {
  ID : Z;
  FrameType : ARNetworkAL.FrameType;
  Size : Z;
  IsOverwriting : bool;
  MaxRetries : Z;
  AckTimeout : Z
}.

Section C2DBuffer.

Context {C : Type} {connection : ARNetworkAL.Connection C}.

(** [c2dBuffer], together with the part of the world its writer acts on.

    The fields of the struct: the embedded configuration, [conn], [seq]
    and [ackCh].  The channel is given by the frames that will be offered
    on it, in order, each with the time from which its sender is ready.

    The world: [clock] is the current time, [handed] the frames passed to
    [conn.Send] so far (oldest first) and [logged] the lines printed to
    the log. *)
Record c2dBuffer : Type := mkBuffer {
  config : C2DBufferConfig;
  conn : C;
  seq : Z;
  ackCh : list (Z * Frame);
  clock : Z;
  handed : list ARNetworkAL.Frame;
  logged : list string
}.

(** Lines 99 to 108: build the frame from the current sequence number,
    increment the counter, pass the frame to the connection and log the
    error, if any. *)
Definition send (c : c2dBuffer) (frame : Frame) : ARNetworkAL.Frame * c2dBuffer :=
  let netFrame :=
    ARNetworkAL.mkFrame (ID (config c)) (FrameType (config c)) (seq c)
      (Data frame) in
  let (conn', err) := ARNetworkAL.Send (conn c) netFrame in
  (netFrame,
   mkBuffer (config c) conn' (uint8 (seq c + 1)) (ackCh c) (clock c)
     (handed c ++ [netFrame])
     (match err with
      | Some e => logged c ++ [("error sending frame: " ++ e)%string]
      | None => logged c
      end)).

(** How the select of lines 110 to 119 ends. *)
Inductive waited : Type :=
| AckMatches
| AckDiffers
| TimedOut.

(** The select of lines 110 to 119.  It receives the next frame of
    [ackCh] if that frame is ready before the timer of [time.After]
    fires, and compares its data with the decimal text of the sequence
    number just sent; otherwise the timer fires (when both are ready at
    the same instant Go takes either case; here the timer wins).  One
    select receives one frame.  A timeout that is not positive fires at
    once. *)
Definition awaitAck (c : c2dBuffer) (netFrame : ARNetworkAL.Frame)
  : waited * c2dBuffer :=
  let deadline := clock c + Z.max 0 (AckTimeout (config c)) in
  let expired :=
    mkBuffer (config c) (conn c) (seq c) (ackCh c) deadline (handed c)
      (logged c) in
  match ackCh c with
  | (ready, ack) :: later =>
      if ready <? deadline
      then
        (if bytes_Equal (Sprintf_d (ARNetworkAL.Seq netFrame)) (Data ack)
         then AckMatches else AckDiffers,
         mkBuffer (config c) (conn c) (seq c) later (Z.max (clock c) ready)
           (handed c) (logged c))
      else (TimedOut, expired)
  | [] => (TimedOut, expired)
  end.

(** The condition of the [for] statement of [writeFrame]. *)
Definition retrying (c : c2dBuffer) (attempts : Z) : bool :=
  (attempts <=? MaxRetries (config c)) || (MaxRetries (config c) =? -1).

(** How a run of [writeFrame] ends: by the [return] of line 116, by the
    loop condition turning false, or not within the steps it was given. *)
Inductive ending : Type :=
| ReturnedOnAck
| LoopEnded
| StillLooping.

(** The loop of [writeFrame], from the test of its condition with the
    counter at [attempts], run for at most [fuel] iterations. *)
Fixpoint writeFrameFrom (fuel : nat) (attempts : Z) (frame : Frame)
    (c : c2dBuffer) : ending * c2dBuffer :=
  if retrying c attempts then
    match fuel with
    | O => (StillLooping, c)
    | S fuel' =>
        let (netFrame, c1) := send c frame in
        if ARNetworkAL.Type_ netFrame =? ARNetworkAL.FrameTypeDataWithAck
        then
          match awaitAck c1 netFrame with
          | (AckMatches, c2) => (ReturnedOnAck, c2)
          | (_, c2) => writeFrameFrom fuel' (int_incr attempts) frame c2
          end
        else writeFrameFrom fuel' (int_incr attempts) frame c1
    end
  else (LoopEnded, c).

(** [writeFrame]. *)
Definition writeFrame (fuel : nat) (frame : Frame) (c : c2dBuffer)
  : ending * c2dBuffer :=
  writeFrameFrom fuel 0 frame c.

(** [writeFrames]: the frames of [outCh] are written one after the other;
    the writer reaches the next frame when [writeFrame] returns. *)
Fixpoint writeFrames (fuel : nat) (outCh : list Frame) (c : c2dBuffer)
  : ending * c2dBuffer :=
  match outCh with
  | [] => (LoopEnded, c)
  | frame :: later =>
      match writeFrame fuel frame c with
      | (StillLooping, c') => (StillLooping, c')
      | (_, c') => writeFrames fuel later c'
      end
  end.

(** ** Reference behaviour

    The frames of [n] attempts in a row for one payload, numbered from
    [s], and what passing a list of frames to the connection one after the
    other leaves behind: the connection after the last [Send] and the
    lines logged for the failed ones. *)

Definition attemptFrames (cfg : C2DBufferConfig) (s : Z) (data : bytes)
    (n : nat) : list ARNetworkAL.Frame :=
  map (fun k => ARNetworkAL.mkFrame (ID cfg) (FrameType cfg)
                  (uint8 (s + Z.of_nat k)) data)
    (List.seq 0 n).

Fixpoint sendAll (cn : C) (frames : list ARNetworkAL.Frame)
  : C * list string :=
  match frames with
  | [] => (cn, [])
  | f :: later =>
      let (cn1, err) := ARNetworkAL.Send cn f in
      let (cn2, lines) := sendAll cn1 later in
      (cn2,
       match err with
       | Some e => ("error sending frame: " ++ e)%string :: lines
       | None => lines
       end)
  end.

(** An ack frame carries the sequence number [s] when its data is the
    decimal text of [s]: this is what line 112 compares. *)
Definition carries (ack : Frame) (s : Z) : Prop := Data ack = Sprintf_d s.

(** The frames [fs] are numbered from [s] onwards, modulo 256. *)
Definition numberedFrom (s : Z) (fs : list ARNetworkAL.Frame) : Prop :=
  map ARNetworkAL.Seq fs =
  map (fun k => uint8 (s + Z.of_nat k)) (List.seq 0 (length fs)).

(** What a run of the writer adds to the frames handed to the connection
    is numbered from the counter it started with, and the counter ends
    that many steps further. *)
Definition counted (c c' : c2dBuffer) : Prop :=
  exists new,
    handed c' = handed c ++ new
    /\ numberedFrom (seq c) new
    /\ seq c' = uint8 (seq c + Z.of_nat (length new)).

(** The time one attempt takes when nothing arrives on [ackCh]: the
    timeout, for a frame that waits for an ack. *)
Definition waitOf (cfg : C2DBufferConfig) : Z :=
  if FrameType cfg =? ARNetworkAL.FrameTypeDataWithAck
  then Z.max 0 (AckTimeout cfg) else 0.

(** [newC2DBuffer], at time [now]: the counter starts at zero and
    [ackCh] is left nil.  A receive from a nil channel never proceeds, so
    the channel is one on which no frame is ever ready.  (The queue made
    by [newBuffer] is the [outCh] given to [writeFrames].) *)
Definition newC2DBuffer (bufCfg : C2DBufferConfig) (cn : C) (now : Z)
  : c2dBuffer :=
  mkBuffer bufCfg cn 0 [] now [] [].

(** The payloads of the first frames of a queue, each as many times in a
    row as the matching count says. *)
Definition blocks (queue : list Frame) (counts : list nat) : list bytes :=
  concat (map (fun p => repeat (Data (fst p)) (snd p)) (combine queue counts)).

(** The frames of a queue of which every item takes [n] attempts, the
    first numbered [s]. *)
Fixpoint queueFrames (cfg : C2DBufferConfig) (s : Z) (n : nat)
    (outCh : list Frame) : list ARNetworkAL.Frame :=
  match outCh with
  | [] => []
  | frame :: later =>
      attemptFrames cfg s (Data frame) n
        ++ queueFrames cfg (uint8 (s + Z.of_nat n)) n later
  end.

End C2DBuffer.

Arguments c2dBuffer C : clear implicits.
Arguments counted {C} c c'.

(** The same buffer over the connection that never fails, with an empty
    log: what is left of a buffer when the connection is put aside. *)
Definition overReliable {C : Type} (c : c2dBuffer C) : c2dBuffer unit :=
  mkBuffer (config c) tt (seq c) (ackCh c) (clock c) (handed c) [].

(** A connection that accepts every frame: the writer's view of a
    transport without failures. *)
#[export] Instance reliable : ARNetworkAL.Connection unit :=
  {| ARNetworkAL.Send := fun u _ => (u, None) |}.

(** A connection on which every [Send] fails. *)
#[export] Instance broken : ARNetworkAL.Connection bool :=
  {| ARNetworkAL.Send := fun b _ => (b, Some "network is unreachable"%string) |}.

End ARNetwork.

(* ================================================================== *)
(** * Package arcommands: decoded arguments *)
(* ================================================================== *)

Module ARCommands.

(** An element of the [[]interface{}] a handler receives: a value with
    its dynamic type.  A [float32] is carried by its bits. *)
Inductive value : Type :=
| Uint8 (z : Z)
| Uint16 (z : Z)
| Uint32 (z : Z)
| Uint64 (z : Z)
| Int16 (z : Z)
| Int32 (z : Z)
| Float32 (bits : Z)
| Str (s : string).

(** [string(0)]: the string of the one character of code 0. *)
Definition NUL : string := String Ascii.zero EmptyString.

(** [args[i].(uint8)] and its like: [None] is the panic of an index out
    of range or of a failed type assertion. *)
Definition uint8_at (args : list value) (i : nat) : option Z :=
  match nth_error args i with
  | Some (Uint8 z) => Some z
  | _ => None
  end.

Definition uint16_at (args : list value) (i : nat) : option Z :=
  match nth_error args i with
  | Some (Uint16 z) => Some z
  | _ => None
  end.

Definition int16_at (args : list value) (i : nat) : option Z :=
  match nth_error args i with
  | Some (Int16 z) => Some z
  | _ => None
  end.

Definition int32_at (args : list value) (i : nat) : option Z :=
  match nth_error args i with
  | Some (Int32 z) => Some z
  | _ => None
  end.

Definition string_at (args : list value) (i : nat) : option string :=
  match nth_error args i with
  | Some (Str s) => Some s
  | _ => None
  end.

Definition float32_at (args : list value) (i : nat) : option Z :=
  match nth_error args i with
  | Some (Float32 bits) => Some bits
  | _ => None
  end.

(** A command of a feature received from the device: its id, its name,
    the zero values that give the types of its arguments, and its
    handler, a partial function on the state of the feature. *)
Record D2CCommand (S : Type) : Type := NewD2CCommand {
  cmdID : Z;
  cmdName : string;
  argTemplate : list value;
  execute : list value -> S -> option S
}.

Arguments NewD2CCommand {S}.
Arguments cmdID {S}.
Arguments cmdName {S}.
Arguments argTemplate {S}.
Arguments execute {S}.

(** ** Sequences of commands

    The dispatcher hands the decoded commands to the handlers one after
    the other.  [execAll] runs a sequence of calls, each a command with
    its arguments, from a given state; [None] when a handler panics. *)
Fixpoint execAll {S : Type} (s : S) (calls : list (D2CCommand S * list value))
  : option S :=
  match calls with
  | [] => Some s
  | (cmd, args) :: later =>
      match execute cmd args s with
      | Some s' => execAll s' later
      | None => None
      end
  end.

(** The value the last call of the command named [owner] stored, [stored]
    telling which of its arguments that is; [acc] when there is no such
    call. *)
Definition lastStored {S A : Type} (owner : string)
    (stored : list value -> option A)
    (calls : list (D2CCommand S * list value)) (acc : option A) : option A :=
  fold_left
    (fun acc call =>
       if String.eqb (cmdName (fst call)) owner then stored (snd call)
       else acc)
    calls acc.

(** What an accessor returns for a field: the zero value and [false]
    while the field is nil, the value and [true] after. *)
Definition render {A : Type} (zero : A) (field : option A) : A * bool :=
  match field with
  | None => (zero, false)
  | Some v => (v, true)
  end.

(** The accessor [get] follows the reported-versus-default convention on
    the commands [cmds] from the state [init]: after any sequence of
    calls, it returns the value the last call of its command stored,
    and the zero value with [false] when that command was never called. *)
Definition reportedVsDefault {S A : Type} (init : S)
    (cmds : list (D2CCommand S)) (get : S -> A * bool) (zero : A)
    (owner : string) (stored : list value -> option A) : Prop :=
  forall calls s,
    Forall (fun call => In (fst call) cmds) calls ->
    execAll init calls = Some s ->
    get s = render zero (lastStored owner stored calls None).

(** The same, command by command: [get] returns the zero value on
    [init]; the command named [owner] leaves the value it stores, and
    every other command leaves what [get] returns as it was. *)
Definition followsConvention {S A : Type} (init : S)
    (cmds : list (D2CCommand S)) (get : S -> A * bool) (zero : A)
    (owner : string) (stored : list value -> option A) : Prop :=
  get init = (zero, false)
  /\ forall cmd args s s',
       In cmd cmds -> execute cmd args s = Some s' ->
       if String.eqb (cmdName cmd) owner
       then exists v, stored args = Some v /\ get s' = (v, true)
       else get s' = get s.

(** Arguments of the types of a template. *)
Definition sameType (a b : value) : bool :=
  match a, b with
  | Uint8 _, Uint8 _ | Uint16 _, Uint16 _ | Uint32 _, Uint32 _
  | Uint64 _, Uint64 _ | Int16 _, Int16 _ | Int32 _, Int32 _
  | Float32 _, Float32 _ | Str _, Str _ => true
  | _, _ => false
  end.

Fixpoint wellTyped (template args : list value) : bool :=
  match template, args with
  | [], [] => true
  | t :: template', a :: args' => sameType t a && wellTyped template' args'
  | _, _ => false
  end.

End ARCommands.

(* ================================================================== *)
(** * Package common: common state *)
(* ================================================================== *)

Module Common.
Import ARCommands.

Record commonState : Type := mkCommonState {
  rssi : option Z;
  massStorageID : option Z;
  photoCount : option Z;
  videoCount : option Z;
  pudCount : option Z;
  crashLogCount : option Z;
  rawPhotoCount : option Z;
  currentRunMassStorageID : option Z;
  currentRunPhotoCount : option Z;
  currentRunVideoCount : option Z;
  currentRunRawPhotoCount : option Z;
  batteryPercent : option Z
}.

(** [commonState{}]: every pointer is nil. *)
Definition zero : commonState :=
  mkCommonState None None None None None None None None None None None None.

(** ** Handlers *)

Definition allStatesChanged (args : list value) (c : commonState)
  : option commonState := Some c.

Definition batteryStateChanged (args : list value) (c : commonState)
  : option commonState :=
  match uint8_at args 0 with
  | Some percent =>
      Some (mkCommonState (rssi c) (massStorageID c) (photoCount c)
              (videoCount c) (pudCount c) (crashLogCount c) (rawPhotoCount c)
              (currentRunMassStorageID c) (currentRunPhotoCount c)
              (currentRunVideoCount c) (currentRunRawPhotoCount c)
              (Some percent))
  | None => None
  end.

Definition massStorageStateListChanged (args : list value) (c : commonState)
  : option commonState := Some c.

Definition massStorageInfoStateListChanged (args : list value)
    (c : commonState) : option commonState := Some c.

Definition currentDateChanged (args : list value) (c : commonState)
  : option commonState := Some c.

Definition currentTimeChanged (args : list value) (c : commonState)
  : option commonState := Some c.

Definition wifiSignalChanged (args : list value) (c : commonState)
  : option commonState :=
  match int16_at args 0 with
  | Some r =>
      Some (mkCommonState (Some r) (massStorageID c) (photoCount c)
              (videoCount c) (pudCount c) (crashLogCount c) (rawPhotoCount c)
              (currentRunMassStorageID c) (currentRunPhotoCount c)
              (currentRunVideoCount c) (currentRunRawPhotoCount c)
              (batteryPercent c))
  | None => None
  end.

Definition sensorsStatesListChanged (args : list value) (c : commonState)
  : option commonState := Some c.

Definition deprecatedMassStorageContentChanged (args : list value)
    (c : commonState) : option commonState := Some c.

Definition massStorageContent (args : list value) (c : commonState)
  : option commonState :=
  match uint8_at args 0, uint16_at args 1, uint16_at args 2,
        uint16_at args 3, uint16_at args 4, uint16_at args 5 with
  | Some id, Some photos, Some videos, Some puds, Some crashLogs,
    Some rawPhotos =>
      Some (mkCommonState (rssi c) (Some id) (Some photos) (Some videos)
              (Some puds) (Some crashLogs) (Some rawPhotos)
              (currentRunMassStorageID c) (currentRunPhotoCount c)
              (currentRunVideoCount c) (currentRunRawPhotoCount c)
              (batteryPercent c))
  | _, _, _, _, _, _ => None
  end.

Definition massStorageContentForCurrentRun (args : list value)
    (c : commonState) : option commonState :=
  match uint8_at args 0, uint16_at args 1, uint16_at args 2,
        uint16_at args 3 with
  | Some id, Some photos, Some videos, Some rawPhotos =>
      Some (mkCommonState (rssi c) (massStorageID c) (photoCount c)
              (videoCount c) (pudCount c) (crashLogCount c) (rawPhotoCount c)
              (Some id) (Some photos) (Some videos) (Some rawPhotos)
              (batteryPercent c))
  | _, _, _, _ => None
  end.

Definition videoRecordingTimestamp (args : list value) (c : commonState)
  : option commonState := Some c.

(** [D2CCommands]. *)
Definition D2CCommands : list (D2CCommand commonState) :=
  [ NewD2CCommand 0 "AllStatesChanged" [] allStatesChanged;
    NewD2CCommand 1 "BatteryStateChanged" [Uint8 0] batteryStateChanged;
    NewD2CCommand 2 "MassStorageStateListChanged" [Uint8 0; Str NUL]
      massStorageStateListChanged;
    NewD2CCommand 3 "MassStorageInfoStateListChanged"
      [Uint8 0; Uint32 0; Uint32 0; Uint8 0; Uint8 0; Uint8 0]
      massStorageInfoStateListChanged;
    NewD2CCommand 4 "CurrentDateChanged" [Str NUL] currentDateChanged;
    NewD2CCommand 5 "CurrentTimeChanged" [Str NUL] currentTimeChanged;
    NewD2CCommand 7 "WifiSignalChanged" [Int16 0] wifiSignalChanged;
    NewD2CCommand 8 "SensorsStatesListChanged" [Int32 0; Uint8 0]
      sensorsStatesListChanged;
    NewD2CCommand 11 "DeprecatedMassStorageContentChanged"
      [Uint8 0; Uint16 0; Uint16 0; Uint16 0; Uint16 0]
      deprecatedMassStorageContentChanged;
    NewD2CCommand 12 "MassStorageContent"
      [Uint8 0; Uint16 0; Uint16 0; Uint16 0; Uint16 0; Uint16 0]
      massStorageContent;
    NewD2CCommand 13 "MassStorageContentForCurrentRun"
      [Uint8 0; Uint16 0; Uint16 0; Uint16 0]
      massStorageContentForCurrentRun;
    NewD2CCommand 14 "VideoRecordingTimestamp" [Uint64 0; Uint64 0]
      videoRecordingTimestamp ].

(** ** Accessors *)

Definition RSSI (c : commonState) : Z * bool :=
  match rssi c with
  | None => (0, false)
  | Some v => (v, true)
  end.

Definition MassStorageID (c : commonState) : Z * bool :=
  match massStorageID c with
  | None => (0, false)
  | Some v => (v, true)
  end.

Definition PhotoCount (c : commonState) : Z * bool :=
  match photoCount c with
  | None => (0, false)
  | Some v => (v, true)
  end.

Definition VideoCount (c : commonState) : Z * bool :=
  match videoCount c with
  | None => (0, false)
  | Some v => (v, true)
  end.

Definition PudCount (c : commonState) : Z * bool :=
  match pudCount c with
  | None => (0, false)
  | Some v => (v, true)
  end.

Definition CrashLogCount (c : commonState) : Z * bool :=
  match crashLogCount c with
  | None => (0, false)
  | Some v => (v, true)
  end.

Definition RawPhotoCount (c : commonState) : Z * bool :=
  match rawPhotoCount c with
  | None => (0, false)
  | Some v => (v, true)
  end.

Definition CurrentRunMassStorageID (c : commonState) : Z * bool :=
  match currentRunMassStorageID c with
  | None => (0, false)
  | Some v => (v, true)
  end.

Definition CurrentRunPhotoCount (c : commonState) : Z * bool :=
  match currentRunPhotoCount c with
  | None => (0, false)
  | Some v => (v, true)
  end.

Definition CurrentRunVideoCount (c : commonState) : Z * bool :=
  match currentRunVideoCount c with
  | None => (0, false)
  | Some v => (v, true)
  end.

Definition CurrentRunRawPhotoCount (c : commonState) : Z * bool :=
  match currentRunRawPhotoCount c with
  | None => (0, false)
  | Some v => (v, true)
  end.

Definition BatteryPercent (c : commonState) : Z * bool :=
  match batteryPercent c with
  | None => (0, false)
  | Some v => (v, true)
  end.

End Common.

(* ================================================================== *)
(** * Package ardrone3: piloting settings state *)
(* ================================================================== *)

Module ARDrone3.
Import ARCommands.

(** The [float32] fields hold the bits of the number; the bits of the
    zero value are 0. *)
Record pilotingSettingsState : Type := mkPilotingSettingsState {
  motionDetectionEnabled : option bool;
  maxAltitude : option Z;
  maxAltitudeRangeMin : option Z;
  maxAltitudeRangeMax : option Z;
  maxDistance : option Z;
  maxDistanceRangeMin : option Z;
  maxDistanceRangeMax : option Z;
  maxTilt : option Z;
  maxTiltRangeMin : option Z;
  maxTiltRangeMax : option Z;
  geofencingEnabled : option bool;
  bankedTurningEnabled : option bool
}.

(** [newPilotingSettingsState]. *)
Definition newPilotingSettingsState : pilotingSettingsState :=
  mkPilotingSettingsState None None None None None None None None None None
    None None.

(** ** Handlers *)

Definition maxAltitudeChanged (args : list value) (p : pilotingSettingsState)
  : option pilotingSettingsState :=
  match float32_at args 0, float32_at args 1, float32_at args 2 with
  | Some current, Some min, Some max =>
      Some (mkPilotingSettingsState (motionDetectionEnabled p)
              (Some current) (Some min) (Some max) (maxDistance p)
              (maxDistanceRangeMin p) (maxDistanceRangeMax p) (maxTilt p)
              (maxTiltRangeMin p) (maxTiltRangeMax p) (geofencingEnabled p)
              (bankedTurningEnabled p))
  | _, _, _ => None
  end.

Definition maxTiltChanged (args : list value) (p : pilotingSettingsState)
  : option pilotingSettingsState :=
  match float32_at args 0, float32_at args 1, float32_at args 2 with
  | Some current, Some min, Some max =>
      Some (mkPilotingSettingsState (motionDetectionEnabled p)
              (maxAltitude p) (maxAltitudeRangeMin p)
              (maxAltitudeRangeMax p) (maxDistance p)
              (maxDistanceRangeMin p) (maxDistanceRangeMax p) (Some current)
              (Some min) (Some max) (geofencingEnabled p)
              (bankedTurningEnabled p))
  | _, _, _ => None
  end.

Definition maxDistanceChanged (args : list value) (p : pilotingSettingsState)
  : option pilotingSettingsState :=
  match float32_at args 0, float32_at args 1, float32_at args 2 with
  | Some current, Some min, Some max =>
      Some (mkPilotingSettingsState (motionDetectionEnabled p)
              (maxAltitude p) (maxAltitudeRangeMin p)
              (maxAltitudeRangeMax p) (Some current) (Some min) (Some max)
              (maxTilt p) (maxTiltRangeMin p) (maxTiltRangeMax p)
              (geofencingEnabled p) (bankedTurningEnabled p))
  | _, _, _ => None
  end.

Definition noFlyOverMaxDistanceChanged (args : list value) (p : pilotingSettingsState)
  : option pilotingSettingsState :=
  match uint8_at args 0 with
  | Some shouldNotFlyOver =>
      Some (mkPilotingSettingsState (motionDetectionEnabled p)
              (maxAltitude p) (maxAltitudeRangeMin p)
              (maxAltitudeRangeMax p) (maxDistance p)
              (maxDistanceRangeMin p) (maxDistanceRangeMax p) (maxTilt p)
              (maxTiltRangeMin p) (maxTiltRangeMax p)
              (Some (shouldNotFlyOver =? 1)) (bankedTurningEnabled p))
  | None => None
  end.

Definition autonomousFlightMaxHorizontalSpeed (args : list value)
    (p : pilotingSettingsState) : option pilotingSettingsState := Some p.

Definition autonomousFlightMaxVerticalSpeed (args : list value)
    (p : pilotingSettingsState) : option pilotingSettingsState := Some p.

Definition autonomousFlightMaxHorizontalAcceleration (args : list value)
    (p : pilotingSettingsState) : option pilotingSettingsState := Some p.

Definition autonomousFlightMaxVerticalAcceleration (args : list value)
    (p : pilotingSettingsState) : option pilotingSettingsState := Some p.

Definition autonomousFlightMaxRotationSpeed (args : list value)
    (p : pilotingSettingsState) : option pilotingSettingsState := Some p.

Definition bankedTurnChanged (args : list value) (p : pilotingSettingsState)
  : option pilotingSettingsState :=
  match uint8_at args 0 with
  | Some state =>
      Some (mkPilotingSettingsState (motionDetectionEnabled p)
              (maxAltitude p) (maxAltitudeRangeMin p)
              (maxAltitudeRangeMax p) (maxDistance p)
              (maxDistanceRangeMin p) (maxDistanceRangeMax p) (maxTilt p)
              (maxTiltRangeMin p) (maxTiltRangeMax p) (geofencingEnabled p)
              (Some (state =? 1)))
  | None => None
  end.

Definition motionDetection (args : list value) (p : pilotingSettingsState)
  : option pilotingSettingsState :=
  match uint8_at args 0 with
  | Some enabled =>
      Some (mkPilotingSettingsState (Some (enabled =? 1)) (maxAltitude p)
              (maxAltitudeRangeMin p) (maxAltitudeRangeMax p)
              (maxDistance p) (maxDistanceRangeMin p)
              (maxDistanceRangeMax p) (maxTilt p) (maxTiltRangeMin p)
              (maxTiltRangeMax p) (geofencingEnabled p)
              (bankedTurningEnabled p))
  | None => None
  end.

(** [D2CCommands]. *)
Definition D2CCommands : list (D2CCommand pilotingSettingsState) :=
  [ NewD2CCommand 0 "MaxAltitudeChanged" [Float32 0; Float32 0; Float32 0]
      maxAltitudeChanged;
    NewD2CCommand 1 "MaxTiltChanged" [Float32 0; Float32 0; Float32 0]
      maxTiltChanged;
    NewD2CCommand 3 "MaxDistanceChanged" [Float32 0; Float32 0; Float32 0]
      maxDistanceChanged;
    NewD2CCommand 4 "NoFlyOverMaxDistanceChanged" [Uint8 0]
      noFlyOverMaxDistanceChanged;
    NewD2CCommand 5 "AutonomousFlightMaxHorizontalSpeed" [Float32 0]
      autonomousFlightMaxHorizontalSpeed;
    NewD2CCommand 6 "AutonomousFlightMaxVerticalSpeed" [Float32 0]
      autonomousFlightMaxVerticalSpeed;
    NewD2CCommand 7 "AutonomousFlightMaxHorizontalAcceleration" [Float32 0]
      autonomousFlightMaxHorizontalAcceleration;
    NewD2CCommand 8 "AutonomousFlightMaxVerticalAcceleration" [Float32 0]
      autonomousFlightMaxVerticalAcceleration;
    NewD2CCommand 9 "AutonomousFlightMaxRotationSpeed" [Float32 0]
      autonomousFlightMaxRotationSpeed;
    NewD2CCommand 10 "BankedTurnChanged" [Uint8 0] bankedTurnChanged;
    NewD2CCommand 16 "MotionDetection" [Uint8 0] motionDetection ].

(** ** Accessors *)

Definition MotionDetectionEnabled (p : pilotingSettingsState) : bool * bool :=
  match motionDetectionEnabled p with
  | None => (false, false)
  | Some v => (v, true)
  end.

Definition MaxAltitude (p : pilotingSettingsState) : Z * bool :=
  match maxAltitude p with
  | None => (0, false)
  | Some v => (v, true)
  end.

Definition MaxAltitudeRangeMin (p : pilotingSettingsState) : Z * bool :=
  match maxAltitudeRangeMin p with
  | None => (0, false)
  | Some v => (v, true)
  end.

Definition MaxAltitudeRangeMax (p : pilotingSettingsState) : Z * bool :=
  match maxAltitudeRangeMax p with
  | None => (0, false)
  | Some v => (v, true)
  end.

Definition MaxDistance (p : pilotingSettingsState) : Z * bool :=
  match maxDistance p with
  | None => (0, false)
  | Some v => (v, true)
  end.

Definition MaxDistanceRangeMin (p : pilotingSettingsState) : Z * bool :=
  match maxDistanceRangeMin p with
  | None => (0, false)
  | Some v => (v, true)
  end.

Definition MaxDistanceRangeMax (p : pilotingSettingsState) : Z * bool :=
  match maxDistanceRangeMax p with
  | None => (0, false)
  | Some v => (v, true)
  end.

Definition MaxTilt (p : pilotingSettingsState) : Z * bool :=
  match maxTilt p with
  | None => (0, false)
  | Some v => (v, true)
  end.

Definition MaxTiltRangeMin (p : pilotingSettingsState) : Z * bool :=
  match maxTiltRangeMin p with
  | None => (0, false)
  | Some v => (v, true)
  end.

Definition MaxTiltRangeMax (p : pilotingSettingsState) : Z * bool :=
  match maxTiltRangeMax p with
  | None => (0, false)
  | Some v => (v, true)
  end.

Definition GeofencingEnabled (p : pilotingSettingsState) : bool * bool :=
  match geofencingEnabled p with
  | None => (false, false)
  | Some v => (v, true)
  end.

Definition BankedTurningEnabled (p : pilotingSettingsState) : bool * bool :=
  match bankedTurningEnabled p with
  | None => (false, false)
  | Some v => (v, true)
  end.

End ARDrone3.

(* ================================================================== *)
(** * Package ardrone3: accessory state *)
(* ================================================================== *)

Module AccessoryState.
Import ARCommands.

(** The [accessory] struct, with the fields the handlers write.  Its
    declaration is elsewhere in the repository. *)
Record accessory : Type := mkAccessory {
  id : Z;
  tipe : Z;
  uid : string;
  softwareVersion : string;
  batteryPercent : Z
}.

(** [map[uint8]Accessory]: at most one entry per key; the order of the
    entries has no meaning.  The entries are pointers to [accessory]; a
    write through the pointer is modelled by replacing the entry. *)
Definition accessoryMap : Type := list (Z * accessory).

Fixpoint lookup (m : accessoryMap) (key : Z) : option accessory :=
  match m with
  | [] => None
  | (k, acc) :: later => if k =? key then Some acc else lookup later key
  end.

(** [delete(m, key)]. *)
Fixpoint delete (m : accessoryMap) (key : Z) : accessoryMap :=
  match m with
  | [] => []
  | (k, acc) :: later =>
      if k =? key then delete later key else (k, acc) :: delete later key
  end.

(** [m[key] = acc]. *)
Definition store (m : accessoryMap) (key : Z) (acc : accessory)
  : accessoryMap :=
  (key, acc) :: delete m key.

Record accessoryState : Type := mkAccessoryState {
  accessories : accessoryMap
}.

(** An accessory state that holds an empty map. *)
Definition empty : accessoryState := mkAccessoryState [].

(** The entry of the accessory to add or update: the one in the map, or
    a new one with the zero value in every field but [id]. *)
Definition entry (a : accessoryState) (accessoryID : Z) : accessory :=
  match lookup (accessories a) accessoryID with
  | Some acc => acc
  | None => mkAccessory accessoryID 0 EmptyString EmptyString 0
  end.

(** [connectedAccessories]. *)
Definition connectedAccessories (args : list value) (a : accessoryState)
  : option accessoryState :=
  match uint8_at args 4 with
  | None => None
  | Some flags =>
      if Z.land flags 4 =? 4 then Some a
      else
        match uint8_at args 0 with
        | None => None
        | Some accessoryID =>
            if Z.land flags 8 =? 8
            then Some (mkAccessoryState (delete (accessories a) accessoryID))
            else
              let acc := entry a accessoryID in
              match int32_at args 1, string_at args 2, string_at args 3 with
              | Some t, Some u, Some v =>
                  Some (mkAccessoryState
                          (store (accessories a) accessoryID
                             (mkAccessory (id acc) t u v
                                (batteryPercent acc))))
              | _, _, _ => None
              end
        end
  end.

(** [battery]. *)
Definition battery (args : list value) (a : accessoryState)
  : option accessoryState :=
  match uint8_at args 2 with
  | None => None
  | Some flags =>
      if Z.land flags 4 =? 4 then Some a
      else
        match uint8_at args 0 with
        | None => None
        | Some accessoryID =>
            if Z.land flags 8 =? 8
            then Some (mkAccessoryState (delete (accessories a) accessoryID))
            else
              let acc := entry a accessoryID in
              match uint8_at args 1 with
              | Some level =>
                  Some (mkAccessoryState
                          (store (accessories a) accessoryID
                             (mkAccessory (id acc) (tipe acc) (uid acc)
                                (softwareVersion acc) level)))
              | None => None
              end
        end
  end.

(** [D2CCommands]. *)
Definition D2CCommands : list (D2CCommand accessoryState) :=
  [ NewD2CCommand 0 "ConnectedAccessories"
      [Uint8 0; Int32 0; Str NUL; Str NUL; Uint8 0] connectedAccessories;
    NewD2CCommand 1 "Battery" [Uint8 0; Uint8 0; Uint8 0] battery ].

(** [Accessories]. *)
Definition Accessories (a : accessoryState) : accessoryMap := accessories a.

End AccessoryState.

(* ================================================================== *)
(** * Sample values *)
(* ================================================================== *)

Module Samples.

Definition sampleFrame : ARNetworkAL.Frame :=
  ARNetworkAL.mkFrame 11 ARNetworkAL.FrameTypeDataWithAck 255 [2; 0; 255].

(** A buffer for acknowledged data and one for plain data, over a
    connection that never fails, with the counter about to wrap. *)
Definition ackedConfig (retries : Z) : ARNetwork.C2DBufferConfig :=
  ARNetwork.mkConfig 11 ARNetworkAL.FrameTypeDataWithAck 20 false retries 10.

Definition dataConfig (retries : Z) : ARNetwork.C2DBufferConfig :=
  ARNetwork.mkConfig 10 ARNetworkAL.FrameTypeData 2 true retries 10.

Definition buffer (cfg : ARNetwork.C2DBufferConfig)
    (acks : list (Z * ARNetwork.Frame)) : ARNetwork.c2dBuffer unit :=
  ARNetwork.mkBuffer cfg tt 254 acks 0 [] [].

Definition payload : ARNetwork.Frame := ARNetwork.mkFrame [1; 2].

(** An ack for another frame, ready at time 1, followed at time 2 by the
    ack for the frame numbered 254. *)
Definition staleThenRight : list (Z * ARNetwork.Frame) :=
  [(1, ARNetwork.mkFrame (Sprintf_d 253));
   (2, ARNetwork.mkFrame (Sprintf_d 254))].

(** A socket as the operating system provides it: a datagram over IPv4
    carries at most 65507 bytes. *)
Definition udp4 : Wifi.UDPConn :=
  Wifi.mkUDPConn
    (fun b => if 65507 <? Z.of_nat (length b)
              then Some "message too long"%string else None) [] false.

(** A socket that takes every datagram. *)
Definition unbounded : Wifi.UDPConn :=
  Wifi.mkUDPConn (fun _ => None) [] false.

Definition connectionOver (c2d : Wifi.UDPConn) : Wifi.connection :=
  Wifi.mkConnection 54321 c2d 43210 udp4 false Wifi.AtSelect
    ARNetworkAL.defaultEncodeFrame ARNetworkAL.defaultDecodeData.

(** A frame whose encoding is one byte longer than [maxUDPDataBytes]. *)
Definition oversized : ARNetworkAL.Frame :=
  ARNetworkAL.mkFrame 10 ARNetworkAL.FrameTypeData 0
    (repeat 0 (Z.to_nat 65501)).

(** A device that answers the handshake with the given status. *)
Definition device (status : Z) : Wifi.network :=
  Wifi.mkNetwork (inr 43210) (fun a => inr a) (fun _ => None)
    (fun _ => inr [123; 125]) (fun _ => None) (inr [123; 125; 0])
    (fun _ => inr (Wifi.mkResponse status 54321))
    (fun a => inr a) (fun _ => inr udp4) (fun _ => inr udp4).

(** A stretch of the life of the receiving goroutine: a read that times
    out, then a read that fails, the error being taken by a caller of
    [Receive]. *)
Definition noisyEvents : list Wifi.event :=
  [ Wifi.Scheduled; Wifi.SetReadDeadlineReturns None;
    Wifi.ReadFromUDPReturns (inr (Wifi.OpError true "i/o timeout"%string));
    Wifi.Scheduled; Wifi.SetReadDeadlineReturns None;
    Wifi.ReadFromUDPReturns
      (inr (Wifi.OpError false "connection refused"%string));
    Wifi.ReceiveCalled; Wifi.Scheduled ].

(** A connection whose goroutine is blocked in its read, and what
    happens while [Close] waits for it: the read times out and the
    goroutine finds [rcvStopCh] closed at its next select. *)
Definition reading : Wifi.connection :=
  Wifi.set_receiver (connectionOver udp4) Wifi.AtReadFromUDP.

Definition closingEvents : list Wifi.event :=
  [ Wifi.ReadFromUDPReturns (inr (Wifi.OpError true "i/o timeout"%string));
    Wifi.Scheduled ].

(** The same as a schedule without end: once the goroutine has returned,
    callers go on calling [Receive]. *)
Definition closingSchedule (n : nat) : Wifi.event :=
  match n with
  | O => Wifi.ReadFromUDPReturns (inr (Wifi.OpError true "i/o timeout"%string))
  | S O => Wifi.Scheduled
  | _ => Wifi.ReceiveCalled
  end.

(** Commands as the device sends them: two battery reports around a
    report of the signal strength. *)
Definition telemetry
  : list (ARCommands.D2CCommand Common.commonState * list ARCommands.value) :=
  [ (ARCommands.NewD2CCommand 1 "BatteryStateChanged" [ARCommands.Uint8 0]
       Common.batteryStateChanged, [ARCommands.Uint8 87]);
    (ARCommands.NewD2CCommand 7 "WifiSignalChanged" [ARCommands.Int16 0]
       Common.wifiSignalChanged, [ARCommands.Int16 (-60)]);
    (ARCommands.NewD2CCommand 1 "BatteryStateChanged" [ARCommands.Uint8 0]
       Common.batteryStateChanged, [ARCommands.Uint8 86]) ].

(** The device lists the accessory 7, then withdraws it. *)
Definition accessoryListed : list ARCommands.value :=
  [ ARCommands.Uint8 7; ARCommands.Int32 2; ARCommands.Str "uid";
    ARCommands.Str "1.0"; ARCommands.Uint8 0 ].

Definition accessoryWithdrawn : list ARCommands.value :=
  [ ARCommands.Uint8 7; ARCommands.Int32 0; ARCommands.Str EmptyString;
    ARCommands.Str EmptyString; ARCommands.Uint8 8 ].

(** A battery level of the accessory 7. *)
Definition batteryReported : list ARCommands.value :=
  [ ARCommands.Uint8 7; ARCommands.Uint8 55; ARCommands.Uint8 0 ].

(** The device reports the maximum tilt with its range. *)
Definition tiltReported
  : list (ARCommands.D2CCommand ARDrone3.pilotingSettingsState
          * list ARCommands.value) :=
  [ (ARCommands.NewD2CCommand 1 "MaxTiltChanged"
       [ARCommands.Float32 0; ARCommands.Float32 0; ARCommands.Float32 0]
       ARDrone3.maxTiltChanged,
     [ARCommands.Float32 1; ARCommands.Float32 2; ARCommands.Float32 3]) ].

(** An ack for another frame, ready at time 1, followed at time 2 by the
    ack for the frame numbered 255. *)
Definition lateAck : list (Z * ARNetwork.Frame) :=
  [(1, ARNetwork.mkFrame (Sprintf_d 253));
   (2, ARNetwork.mkFrame (Sprintf_d 255))].

(** A datagram that holds the sample frame twice. *)
Definition twoFrames : bytes :=
  ARNetworkAL.defaultEncodeFrame sampleFrame
    ++ ARNetworkAL.defaultEncodeFrame sampleFrame.

End Samples.

(* ================================================================== *)
(** * Properties of the wire format *)
(* ================================================================== *)

Module CodecProofs.
Import ARNetworkAL Samples.

Lemma read_le32_le32 (n : Z) :
  0 <= n < 2 ^ 32 ->
  read_le32 (n mod 256) ((n / 256) mod 256) ((n / 65536) mod 256)
    ((n / 16777216) mod 256) = n.
Proof.
  intros Hn. unfold read_le32.
  assert (H3 : (n / 16777216) mod 256 = n / 16777216).
  { apply Z.mod_small. split.
    - apply Z.div_pos; lia.
    - apply Z.div_lt_upper_bound; lia. }
  rewrite H3.
  pose proof (Z.div_mod n 256 ltac:(lia)) as E0.
  pose proof (Z.div_mod (n / 256) 256 ltac:(lia)) as E1.
  pose proof (Z.div_mod (n / 65536) 256 ltac:(lia)) as E2.
  replace (n / 65536) with (n / 256 / 256) in *
    by (rewrite Z.div_div by lia; reflexivity).
  replace (n / 16777216) with (n / 256 / 256 / 256)
    by (rewrite !Z.div_div by lia; reflexivity).
  lia.
Qed.

Lemma decodeFrames_nil (fuel : nat) : decodeFrames fuel [] = inr [].
Proof. destruct fuel; reflexivity. Qed.

(** Decoding a valid frame followed by more bytes yields the frame, then
    what the remaining bytes decode to. *)
Lemma decodeFrames_cons (fuel : nat) (f : Frame) (more : bytes) :
  validFrame f ->
  decodeFrames (S fuel) (defaultEncodeFrame f ++ more) =
  match decodeFrames fuel more with
  | inr fs => inr (f :: fs)
  | inl e => inl e
  end.
Proof.
  intros (Ht & Hi & Hs & Hd & Hlen).
  destruct f as [i t s d]; cbn [Type_ ID Seq Data] in *.
  unfold defaultEncodeFrame, le32; cbn [Type_ ID Seq Data app].
  cbn [decodeFrames].
  rewrite read_le32_le32 by (unfold headerSize in *; lia).
  replace (headerSize + Z.of_nat (length d) <? headerSize) with false
    by (symmetry; apply Z.ltb_ge; lia).
  replace (headerSize + Z.of_nat (length d) - headerSize)
    with (Z.of_nat (length d)) by lia.
  rewrite length_app.
  replace (Z.of_nat (length d + length more) <? Z.of_nat (length d))
    with false by (symmetry; apply Z.ltb_ge; lia).
  rewrite Nat2Z.id.
  rewrite skipn_app, skipn_all, Nat.sub_diag, firstn_app, firstn_all,
    Nat.sub_diag.
  cbn [skipn firstn app]. rewrite app_nil_r.
  reflexivity.
Qed.

(** A datagram of several valid frames decodes to these frames, in
    order. *)
Lemma decodeFrames_concat (fs : list Frame) :
  Forall validFrame fs ->
  forall fuel, (length fs <= fuel)%nat ->
  decodeFrames fuel (concat (map defaultEncodeFrame fs)) = inr fs.
Proof.
  induction 1 as [|f fs Hf Hfs IH]; intros fuel Hfuel.
  - apply decodeFrames_nil.
  - destruct fuel as [|fuel]; [cbn in Hfuel; lia|].
    cbn [map concat]. rewrite decodeFrames_cons by assumption.
    rewrite IH by (cbn in Hfuel; lia). reflexivity.
Qed.

Lemma length_defaultEncodeFrame (f : Frame) :
  length (defaultEncodeFrame f) = (7 + length (Data f))%nat.
Proof. unfold defaultEncodeFrame, le32. cbn. reflexivity. Qed.

(** C7.  Frame round trip: the encoding of a frame is the 7-byte header
    (type, channel id, sequence number, total length as four little-endian
    bytes) followed by the payload, and decoding the bytes that encode a
    valid frame yields that frame and no other. *)
Theorem decode_encode_roundtrip (f : Frame) :
  validFrame f ->
  defaultEncodeFrame f =
    [Type_ f; ID f; Seq f]
      ++ le32 (7 + Z.of_nat (length (Data f))) ++ Data f
  /\ length (defaultEncodeFrame f) = (7 + length (Data f))%nat
  /\ defaultDecodeData (defaultEncodeFrame f) = inr [f].
Proof.
  intros Hf. split; [reflexivity|]. split.
  - apply length_defaultEncodeFrame.
  - unfold defaultDecodeData. rewrite length_defaultEncodeFrame.
    cbn [Nat.add].
    rewrite <- (app_nil_r (defaultEncodeFrame f)).
    rewrite decodeFrames_cons by assumption.
    rewrite decodeFrames_nil. reflexivity.
Qed.

Lemma decode_encode_roundtrip_witness :
  defaultEncodeFrame sampleFrame = [3; 11; 255; 10; 0; 0; 0; 2; 0; 255]
  /\ defaultDecodeData (defaultEncodeFrame sampleFrame) = inr [sampleFrame].
Proof.
  assert (Hv : validFrame sampleFrame).
  { unfold validFrame, sampleFrame, FrameTypeDataWithAck.
    cbn [Type_ ID Seq Data].
    split; [unfold is_uint8; lia|]. split; [unfold is_uint8; lia|].
    split; [unfold is_uint8; lia|]. split; [|cbn; lia].
    repeat (apply Forall_cons; [unfold is_uint8; lia|]). apply Forall_nil. }
  split.
  - reflexivity.
  - exact (proj2 (proj2 (decode_encode_roundtrip sampleFrame Hv))).
Defined.

End CodecProofs.

(* ================================================================== *)
(** * Properties of the controller-to-device buffer *)
(* ================================================================== *)

Module BufferProofs.
Import ARNetwork.

Lemma bytes_Equal_eq (a b : bytes) : bytes_Equal a b = true <-> a = b.
Proof.
  revert b. induction a as [|x a IH]; intros [|y b]; cbn; split; intros H;
    try reflexivity; try discriminate.
  - apply andb_true_iff in H as [Hx Hab]. apply Z.eqb_eq in Hx.
    apply IH in Hab. congruence.
  - injection H as -> ->. rewrite Z.eqb_refl. cbn. apply IH. reflexivity.
Qed.

Lemma Sprintf_d_samples :
  Sprintf_d 0 = [48] /\ Sprintf_d 7 = [55] /\ Sprintf_d 42 = [52; 50]
  /\ Sprintf_d 254 = [50; 53; 52] /\ Sprintf_d 255 = [50; 53; 53].
Proof. repeat split. Qed.

Lemma uint8_range (z : Z) : is_uint8 (uint8 z).
Proof. unfold is_uint8, uint8. apply Z.mod_pos_bound. lia. Qed.

Lemma uint8_small (z : Z) : is_uint8 z -> uint8 z = z.
Proof. unfold is_uint8, uint8. intros H. apply Z.mod_small. exact H. Qed.

Lemma uint8_succ (s : Z) (k : nat) :
  uint8 (uint8 (s + 1) + Z.of_nat k) = uint8 (s + Z.of_nat (S k)).
Proof.
  unfold uint8. rewrite Zplus_mod_idemp_l. f_equal. lia.
Qed.

Section WithConnection.

Context {C : Type} {connection : ARNetworkAL.Connection C}.

Implicit Types (c : c2dBuffer C) (frame : Frame).

(** *** One attempt *)

Lemma send_spec c frame :
  let nf := ARNetworkAL.mkFrame (ID (config c)) (FrameType (config c))
              (seq c) (Data frame) in
  fst (send c frame) = nf
  /\ config (snd (send c frame)) = config c
  /\ seq (snd (send c frame)) = uint8 (seq c + 1)
  /\ ackCh (snd (send c frame)) = ackCh c
  /\ clock (snd (send c frame)) = clock c
  /\ handed (snd (send c frame)) = handed c ++ [nf]
  /\ conn (snd (send c frame)) = fst (ARNetworkAL.Send (conn c) nf)
  /\ logged (snd (send c frame)) =
       logged c ++ snd (sendAll (conn c) [nf]).
Proof.
  unfold send. cbn [sendAll].
  destruct (ARNetworkAL.Send (conn c) _) as [cn [e|]]; cbn;
    repeat split; try reflexivity.
  symmetry. apply app_nil_r.
Qed.

Lemma awaitAck_frame c nf :
  config (snd (awaitAck c nf)) = config c
  /\ conn (snd (awaitAck c nf)) = conn c
  /\ seq (snd (awaitAck c nf)) = seq c
  /\ handed (snd (awaitAck c nf)) = handed c
  /\ logged (snd (awaitAck c nf)) = logged c.
Proof.
  unfold awaitAck. destruct (ackCh c) as [|[ready ack] later]; cbn.
  - repeat split.
  - destruct (ready <? _); cbn; repeat split.
Qed.


(** *** Sequence numbers *)

Lemma numberedFrom_cons s nf fs :
  is_uint8 s -> ARNetworkAL.Seq nf = s -> numberedFrom (uint8 (s + 1)) fs ->
  numberedFrom s (nf :: fs).
Proof.
  unfold numberedFrom. intros Hs Hnf Hfs. cbn [map length List.seq].
  f_equal.
  - rewrite Hnf, Z.add_0_r. symmetry. apply uint8_small, Hs.
  - rewrite Hfs, <- seq_shift, map_map. apply map_ext. intros k.
    apply uint8_succ.
Qed.

Lemma counted_refl c : is_uint8 (seq c) -> counted c c.
Proof.
  intros Hs. exists []. rewrite app_nil_r. cbn. repeat split.
  rewrite Z.add_0_r. symmetry. apply uint8_small, Hs.
Qed.

Lemma counted_send c frame c' :
  is_uint8 (seq c) -> counted (snd (send c frame)) c' -> counted c c'.
Proof.
  intros Hs (new & Hh & Hn & Hq).
  destruct (send_spec c frame) as (Hnf & _ & Hseq & _ & _ & Hhand & _).
  cbv zeta in *.
  exists (fst (send c frame) :: new). repeat split.
  - rewrite Hh, Hhand, <- app_assoc, Hnf. reflexivity.
  - apply numberedFrom_cons; [exact Hs| rewrite Hnf; reflexivity |].
    rewrite <- Hseq. exact Hn.
  - rewrite Hq, Hseq. cbn [length]. apply uint8_succ.
Qed.

Lemma counted_awaitAck c nf c' :
  counted (snd (awaitAck c nf)) c' -> counted c c'.
Proof.
  destruct (awaitAck_frame c nf) as (_ & _ & Hs & Hh & _).
  unfold counted. rewrite Hs, Hh. trivial.
Qed.

Lemma writeFrameFrom_counted fuel : forall attempts frame c,
  is_uint8 (seq c) ->
  counted c (snd (writeFrameFrom fuel attempts frame c)).
Proof.
  induction fuel as [|fuel IH]; intros attempts frame c Hs;
    cbn [writeFrameFrom]; destruct (retrying c attempts);
    try (apply counted_refl; exact Hs).
  destruct (send c frame) as [nf c1] eqn:Esend.
  assert (Hc1 : c1 = snd (send c frame)) by (rewrite Esend; reflexivity).
  assert (Hs1 : is_uint8 (seq c1)).
  { rewrite Hc1. destruct (send_spec c frame) as (_ & _ & -> & _).
    apply uint8_range. }
  apply (counted_send c frame); [exact Hs|]. rewrite <- Hc1.
  destruct (ARNetworkAL.Type_ nf =? ARNetworkAL.FrameTypeDataWithAck).
  - destruct (awaitAck c1 nf) as [w c2] eqn:Eack.
    assert (Hc2 : c2 = snd (awaitAck c1 nf)) by (rewrite Eack; reflexivity).
    assert (Hs2 : is_uint8 (seq c2)).
    { rewrite Hc2. destruct (awaitAck_frame c1 nf) as (_ & _ & -> & _).
      exact Hs1. }
    apply (counted_awaitAck c1 nf). rewrite <- Hc2.
    destruct w; cbn [snd]; try (apply IH; exact Hs2).
    apply counted_refl; exact Hs2.
  - apply IH; exact Hs1.
Qed.


Lemma numberedFrom_inv s nf fs :
  numberedFrom s (nf :: fs) ->
  ARNetworkAL.Seq nf = uint8 s /\ numberedFrom (uint8 (s + 1)) fs.
Proof.
  unfold numberedFrom. cbn [map length List.seq]. intros H.
  injection H as H0 Hfs. split.
  - rewrite H0, Z.add_0_r. reflexivity.
  - rewrite Hfs, <- seq_shift, map_map. apply map_ext. intros k.
    symmetry. apply uint8_succ.
Qed.

Lemma numberedFrom_app n1 : forall s n2,
  is_uint8 s -> numberedFrom s n1 ->
  numberedFrom (uint8 (s + Z.of_nat (length n1))) n2 ->
  numberedFrom s (n1 ++ n2).
Proof.
  induction n1 as [|nf n1 IH]; intros s n2 Hs H1 H2.
  - cbn in *. rewrite Z.add_0_r, uint8_small in H2 by exact Hs. exact H2.
  - apply numberedFrom_inv in H1 as [Hnf H1]. cbn [app].
    apply numberedFrom_cons; [exact Hs| rewrite Hnf; apply uint8_small, Hs |].
    apply IH; [apply uint8_range | exact H1 |].
    rewrite uint8_succ. exact H2.
Qed.

Lemma counted_trans c1 c2 c3 :
  is_uint8 (seq c1) -> counted c1 c2 -> counted c2 c3 -> counted c1 c3.
Proof.
  intros Hs (n1 & Hh1 & Hn1 & Hq1) (n2 & Hh2 & Hn2 & Hq2).
  exists (n1 ++ n2). repeat split.
  - rewrite Hh2, Hh1, app_assoc. reflexivity.
  - apply numberedFrom_app; [exact Hs | exact Hn1 |]. rewrite <- Hq1.
    exact Hn2.
  - rewrite Hq2, Hq1, length_app, Nat2Z.inj_add. unfold uint8.
    rewrite Zplus_mod_idemp_l. f_equal. lia.
Qed.

Lemma counted_uint8 c c' : counted c c' -> is_uint8 (seq c').
Proof. intros (new & _ & _ & ->). apply uint8_range. Qed.

Lemma writeFrames_counted fuel outCh : forall c,
  is_uint8 (seq c) -> counted c (snd (writeFrames fuel outCh c)).
Proof.
  induction outCh as [|frame later IH]; intros c Hs; cbn [writeFrames].
  - apply counted_refl, Hs.
  - unfold writeFrame.
    pose proof (writeFrameFrom_counted fuel 0 frame c Hs) as H1.
    destruct (writeFrameFrom fuel 0 frame c) as [e c1]. cbn [snd] in H1.
    pose proof (counted_uint8 _ _ H1) as Hs1.
    destruct e; cbn [snd]; try exact H1;
      apply (counted_trans c c1); auto.
Qed.


(** *** Attempts that no ack ends *)

Lemma attemptFrames_S cfg s data n :
  is_uint8 s ->
  attemptFrames cfg s data (S n) =
  ARNetworkAL.mkFrame (ID cfg) (FrameType cfg) s data
    :: attemptFrames cfg (uint8 (s + 1)) data n.
Proof.
  intros Hs. unfold attemptFrames. cbn [List.seq map]. f_equal.
  - rewrite Z.add_0_r, uint8_small by exact Hs. reflexivity.
  - rewrite <- seq_shift, map_map. apply map_ext. intros k.
    rewrite uint8_succ. reflexivity.
Qed.

Lemma length_attemptFrames cfg s data n :
  length (attemptFrames cfg s data n) = n.
Proof. unfold attemptFrames. rewrite length_map, length_seq. reflexivity. Qed.

Lemma int_incr_small a : a < intMax -> int_incr a = a + 1.
Proof.
  intros H. unfold int_incr. destruct (a =? intMax) eqn:E; [|reflexivity].
  apply Z.eqb_eq in E. lia.
Qed.

Lemma writeFrameFrom_unacked n : forall fuel attempts frame cfg cn s acks clk h lg,
  0 <= attempts ->
  attempts + Z.of_nat n = MaxRetries cfg + 1 ->
  0 <= MaxRetries cfg < intMax ->
  is_uint8 s ->
  FrameType cfg <> ARNetworkAL.FrameTypeDataWithAck \/ acks = [] ->
  (n <= fuel)%nat ->
  writeFrameFrom fuel attempts frame (mkBuffer cfg cn s acks clk h lg) =
  (LoopEnded,
   mkBuffer cfg
     (fst (sendAll cn (attemptFrames cfg s (Data frame) n)))
     (uint8 (s + Z.of_nat n)) acks
     (clk + Z.of_nat n * waitOf cfg)
     (h ++ attemptFrames cfg s (Data frame) n)
     (lg ++ snd (sendAll cn (attemptFrames cfg s (Data frame) n)))).
Proof.
  induction n as [|n IH];
    intros fuel attempts frame cfg cn s acks clk h lg Ha Hn HR Hs Hun Hfuel.
  - assert (Hstop : retrying (mkBuffer cfg cn s acks clk h lg) attempts = false).
    { unfold retrying. cbn [config]. apply orb_false_iff. split.
      - apply Z.leb_gt. lia.
      - apply Z.eqb_neq. lia. }
    destruct fuel; cbn [writeFrameFrom]; rewrite Hstop;
      cbn; rewrite !app_nil_r, Z.add_0_r, uint8_small by exact Hs;
      repeat f_equal; lia.
  - destruct fuel as [|fuel]; [lia|].
    assert (Hgo : retrying (mkBuffer cfg cn s acks clk h lg) attempts = true).
    { unfold retrying. cbn [config]. apply orb_true_iff. left.
      apply Z.leb_le. lia. }
    cbn [writeFrameFrom]. rewrite Hgo.
    rewrite attemptFrames_S by exact Hs. cbn [sendAll].
    unfold send. cbn [config conn seq ackCh clock handed logged Data].
    destruct (ARNetworkAL.Send cn _) as [cn1 err] eqn:ESend.
    cbn [ARNetworkAL.Type_].
    rewrite int_incr_small by lia.
    set (lg1 := match err with Some e => _ | None => lg end).
    assert (Hrest : forall clk1,
      clk1 + Z.of_nat n * waitOf cfg = clk + Z.of_nat (S n) * waitOf cfg ->
      writeFrameFrom fuel (attempts + 1) frame
        (mkBuffer cfg cn1 (uint8 (s + 1)) acks clk1
           (h ++ [ARNetworkAL.mkFrame (ID cfg) (FrameType cfg) s (Data frame)])
           lg1) =
      (LoopEnded,
       mkBuffer cfg
         (fst (let (cn2, lines) :=
                 sendAll cn1 (attemptFrames cfg (uint8 (s + 1)) (Data frame) n) in
               (cn2, match err with
                     | Some e => ("error sending frame: " ++ e)%string :: lines
                     | None => lines
                     end)))
         (uint8 (s + Z.of_nat (S n))) acks
         (clk + Z.of_nat (S n) * waitOf cfg)
         (h ++ ARNetworkAL.mkFrame (ID cfg) (FrameType cfg) s (Data frame)
              :: attemptFrames cfg (uint8 (s + 1)) (Data frame) n)
         (lg ++ snd (let (cn2, lines) :=
                 sendAll cn1 (attemptFrames cfg (uint8 (s + 1)) (Data frame) n) in
               (cn2, match err with
                     | Some e => ("error sending frame: " ++ e)%string :: lines
                     | None => lines
                     end))))).
    { intros clk1 Hclk.
      rewrite (IH fuel (attempts + 1) frame cfg cn1 (uint8 (s + 1)) acks clk1)
        by (try apply uint8_range; try assumption; lia).
      destruct (sendAll cn1 _) as [cn2 lines]. cbn [fst snd].
      rewrite uint8_succ, Hclk, <- app_assoc. cbn [app].
      f_equal. f_equal. subst lg1. destruct err; [|reflexivity].
      rewrite <- app_assoc. reflexivity. }
    unfold waitOf in *.
    destruct (FrameType cfg =? ARNetworkAL.FrameTypeDataWithAck) eqn:Ety.
    + destruct Hun as [Hne | ->]; [apply Z.eqb_eq in Ety; contradiction|].
      unfold awaitAck. cbn [ackCh config clock conn seq handed logged].
      apply Hrest. lia.
    + apply Hrest. lia.
Qed.


Lemma sendAll_no_error (frames : list ARNetworkAL.Frame) : forall cn : C,
  (forall cn' f, snd (ARNetworkAL.Send cn' f) = None) ->
  snd (sendAll cn frames) = [].
Proof.
  induction frames as [|f later IH]; intros cn Hok; cbn [sendAll].
  - reflexivity.
  - specialize (Hok cn f) as Hf.
    destruct (ARNetworkAL.Send cn f) as [cn1 err]. cbn [snd] in Hf. subst err.
    specialize (IH cn1 Hok). destruct (sendAll cn1 later) as [cn2 lines].
    exact IH.
Qed.

Lemma sendAll_lines (frames : list ARNetworkAL.Frame) : forall cn : C,
  Forall (fun line => exists e, line = ("error sending frame: " ++ e)%string)
    (snd (sendAll cn frames)).
Proof.
  induction frames as [|f later IH]; intros cn; cbn [sendAll].
  - constructor.
  - destruct (ARNetworkAL.Send cn f) as [cn1 err].
    specialize (IH cn1). destruct (sendAll cn1 later) as [cn2 lines].
    cbn [snd] in *. destruct err as [e|]; [constructor; eauto | exact IH].
Qed.

(** C1 (as amended).  Retry bound.  A buffer for [DataWithAck] frames
    with [MaxRetries = R], [0 <= R] (and [R] below the largest [int]), on
    whose ack channel nothing ever arrives, hands the frame to the
    connection exactly [R + 1] times, with the same payload and
    consecutive sequence numbers; then [writeFrame] returns and the writer
    goes on with the next queued frame.  Nothing reports the abandoned
    delivery: the lines logged meanwhile are the errors that [Send]
    returned, and there is none when [Send] does not fail. *)
Theorem retry_bound_without_ack (fuel : nat) frame (later : list Frame) c :
  0 <= MaxRetries (config c) < intMax ->
  FrameType (config c) = ARNetworkAL.FrameTypeDataWithAck ->
  ackCh c = [] ->
  is_uint8 (seq c) ->
  (Z.to_nat (MaxRetries (config c)) + 1 <= fuel)%nat ->
  let attempts :=
    attemptFrames (config c) (seq c) (Data frame)
      (Z.to_nat (MaxRetries (config c)) + 1) in
  exists c',
    writeFrame fuel frame c = (LoopEnded, c')
    /\ handed c' = handed c ++ attempts
    /\ Z.of_nat (length attempts) = MaxRetries (config c) + 1
    /\ Forall (fun f => ARNetworkAL.Data f = Data frame) attempts
    /\ logged c' = logged c ++ snd (sendAll (conn c) attempts)
    /\ Forall (fun line => exists e, line = ("error sending frame: " ++ e)%string)
         (snd (sendAll (conn c) attempts))
    /\ ((forall cn f, snd (ARNetworkAL.Send cn f) = None) ->
        logged c' = logged c)
    /\ writeFrames fuel (frame :: later) c = writeFrames fuel later c'.
Proof.
  intros HR Hty Hacks Hs Hfuel attempts.
  destruct c as [cfg cn s acks clk h lg].
  cbn [config ackCh seq handed logged conn] in *.
  pose proof (writeFrameFrom_unacked (Z.to_nat (MaxRetries cfg) + 1) fuel 0
                frame cfg cn s acks clk h lg) as Hrun.
  specialize (Hrun ltac:(lia) ltac:(lia) HR Hs (or_intror Hacks) Hfuel).
  fold attempts in Hrun.
  eexists. split; [exact Hrun|]. cbn [handed logged].
  split; [reflexivity|].
  split; [subst attempts; rewrite length_attemptFrames; lia|].
  split.
  { subst attempts. unfold attemptFrames. apply Forall_forall.
    intros f Hf. apply in_map_iff in Hf as (k & <- & _). reflexivity. }
  split; [reflexivity|].
  split; [apply sendAll_lines|].
  split.
  { intros Hok. rewrite sendAll_no_error by exact Hok. apply app_nil_r. }
  cbn [writeFrames]. unfold writeFrame. rewrite Hrun. reflexivity.
Qed.


(** *** Recognising the ack *)

Lemma awaitAck_matches c nf :
  fst (awaitAck c nf) = AckMatches <->
  exists ready ack later,
    ackCh c = (ready, ack) :: later
    /\ ready < clock c + Z.max 0 (AckTimeout (config c))
    /\ carries ack (ARNetworkAL.Seq nf).
Proof.
  unfold awaitAck, carries. split.
  - destruct (ackCh c) as [|[ready ack] later]; cbn; [discriminate|].
    destruct (ready <? _) eqn:Hready; cbn; [|discriminate].
    destruct (bytes_Equal _ _) eqn:Heq; [|discriminate]. intros _.
    exists ready, ack, later. repeat split.
    + apply Z.ltb_lt, Hready.
    + symmetry. apply bytes_Equal_eq, Heq.
  - intros (ready & ack & later & -> & Hready & Hdata).
    apply Z.ltb_lt in Hready. rewrite Hready, Hdata.
    replace (bytes_Equal _ _) with true; [reflexivity|].
    symmetry. apply bytes_Equal_eq. reflexivity.
Qed.

Lemma writeFrameFrom_handed fuel : forall attempts frame c,
  (length (handed c)
     <= length (handed (snd (writeFrameFrom fuel attempts frame c))))%nat
  /\ (fst (writeFrameFrom fuel attempts frame c) = ReturnedOnAck ->
      (length (handed c)
         < length (handed (snd (writeFrameFrom fuel attempts frame c))))%nat).
Proof.
  induction fuel as [|fuel IH]; intros attempts frame c;
    cbn [writeFrameFrom]; destruct (retrying c attempts); cbn [fst snd];
    try (split; [lia | discriminate]).
  destruct (send_spec c frame) as (_ & _ & _ & _ & _ & Hh & _).
  destruct (send c frame) as [nf c1]. cbn [snd fst] in Hh.
  assert (H1 : length (handed c1) = S (length (handed c))).
  { rewrite Hh, length_app. cbn. lia. }
  destruct (ARNetworkAL.Type_ nf =? ARNetworkAL.FrameTypeDataWithAck).
  - destruct (awaitAck_frame c1 nf) as (_ & _ & _ & Hh2 & _).
    destruct (awaitAck c1 nf) as [w c2]. cbn [snd] in Hh2.
    destruct w; cbn [fst snd];
      try (destruct (IH (int_incr attempts) frame c2) as [Hle Hlt];
           rewrite Hh2 in *; split; [lia | intros E; specialize (Hlt E); lia]).
    rewrite Hh2. split; lia.
  - destruct (IH (int_incr attempts) frame c1) as [Hle Hlt].
    split; [lia | intros E; specialize (Hlt E); lia].
Qed.

Lemma Sprintf_d_uint8_injective (s s' : Z) :
  is_uint8 s -> is_uint8 s' -> Sprintf_d s = Sprintf_d s' -> s = s'.
Proof.
  intros Hs Hs' Heq.
  assert (Hall : forallb (fun a => forallb (fun b =>
             (a =? b) || negb (bytes_Equal (Sprintf_d a) (Sprintf_d b)))
             (map Z.of_nat (List.seq 0 256)))
           (map Z.of_nat (List.seq 0 256)) = true) by (vm_compute; reflexivity).
  assert (Hin : forall z, is_uint8 z -> In z (map Z.of_nat (List.seq 0 256))).
  { intros z Hz. apply in_map_iff. exists (Z.to_nat z). unfold is_uint8 in Hz.
    split; [lia|]. apply in_seq. lia. }
  rewrite forallb_forall in Hall. specialize (Hall s (Hin s Hs)).
  rewrite forallb_forall in Hall. specialize (Hall s' (Hin s' Hs')).
  apply orb_true_iff in Hall as [H|H]; [apply Z.eqb_eq, H|].
  apply negb_true_iff in H.
  assert (bytes_Equal (Sprintf_d s) (Sprintf_d s') = true)
    by (apply bytes_Equal_eq, Heq).
  congruence.
Qed.

(** C3 (as amended).  Recognising the ack.  When the loop sends a
    [DataWithAck] frame under the sequence number [s], the run returns on
    the ack of that frame (nothing being sent after it) exactly when the
    first frame of the ack channel is ready before the timeout elapses and
    carries [s] as decimal text.  A first frame ready in time that carries
    another sequence number does not end the item: it ends the wait only,
    and the loop goes on from its next attempt with the counter one
    further and the rest of the channel. *)
Theorem acked_iff_first_arrival_matches (fuel : nat) (attempts : Z) frame c :
  FrameType (config c) = ARNetworkAL.FrameTypeDataWithAck ->
  retrying c attempts = true ->
  is_uint8 (seq c) ->
  let sent :=
    ARNetworkAL.mkFrame (ID (config c)) (FrameType (config c)) (seq c)
      (Data frame) in
  let deadline := clock c + Z.max 0 (AckTimeout (config c)) in
  ((exists c',
       writeFrameFrom (S fuel) attempts frame c = (ReturnedOnAck, c')
       /\ handed c' = handed c ++ [sent])
   <->
   (exists ready ack later,
       ackCh c = (ready, ack) :: later
       /\ ready < deadline
       /\ carries ack (seq c)))
  /\ (forall ready ack later s',
        ackCh c = (ready, ack) :: later ->
        ready < deadline ->
        carries ack s' -> is_uint8 s' -> s' <> seq c ->
        exists c1,
          writeFrameFrom (S fuel) attempts frame c =
            writeFrameFrom fuel (int_incr attempts) frame c1
          /\ handed c1 = handed c ++ [sent]
          /\ seq c1 = uint8 (seq c + 1)
          /\ ackCh c1 = later
          /\ clock c1 = Z.max (clock c) ready).
Proof.
  intros Hty Hgo Hs sent deadline.
  destruct (send_spec c frame)
    as (Hnf & Hcfg & Hseq & Hacks & Hclk & Hh & _).
  cbv zeta in *. fold sent in Hnf, Hh.
  assert (Hstep :
    writeFrameFrom (S fuel) attempts frame c =
    match awaitAck (snd (send c frame)) sent with
    | (AckMatches, c2) => (ReturnedOnAck, c2)
    | (_, c2) => writeFrameFrom fuel (int_incr attempts) frame c2
    end).
  { cbn [writeFrameFrom]. rewrite Hgo.
    destruct (send c frame) as [nf c1]. cbn [fst snd] in *. subst nf.
    unfold sent at 1. cbn [ARNetworkAL.Type_]. rewrite Hty, Z.eqb_refl.
    reflexivity. }
  pose proof (awaitAck_matches (snd (send c frame)) sent) as Hiff.
  pose proof (awaitAck_frame (snd (send c frame)) sent)
    as (_ & _ & Hseq2 & Hh2 & _).
  rewrite Hacks, Hclk, Hcfg in Hiff. cbn [ARNetworkAL.Seq sent] in Hiff.
  split; [split|].
  - intros (c' & Hrun & Hc'). apply Hiff.
    rewrite Hstep in Hrun.
    destruct (awaitAck (snd (send c frame)) sent) as [w c2].
    cbn [fst snd] in *.
    destruct w; [reflexivity| |];
      exfalso;
      destruct (writeFrameFrom_handed fuel (int_incr attempts) frame c2)
        as [_ Hlt];
      rewrite Hrun in Hlt; cbn [fst snd] in Hlt; specialize (Hlt eq_refl);
      rewrite Hc', Hh2, Hh in Hlt; lia.
  - intros Hex. apply Hiff in Hex. rewrite Hstep.
    destruct (awaitAck (snd (send c frame)) sent) as [w c2].
    cbn [fst snd] in *. subst w. exists c2. split; [reflexivity|].
    rewrite Hh2, Hh. reflexivity.
  - intros ready ack later s' Hch Hready Hcar Hs' Hne.
    rewrite Hstep. unfold awaitAck in *.
    rewrite Hacks, Hch, Hclk, Hcfg in *. fold deadline in Hseq2, Hh2 |- *.
    apply Z.ltb_lt in Hready. rewrite Hready in *.
    cbn [fst snd] in *.
    replace (bytes_Equal (Sprintf_d (ARNetworkAL.Seq sent)) (Data ack))
      with false.
    + eexists. split; [reflexivity|]. cbn [handed seq ackCh clock].
      repeat split; assumption.
    + symmetry. apply not_true_is_false. intros Heq.
      apply bytes_Equal_eq in Heq. unfold carries in Hcar.
      rewrite Hcar in Heq. cbn [ARNetworkAL.Seq sent] in Heq.
      apply Hne. symmetry. apply Sprintf_d_uint8_injective; assumption.
Qed.

(** C4.  Sequence monotonicity.  Whatever the queue, the acks, the
    errors of the connection and the number of steps the writer is given,
    the [K] frames it hands to the connection carry the sequence numbers
    [s, s+1, ..., s+K-1] modulo 256, [s] being the counter at the start,
    and the counter ends at [s+K] modulo 256: it moves by one with every
    frame handed over ([send]) and by nothing else ([awaitAck] leaves it
    alone, and the connection has no access to it). *)
Theorem sequence_numbers_consecutive (fuel : nat) (outCh : list Frame) c :
  is_uint8 (seq c) ->
  exists emitted,
    handed (snd (writeFrames fuel outCh c)) = handed c ++ emitted
    /\ map ARNetworkAL.Seq emitted =
       map (fun k => (seq c + Z.of_nat k) mod 256)
         (List.seq 0 (length emitted))
    /\ seq (snd (writeFrames fuel outCh c)) =
       (seq c + Z.of_nat (length emitted)) mod 256
    /\ (forall nf, seq (snd (awaitAck c nf)) = seq c)
    /\ (forall frame, seq (snd (send c frame)) = (seq c + 1) mod 256).
Proof.
  intros Hs.
  destruct (writeFrames_counted fuel outCh c Hs) as (new & Hh & Hn & Hq).
  exists new. repeat split; try assumption.
  - intros nf. apply awaitAck_frame.
  - intros frame. apply send_spec.
Qed.

(** C2.  A [Data] frame is to be sent exactly once whatever
    [MaxRetries] is.  The loop of [writeFrame] skips the wait for such a
    frame but has no exit after the send: the frame is handed to the
    connection once per iteration the loop condition allows, that is
    [MaxRetries + 1] times in a row, with no wait in between (the clock
    does not move) and under a fresh sequence number each time.  It is
    sent once only when [MaxRetries = 0]. *)
Theorem data_frame_sent_on_every_attempt (fuel : nat) frame c :
  0 <= MaxRetries (config c) < intMax ->
  FrameType (config c) = ARNetworkAL.FrameTypeData ->
  is_uint8 (seq c) ->
  (Z.to_nat (MaxRetries (config c)) + 1 <= fuel)%nat ->
  exists c',
    writeFrame fuel frame c = (LoopEnded, c')
    /\ handed c' =
         handed c ++ attemptFrames (config c) (seq c) (Data frame)
                       (Z.to_nat (MaxRetries (config c)) + 1)
    /\ clock c' = clock c.
Proof.
  intros HR Hty Hs Hfuel.
  destruct c as [cfg cn s acks clk h lg].
  cbn [config ackCh seq handed logged conn clock] in *.
  assert (Hne : FrameType cfg <> ARNetworkAL.FrameTypeDataWithAck)
    by (rewrite Hty; discriminate).
  pose proof (writeFrameFrom_unacked (Z.to_nat (MaxRetries cfg) + 1) fuel 0
                frame cfg cn s acks clk h lg
                ltac:(lia) ltac:(lia) HR Hs (or_introl Hne) Hfuel) as Hrun.
  eexists. split; [exact Hrun|]. cbn [handed clock]. split; [reflexivity|].
  unfold waitOf. apply Z.eqb_neq in Hne. rewrite Hne. lia.
Qed.

(** With [MaxRetries = -1] the loop of a [Data] buffer never ends: however
    many iterations it is given it is still sending, one frame per
    iteration. *)
Lemma data_frame_sent_for_ever (fuel : nat) : forall attempts frame c,
  MaxRetries (config c) = -1 ->
  FrameType (config c) <> ARNetworkAL.FrameTypeDataWithAck ->
  fst (writeFrameFrom fuel attempts frame c) = StillLooping
  /\ length (handed (snd (writeFrameFrom fuel attempts frame c))) =
       (length (handed c) + fuel)%nat.
Proof.
  induction fuel as [|fuel IH]; intros attempts frame c HR Hty;
    cbn [writeFrameFrom]; unfold retrying; rewrite HR, Z.eqb_refl, orb_true_r.
  - cbn. split; [reflexivity | lia].
  - destruct (send_spec c frame) as (Hnf & Hcfg & _ & _ & _ & Hh & _).
    destruct (send c frame) as [nf c1]. cbn [fst snd] in *.
    subst nf. cbn [ARNetworkAL.Type_].
    apply Z.eqb_neq in Hty. rewrite Hty.
    destruct (IH (int_incr attempts) frame c1) as [He Hl].
    + rewrite Hcfg. exact HR.
    + rewrite Hcfg. apply Z.eqb_neq, Hty.
    + split; [exact He|]. rewrite Hl, Hh, length_app. cbn. lia.
Qed.

End WithConnection.

Import Samples.

Lemma retry_bound_without_ack_witness :
  exists c',
    writeFrame 5 payload (buffer (ackedConfig 2) []) = (LoopEnded, c')
    /\ map ARNetworkAL.Seq (handed c') = [254; 255; 0].
Proof.
  destruct (retry_bound_without_ack 5 payload [] (buffer (ackedConfig 2) []))
    as (c' & Hrun & Hh & _).
  - cbn. unfold intMax. lia.
  - reflexivity.
  - reflexivity.
  - cbn. unfold is_uint8. lia.
  - cbn. lia.
  - exists c'. split; [exact Hrun|]. rewrite Hh. reflexivity.
Defined.

(** With one retry configured and no ack, the two attempts are made and
    [writeFrame] returns; it has no result to return, and the log is as
    empty as before: nothing reports the failed delivery. *)
Lemma delivery_failure_is_not_reported :
  fst (writeFrame 5 payload (buffer (ackedConfig 1) [])) = LoopEnded
  /\ length (handed (snd (writeFrame 5 payload (buffer (ackedConfig 1) []))))
       = 2%nat
  /\ logged (snd (writeFrame 5 payload (buffer (ackedConfig 1) []))) =
       logged (buffer (ackedConfig 1) []).
Proof. repeat split. Qed.

(** Over a connection on which every [Send] fails, each attempt logs the
    error of its [Send], and that is all the log receives. *)
Lemma send_errors_are_all_that_is_logged :
  logged (snd (writeFrame 5 payload
                 (mkBuffer (ackedConfig 1) true 254 [] 0 [] []))) =
  [ "error sending frame: network is unreachable"%string;
    "error sending frame: network is unreachable"%string ].
Proof. reflexivity. Qed.

Lemma data_frame_sent_for_ever_witness :
  fst (writeFrame 40 payload (buffer (dataConfig (-1)) [])) = StillLooping
  /\ length (handed (snd (writeFrame 40 payload
                            (buffer (dataConfig (-1)) [])))) = 40%nat.
Proof.
  apply (data_frame_sent_for_ever 40 0 payload (buffer (dataConfig (-1)) [])).
  - reflexivity.
  - discriminate.
Defined.

Lemma data_frame_sent_on_every_attempt_witness :
  exists c',
    writeFrame 5 payload (buffer (dataConfig 2) []) = (LoopEnded, c')
    /\ map ARNetworkAL.Seq (handed c') = [254; 255; 0].
Proof.
  destruct (data_frame_sent_on_every_attempt 5 payload
              (buffer (dataConfig 2) []))
    as (c' & Hrun & Hh & _).
  - cbn. unfold intMax. lia.
  - reflexivity.
  - cbn. unfold is_uint8. lia.
  - cbn. lia.
  - exists c'. split; [exact Hrun|]. rewrite Hh. reflexivity.
Defined.

Lemma acked_iff_first_arrival_matches_witness :
  exists c',
    writeFrameFrom 1 0 payload
      (buffer (ackedConfig 2) [(3, ARNetwork.mkFrame (Sprintf_d 254))]) =
    (ReturnedOnAck, c')
    /\ map ARNetworkAL.Seq (handed c') = [254].
Proof.
  destruct (acked_iff_first_arrival_matches 0 0 payload
              (buffer (ackedConfig 2) [(3, ARNetwork.mkFrame (Sprintf_d 254))]))
    as [[_ Hacked] _].
  - reflexivity.
  - reflexivity.
  - cbn. unfold is_uint8. lia.
  - destruct Hacked as (c' & Hrun & Hh).
    + exists 3, (ARNetwork.mkFrame (Sprintf_d 254)), [].
      split; [reflexivity|]. split; [cbn; lia | reflexivity].
    + exists c'. split; [exact Hrun|]. rewrite Hh. reflexivity.
Defined.

(** The ack for frame 254 is ready at time 2, well within the timeout of
    10 that starts at time 0, but a stale ack is received first: the frame
    is not taken as acked, it is sent again (and again), and the run ends
    with the retries used up. *)
Lemma ack_within_timeout_is_missed :
  (exists ready ack,
      In (ready, ack) (ackCh (buffer (ackedConfig 1) staleThenRight))
      /\ ready < clock (buffer (ackedConfig 1) staleThenRight)
                 + AckTimeout (ackedConfig 1)
      /\ carries ack (seq (buffer (ackedConfig 1) staleThenRight)))
  /\ fst (writeFrame 5 payload (buffer (ackedConfig 1) staleThenRight))
       = LoopEnded
  /\ map ARNetworkAL.Seq
       (handed (snd (writeFrame 5 payload
                       (buffer (ackedConfig 1) staleThenRight))))
       = [254; 255].
Proof.
  split; [|split; reflexivity].
  exists 2, (ARNetwork.mkFrame (Sprintf_d 254)). split.
  - right. left. reflexivity.
  - split; [cbn; lia | reflexivity].
Qed.

Lemma sequence_numbers_consecutive_witness :
  exists emitted,
    handed (snd (writeFrames 5 [payload; payload]
                   (buffer (ackedConfig 1) []))) = emitted
    /\ map ARNetworkAL.Seq emitted = [254; 255; 0; 1]
    /\ seq (snd (writeFrames 5 [payload; payload]
                   (buffer (ackedConfig 1) []))) = 2.
Proof.
  destruct (sequence_numbers_consecutive 5 [payload; payload]
              (buffer (ackedConfig 1) []))
    as (emitted & Hh & _).
  - cbn. unfold is_uint8. lia.
  - exists emitted. vm_compute in Hh. subst emitted. repeat split.
Defined.

End BufferProofs.

(* ================================================================== *)
(** * Properties of the connection *)
(* ================================================================== *)

Module ConnectionProofs.
Import ARNetworkAL Wifi.
Local Open Scope string_scope.

(** ** The receive loop *)

Lemma receivePackets_keeps_stop c ev c' :
  receivePackets c ev = Some c' -> rcvStopClosed c' = rcvStopClosed c.
Proof.
  unfold receivePackets. intros H.
  destruct (receiver c) as [| | |e0|f0 rest0|], ev as [| |[e|]|[d|e]| |];
    try discriminate;
    repeat match type of H with
           | context [if ?b then _ else _] => destruct b eqn:?
           | context [match ?x with inl _ => _ | inr _ => _ end] => destruct x
           end;
    try discriminate; injection H as <-;
    first [reflexivity | cbn; assumption].
Qed.

(** The goroutine returns only from a select that finds [rcvStopCh]
    closed. *)
Lemma receivePackets_exit c ev c' :
  receivePackets c ev = Some c' -> receiver c' = Exited ->
  rcvStopClosed c = true.
Proof.
  unfold receivePackets. intros H Hexit.
  destruct (receiver c) as [| | |e0|f rest|], ev as [| |[e|]|[d|e]| |];
    try discriminate;
    repeat match type of H with
           | context [if ?b then _ else _] => destruct b eqn:?
           | context [match ?x with inl _ => _ | inr _ => _ end] => destruct x
           end;
    try discriminate; try reflexivity;
    injection H as <-; cbn in Hexit; try discriminate.
  all: try (destruct l; discriminate).
  all: try (destruct rest; discriminate).
Qed.

Lemma step_exit c ev c' out :
  step c ev = Some (c', out) -> receiver c' = Exited ->
  receiver c = Exited \/ (rcvStopClosed c = true /\ ev <> CloseStopCh).
Proof.
  intros H Hexit. destruct ev; cbn [step] in H.
  - unfold closeStopCh in H. destruct (rcvStopClosed c); [discriminate|].
    injection H as <- <-. left. exact Hexit.
  - destruct (receivePackets c Scheduled) as [c1|] eqn:E; [|discriminate].
    injection H as <- <-. right. split; [|discriminate].
    eapply receivePackets_exit; eassumption.
  - destruct (receivePackets c _) as [c1|] eqn:E; [|discriminate].
    injection H as <- <-. right. split; [|discriminate].
    eapply receivePackets_exit; eassumption.
  - destruct (receivePackets c _) as [c1|] eqn:E; [|discriminate].
    injection H as <- <-. right. split; [|discriminate].
    eapply receivePackets_exit; eassumption.
  - unfold Receive in H. destruct (receiver c) as [| | | |f rest|] eqn:Er;
      try discriminate; injection H as <- <-; cbn in Hexit.
    + discriminate.
    + destruct rest; discriminate.
    + left. reflexivity.
  - destruct (receivePackets c _) as [c1|] eqn:E; [|discriminate].
    injection H as <- <-. right. split; [|discriminate].
    eapply receivePackets_exit; eassumption.
Qed.

Lemma step_keeps_stop c ev c' out :
  step c ev = Some (c', out) -> ev <> CloseStopCh ->
  rcvStopClosed c' = rcvStopClosed c.
Proof.
  intros H Hev. destruct ev; cbn [step] in H; try contradiction;
    try (destruct (receivePackets c _) as [c1|] eqn:E; [|discriminate];
         injection H as <- <-; eapply receivePackets_keeps_stop; eassumption).
  unfold Receive in H. destruct (receiver c); try discriminate;
    injection H as <- <-; reflexivity.
Qed.

Lemma run_without_close evs : forall c c' outs,
  run c evs = Some (c', outs) ->
  ~ In CloseStopCh evs ->
  rcvStopClosed c = false -> receiver c <> Exited ->
  rcvStopClosed c' = false /\ receiver c' <> Exited.
Proof.
  induction evs as [|ev evs IH]; intros c c' outs Hrun Hno Hopen Hlive;
    cbn [run] in Hrun.
  - injection Hrun as <- <-. split; assumption.
  - destruct (step c ev) as [[c1 out]|] eqn:Hstep; [|discriminate].
    destruct (run c1 evs) as [[c2 outs2]|] eqn:Hrest; [|discriminate].
    injection Hrun as <- <-.
    assert (Hev : ev <> CloseStopCh) by (intros ->; apply Hno; left; reflexivity).
    apply (IH c1 c2 outs2 Hrest).
    + intros Hin. apply Hno. right. exact Hin.
    + rewrite (step_keeps_stop _ _ _ _ Hstep Hev). exact Hopen.
    + intros Hexit. destruct (step_exit _ _ _ _ Hstep Hexit) as [H|[H _]].
      * contradiction.
      * congruence.
Qed.


Lemma event_is_close (ev : event) : {ev = CloseStopCh} + {ev <> CloseStopCh}.
Proof. destruct ev; (left; reflexivity) || (right; discriminate). Qed.

(** A closed channel stays closed. *)
Lemma run_keeps_stop_closed evs : forall c c' outs,
  run c evs = Some (c', outs) -> rcvStopClosed c = true ->
  rcvStopClosed c' = true.
Proof.
  induction evs as [|ev evs IH]; intros c c' outs Hrun Hclosed;
    cbn [run] in Hrun.
  - injection Hrun as <- <-. exact Hclosed.
  - destruct (step c ev) as [[c1 out]|] eqn:Hstep; [|discriminate].
    destruct (run c1 evs) as [[c2 outs2]|] eqn:Hrest; [|discriminate].
    injection Hrun as <- <-. apply (IH c1 c2 outs2 Hrest).
    destruct (event_is_close ev) as [->|Hev].
    + cbn [step] in Hstep. unfold closeStopCh in Hstep.
      rewrite Hclosed in Hstep. discriminate.
    + rewrite (step_keeps_stop _ _ _ _ Hstep Hev). exact Hclosed.
Qed.

Lemma run_exit_needs_close evs : forall c c' outs,
  run c evs = Some (c', outs) ->
  rcvStopClosed c = false -> receiver c <> Exited ->
  receiver c' = Exited ->
  In CloseStopCh evs /\ rcvStopClosed c' = true.
Proof.
  induction evs as [|ev evs IH]; intros c c' outs Hrun Hopen Hlive Hexit;
    cbn [run] in Hrun.
  - injection Hrun as <- <-. contradiction.
  - destruct (step c ev) as [[c1 out]|] eqn:Hstep; [|discriminate].
    destruct (run c1 evs) as [[c2 outs2]|] eqn:Hrest; [|discriminate].
    injection Hrun as <- <-.
    destruct (event_is_close ev) as [->|Hev].
    + split; [left; reflexivity|].
      apply (run_keeps_stop_closed evs c1 c2 outs2 Hrest).
      cbn [step] in Hstep. unfold closeStopCh in Hstep.
      rewrite Hopen in Hstep. injection Hstep as <- <-. reflexivity.
    + destruct (IH c1 c2 outs2 Hrest) as [Hin Hclosed]; try assumption.
      * rewrite (step_keeps_stop _ _ _ _ Hstep Hev). exact Hopen.
      * intros Hexit1.
        destruct (step_exit _ _ _ _ Hstep Hexit1) as [H|[H _]];
          [contradiction | congruence].
      * split; [right; exact Hin | exact Hclosed].
Qed.

(** C5.  Transient errors in the two receivers.

    In [receivePackets], the receive loop of the connection: without a
    close of [rcvStopCh] no run of the system takes the goroutine out of
    its loop.  A read that times out puts it back at the outer select
    with nothing offered on any channel, and from there it reads again.
    Any other read error, a decode error and a failure to set the
    deadline are each offered on [rcvErrCh], where [Receive] takes them,
    and the goroutine is back at the outer select.  Once [rcvStopCh] is
    closed, the outer select returns.

    In [frameReceiver.Receive] a read that times out is no reason to read
    again: it ends the process through [log.Fatal], whichever
    implementation of [net.Error] reports the timeout.  A read error that
    is no timeout is returned to the caller. *)
Theorem transient_errors_in_the_two_receivers :
  (forall c evs c' outs,
      rcvStopClosed c = false -> receiver c <> Exited ->
      ~ In CloseStopCh evs ->
      run c evs = Some (c', outs) ->
      receiver c' <> Exited)
  /\ (forall c msg,
        receiver c = AtReadFromUDP -> rcvStopClosed c = false ->
        run c [ReadFromUDPReturns (inr (OpError true msg))] =
          Some (set_receiver c AtSelect, [])
        /\ run c [ReadFromUDPReturns (inr (OpError true msg)); Scheduled;
                  SetReadDeadlineReturns None] =
           Some (set_receiver c AtReadFromUDP, []))
  /\ (forall c err,
        receiver c = AtReadFromUDP -> reported err = true ->
        run c [ReadFromUDPReturns (inr err); ReceiveCalled] =
        Some (set_receiver c AtSelect,
              [(zeroFrame, false,
                Some ("error receiving data from inbound connection: "
                        ++ Error err))]))
  /\ (forall c datagram err,
        receiver c = AtReadFromUDP ->
        decodeData c (firstn (Z.to_nat maxUDPDataBytes) datagram) = inl err ->
        run c [ReadFromUDPReturns (inl datagram); ReceiveCalled] =
        Some (set_receiver c AtSelect,
              [(zeroFrame, false,
                Some ("error decoding inbound data: " ++ err))]))
  /\ (forall c err,
        receiver c = AtSetReadDeadline ->
        run c [SetReadDeadlineReturns (Some err); ReceiveCalled] =
        Some (set_receiver c AtSelect,
              [(zeroFrame, false,
                Some ("error setting read deadline: " ++ err))]))
  /\ (forall c,
        receiver c = AtSelect -> rcvStopClosed c = true ->
        receivePackets c Scheduled = Some (set_receiver c Exited))
  /\ (forall decodeDatagram size msg,
        frameReceiver_Receive decodeDatagram size None
          (inr (OpError true msg)) =
          Fatal "detected a probable disconnection"
        /\ frameReceiver_Receive decodeDatagram size None
             (inr (NetError true msg)) =
             Fatal "detected a probable disconnection")
  /\ (forall decodeDatagram size msg,
        frameReceiver_Receive decodeDatagram size None
          (inr (OpError false msg)) =
          Returns (inl ("error receiving datagram from d2c connection: "
                          ++ msg))
        /\ frameReceiver_Receive decodeDatagram size None
             (inr (NetError false msg)) =
             Returns (inl ("error receiving datagram from d2c connection: "
                             ++ msg))
        /\ frameReceiver_Receive decodeDatagram size None
             (inr (PlainError msg)) =
             Returns (inl ("error receiving datagram from d2c connection: "
                             ++ msg))).
Proof.
  split; [|split; [|split; [|split; [|split; [|split; [|split]]]]]].
  - intros c evs c' outs Hopen Hlive Hno Hrun.
    apply (run_without_close evs c c' outs Hrun Hno Hopen Hlive).
  - intros c msg Hat Hopen. split.
    + cbn [run step option_map]. unfold receivePackets.
      rewrite Hat. reflexivity.
    + cbn [run step option_map]. unfold receivePackets.
      rewrite Hat. cbn. rewrite Hopen. reflexivity.
  - intros c err Hat Hrep. cbn [run step option_map]. unfold receivePackets.
    rewrite Hat, Hrep. reflexivity.
  - intros c datagram err Hat Hdec. cbn [run step option_map].
    unfold receivePackets. rewrite Hat, Hdec. reflexivity.
  - intros c err Hat. cbn [run step option_map]. unfold receivePackets.
    rewrite Hat. reflexivity.
  - intros c Hat Hstop. unfold receivePackets. rewrite Hat, Hstop.
    reflexivity.
  - intros decodeDatagram size msg. split; reflexivity.
  - intros decodeDatagram size msg. split; [|split]; reflexivity.
Qed.

(** ** Receive *)

Lemma ReceiveN_after_exit n : forall c,
  receiver c = Exited -> ReceiveN n c = repeat (zeroFrame, false, None) n.
Proof.
  induction n as [|n IH]; intros c Hc; cbn [ReceiveN repeat].
  - reflexivity.
  - unfold Receive. rewrite Hc. rewrite (IH c Hc). reflexivity.
Qed.

(** [Close] returns only once the goroutine has exited. *)
Lemma Close_exited c meanwhile c' err :
  Close c meanwhile = Some (c', err) -> receiver c' = Exited.
Proof.
  unfold Close. destruct (closeStopCh c) as [c1|]; [|discriminate].
  destruct (run c1 meanwhile) as [[c2 outs]|]; [|discriminate].
  destruct (receiver c2) eqn:Hexit; try discriminate.
  destruct (UDPConn_Close (c2dConn c2)) as [out outErr].
  destruct (UDPConn_Close (d2cConn c2)) as [inb inErr].
  intros H. injection H as <- _. exact Hexit.
Qed.

(** With [rcvStopCh] closed, a goroutine blocked on a frame gives up the
    frames it still holds, one select after the other, and returns from
    the outer select. *)
Lemma frames_are_given_up rest : forall c f,
  rcvStopClosed c = true -> receiver c = OfferingFrame f rest ->
  run c (repeat StopObserved (S (length rest)) ++ [Scheduled])%list =
  Some (set_receiver c Exited, []).
Proof.
  induction rest as [|f' rest IH]; intros c f Hstop Hat.
  - cbn [length repeat app run step option_map]. unfold receivePackets.
    rewrite Hat, Hstop. cbn. rewrite Hstop. reflexivity.
  - change (repeat StopObserved (S (length (f' :: rest))) ++ [Scheduled])%list
      with (StopObserved
              :: (repeat StopObserved (S (length rest)) ++ [Scheduled])%list).
    remember (repeat StopObserved (S (length rest)) ++ [Scheduled])%list
      as later eqn:Hlater.
    cbn [run step option_map]. unfold receivePackets.
    rewrite Hat, Hstop. cbn [deliver option_map]. subst later.
    rewrite (IH (set_receiver c (OfferingFrame f' rest)) f' Hstop eq_refl).
    reflexivity.
Qed.

(** What the goroutine offers on [rcvErrCh] is one of its three error
    reports. *)
Lemma offered_errors c ev c' e :
  receivePackets c ev = Some c' -> receiver c' = OfferingErr e ->
  (exists err, ev = SetReadDeadlineReturns (Some err)
               /\ e = "error setting read deadline: " ++ err)
  \/ (exists err, ev = ReadFromUDPReturns (inr err)
                  /\ e = "error receiving data from inbound connection: "
                           ++ Error err)
  \/ (exists datagram err,
         ev = ReadFromUDPReturns (inl datagram)
         /\ decodeData c (firstn (Z.to_nat maxUDPDataBytes) datagram) = inl err
         /\ e = "error decoding inbound data: " ++ err).
Proof.
  unfold receivePackets. intros H Hoff.
  destruct (receiver c) as [| | |e0|f rest|], ev as [| |[err|]|[d|err]| |];
    try discriminate.
  - destruct (rcvStopClosed c); injection H as <-; discriminate.
  - injection H as <-. cbn in Hoff. injection Hoff as <-. left. eauto.
  - injection H as <-. discriminate.
  - destruct (decodeData c _) as [err|frames] eqn:Hdec; injection H as <-;
      cbn in Hoff.
    + injection Hoff as <-. right. right. eauto.
    + destruct frames; discriminate.
  - destruct (reported err); injection H as <-; cbn in Hoff;
      [|discriminate].
    injection Hoff as <-. right. left. eauto.
  - destruct (rcvStopClosed c); [|discriminate]. injection H as <-.
    discriminate.
  - destruct (rcvStopClosed c); [|discriminate]. injection H as <-.
    cbn in Hoff. destruct rest; discriminate.
Qed.

(** C10.  [Receive] tells shutdown from failure.  Once the goroutine has
    exited, every call of [Receive] returns the zero frame, [false] and a
    nil error, any number of times.  A failure comes back from [Receive]:
    when the read of the inbound socket fails with anything but the
    timeout of a [*net.OpError], when the datagram read does not decode,
    and when the deadline cannot be set, the next call of [Receive]
    returns the zero frame, [false] and the error of that failure behind
    the prefix that names it; until a caller has taken it (or the
    connection is closed) the goroutine does nothing else.  An error
    offered by the goroutine is returned as the zero frame, [false] and
    that (non-nil) error, and what the goroutine offers is one of its
    three reports of a failed call.  The two results are told apart by
    the error alone.  The goroutine exits only after [rcvStopCh] was
    closed, which is what [Close] does. *)
Theorem Receive_tells_shutdown_from_failure :
  (forall c meanwhile c' err n,
      Close c meanwhile = Some (c', err) ->
      ReceiveN n c' = repeat (zeroFrame, false, None) n)
  /\ (forall c n,
        receiver c = Exited ->
        ReceiveN n c = repeat (zeroFrame, false, None) n)
  /\ (forall c err,
        receiver c = AtReadFromUDP -> reported err = true ->
        run c [ReadFromUDPReturns (inr err); ReceiveCalled] =
        Some (set_receiver c AtSelect,
              [(zeroFrame, false,
                Some ("error receiving data from inbound connection: "
                        ++ Error err))]))
  /\ (forall c datagram err,
        receiver c = AtReadFromUDP ->
        decodeData c (firstn (Z.to_nat maxUDPDataBytes) datagram) = inl err ->
        run c [ReadFromUDPReturns (inl datagram); ReceiveCalled] =
        Some (set_receiver c AtSelect,
              [(zeroFrame, false,
                Some ("error decoding inbound data: " ++ err))]))
  /\ (forall c err,
        receiver c = AtSetReadDeadline ->
        run c [SetReadDeadlineReturns (Some err); ReceiveCalled] =
        Some (set_receiver c AtSelect,
              [(zeroFrame, false,
                Some ("error setting read deadline: " ++ err))]))
  /\ (forall c err ev c' out,
        receiver c = OfferingErr err -> rcvStopClosed c = false ->
        step c ev = Some (c', out) ->
        (ev = ReceiveCalled /\ out = [(zeroFrame, false, Some err)])
        \/ (ev = CloseStopCh /\ receiver c' = OfferingErr err))
  /\ (forall c err,
        receiver c = OfferingErr err ->
        Receive c = Some ((zeroFrame, false, Some err),
                          set_receiver c AtSelect))
  /\ (forall c ev c' err,
        receivePackets c ev = Some c' -> receiver c' = OfferingErr err ->
        (exists e, ev = SetReadDeadlineReturns (Some e))
        \/ (exists e, ev = ReadFromUDPReturns (inr e))
        \/ (exists datagram e,
               ev = ReadFromUDPReturns (inl datagram)
               /\ decodeData c (firstn (Z.to_nat maxUDPDataBytes) datagram)
                    = inl e))
  /\ (forall c r c',
        Receive c = Some (r, c') ->
        (receiver c = Exited <-> r = (zeroFrame, false, None))
        /\ (forall err, receiver c = OfferingErr err
                        <-> r = (zeroFrame, false, Some err)))
  /\ (forall c evs c' outs,
        rcvStopClosed c = false -> receiver c <> Exited ->
        run c evs = Some (c', outs) -> receiver c' = Exited ->
        In CloseStopCh evs /\ rcvStopClosed c' = true).
Proof.
  split; [|split; [|split; [|split; [|split; [|split; [|split;
    [|split; [|split]]]]]]]].
  - intros c meanwhile c' err n Hclose.
    apply ReceiveN_after_exit, (Close_exited c meanwhile c' err Hclose).
  - intros c n Hc. apply ReceiveN_after_exit, Hc.
  - intros c err Hat Hrep. cbn [run step option_map]. unfold receivePackets.
    rewrite Hat, Hrep. reflexivity.
  - intros c datagram err Hat Hdec. cbn [run step option_map].
    unfold receivePackets. rewrite Hat, Hdec. reflexivity.
  - intros c err Hat. cbn [run step option_map]. unfold receivePackets.
    rewrite Hat. reflexivity.
  - intros c err ev c' out Hat Hopen Hstep.
    destruct ev as [| |r|r| |]; cbn [step] in Hstep;
      unfold receivePackets, Receive, closeStopCh in Hstep;
      rewrite ?Hat, ?Hopen in Hstep; cbn [option_map] in Hstep;
      try discriminate; injection Hstep as <- <-.
    + right. split; [reflexivity | exact Hat].
    + left. split; reflexivity.
  - intros c err Hc. unfold Receive. rewrite Hc. reflexivity.
  - intros c ev c' err Hstep Hoff.
    destruct (offered_errors c ev c' err Hstep Hoff)
      as [(e & -> & _)|[(e & -> & _)|(d & e & -> & Hdec & _)]].
    + left. exists e. reflexivity.
    + right. left. exists e. reflexivity.
    + right. right. exists d, e. split; [reflexivity | exact Hdec].
  - intros c r c' H. unfold Receive in H.
    destruct (receiver c) as [| | |e|f rest|]; try discriminate;
      injection H as <- <-; split; try intros err;
      split; intros E; try discriminate; try reflexivity; congruence.
  - intros c evs c' outs Hopen Hlive Hrun Hexit.
    apply (run_exit_needs_close evs c c' outs Hrun Hopen Hlive Hexit).
Qed.

Import Samples.

Lemma transient_errors_in_the_two_receivers_witness :
  (exists c' outs,
      run (connectionOver udp4) noisyEvents = Some (c', outs)
      /\ receiver c' <> Exited
      /\ outs = [(zeroFrame, false,
                  Some "error receiving data from inbound connection: connection refused")])
  /\ frameReceiver_Receive defaultDecodeData (Z.to_nat maxUDPDataBytes) None
       (inr (OpError true "i/o timeout")) =
     Fatal "detected a probable disconnection".
Proof.
  destruct transient_errors_in_the_two_receivers
    as (Hloop & _ & _ & _ & _ & _ & Hfatal & _).
  split.
  - eexists. eexists. split; [reflexivity|]. split; [|reflexivity].
    eapply (Hloop (connectionOver udp4) noisyEvents).
    + reflexivity.
    + discriminate.
    + intros H. repeat destruct H as [H|H]; discriminate || contradiction.
    + reflexivity.
  - apply (Hfatal defaultDecodeData (Z.to_nat maxUDPDataBytes) "i/o timeout").
Defined.

Lemma Receive_tells_shutdown_from_failure_witness :
  (exists c',
      Close reading closingEvents = Some (c', None)
      /\ ReceiveN 3 c' =
           [(zeroFrame, false, None); (zeroFrame, false, None);
            (zeroFrame, false, None)])
  /\ run reading
       [ ReadFromUDPReturns (inr (OpError false "connection refused"));
         ReceiveCalled ] =
     Some (set_receiver reading AtSelect,
           [(zeroFrame, false,
             Some "error receiving data from inbound connection: connection refused")])
  /\ run reading [ ReadFromUDPReturns (inl [3; 11; 255]); ReceiveCalled ] =
     Some (set_receiver reading AtSelect,
           [(zeroFrame, false,
             Some ("error decoding inbound data: " ++ MalformedFrame))]).
Proof.
  destruct Receive_tells_shutdown_from_failure
    as (Hclosed & _ & Hread & Hdecode & _).
  split; [|split].
  - eexists. split; [reflexivity|].
    apply (Hclosed reading closingEvents _ None 3%nat). reflexivity.
  - apply (Hread reading (OpError false "connection refused"));
      reflexivity.
  - apply (Hdecode reading [3; 11; 255] MalformedFrame); reflexivity.
Defined.

(** ** The other receiver *)

(** [frameReceiver.Receive], which no loop of the connection runs, takes
    a read timeout for a disconnection: the call ends the process exactly
    when the deadline was set and the read failed with a [net.Error]
    that is a timeout.  Every other failure is returned. *)
Lemma frameReceiver_timeout_is_fatal decodeDatagram size deadline read :
  (exists msg,
      frameReceiver_Receive decodeDatagram size deadline read = Fatal msg)
  <-> deadline = None
      /\ exists m, read = inr (OpError true m) \/ read = inr (NetError true m).
Proof.
  unfold frameReceiver_Receive. split.
  - intros [msg H]. destruct deadline as [e|]; [discriminate|].
    split; [reflexivity|].
    destruct read as [datagram|[[|] m|[|] m|m]]; try discriminate; eauto.
  - intros [-> [m [->| ->]]]; eexists; reflexivity.
Qed.

End ConnectionProofs.

Module SessionProofs.
Import ARNetworkAL Wifi Samples.
Local Open Scope string_scope.

Ltac break_match :=
  match goal with
  | |- context [match ?x with _ => _ end] =>
      lazymatch x with
      | context [match _ with _ => _ end] => fail
      | _ => destruct x eqn:?
      end
  end.

Ltac run_session :=
  unfold NewConnection, negotiated, bind, try, check, perform, defer, fail,
    ret;
  repeat (cbn [fst snd app]; break_match).

(** C6.  Negotiation failure.  If the handshake yields a response whose
    status is not zero, [NewConnection] fails with the connection-refused
    error and has called neither [DialUDP] nor [ListenUDP]; and whenever
    one of the two was called, the handshake had yielded a response of
    status zero. *)
Theorem refused_negotiation_opens_no_udp_socket (net : network) :
  (forall negRes,
      negotiated net = Some negRes -> Status negRes <> 0 ->
      fst (NewConnection net []) =
        inl "connection negotiation failed; connection refused by device"
      /\ forall a, ~ In (CallDialUDP a) (snd (NewConnection net []))
                   /\ ~ In (CallListenUDP a) (snd (NewConnection net [])))
  /\ (forall udp,
        In (CallDialUDP udp) (snd (NewConnection net []))
        \/ In (CallListenUDP udp) (snd (NewConnection net [])) ->
        exists negRes, negotiated net = Some negRes /\ Status negRes = 0).
Proof.
  split.
  - intros negRes. run_session; cbn [fst snd app]; intros Hneg Hst;
      try discriminate; injection Hneg as <-.
    all: try (exfalso; apply Z.eqb_neq in Hst; rewrite Hst in *; discriminate).
    all: split; [reflexivity|].
    all: intros udp; split; cbn; intros H; repeat destruct H as [H|H];
      try discriminate; try contradiction.
  - intros udp. run_session; cbn [fst snd app]; cbn [In];
      intros [H|H]; repeat destruct H as [H|H]; try discriminate;
      try contradiction.
    all: eexists; split; [reflexivity|];
      match goal with
      | Hb : negb _ = false |- _ =>
          apply negb_false_iff in Hb; apply Z.eqb_eq in Hb; exact Hb
      end.
Qed.

Lemma refused_negotiation_opens_no_udp_socket_witness :
  fst (NewConnection (device 1) []) =
    inl "connection negotiation failed; connection refused by device"
  /\ snd (NewConnection (device 1) []) =
       [ CallDialTCP (deviceIP, discoveryPort);
         CallTCPWrite [123; 125; 0]; CallTCPReadBytes; CallTCPClose ].
Proof.
  destruct (proj1 (refused_negotiation_opens_no_udp_socket (device 1))
              (mkResponse 1 54321) eq_refl) as [H _].
  - cbn. lia.
  - split; [exact H | reflexivity].
Defined.

(** When the device accepts and the sockets open, the connection holds
    the port the device chose for the outbound direction and the port
    the controller chose for the inbound one; the sockets are opened
    after the handshake, the goroutine is started last, and the TCP
    connection of the handshake is closed on return. *)
Lemma accepted_negotiation_opens_both_sockets (net : network) (port : Z)
    (negAddr c2dAddr d2cAddr : addr) (jsonBytes data : bytes)
    (negRes : connectionNegotiationResponse) (c2d d2c : UDPConn) :
  GetFreePort net = inr port ->
  ResolveTCPAddr net (deviceIP, discoveryPort) = inr negAddr ->
  DialTCP net negAddr = None ->
  jsonMarshal net (mkRequest port "computer" "go-parrot") = inr jsonBytes ->
  negConnWrite net (jsonBytes ++ [0])%list = None ->
  negConnReadBytes net = inr data ->
  jsonUnmarshal net (removelast data) = inr negRes ->
  Status negRes = 0 ->
  ResolveUDPAddr net (deviceIP, C2DPort negRes) = inr c2dAddr ->
  DialUDP net c2dAddr = inr c2d ->
  ResolveUDPAddr net (EmptyString, port) = inr d2cAddr ->
  ListenUDP net d2cAddr = inr d2c ->
  NewConnection net [] =
  (inr (mkConnection (C2DPort negRes) c2d port d2c false AtSelect
          defaultEncodeFrame defaultDecodeData),
   [ CallDialTCP negAddr; CallTCPWrite (jsonBytes ++ [0])%list;
     CallTCPReadBytes; CallDialUDP c2dAddr; CallListenUDP d2cAddr;
     GoReceivePackets; CallTCPClose ]).
Proof.
  intros Hport Hneg Hdial Hjson Hwrite Hread Hres Hst Hc2dAddr Hc2d
    Hd2cAddr Hd2c.
  unfold NewConnection, bind, try, check, perform, defer, fail, ret.
  rewrite Hport, Hneg, Hdial, Hjson, Hwrite, Hread, Hres, Hst.
  cbn [Z.eqb negb]. rewrite Hc2dAddr, Hc2d, Hd2cAddr, Hd2c. reflexivity.
Qed.

Lemma accepted_negotiation_opens_both_sockets_witness :
  exists c calls,
    NewConnection (device 0) [] = (inr c, calls)
    /\ c2dPort c = 54321 /\ d2cPort c = 43210
    /\ length calls = 7%nat.
Proof.
  eexists. eexists. split.
  - apply (accepted_negotiation_opens_both_sockets (device 0) 43210
             (deviceIP, discoveryPort) (deviceIP, 54321) (EmptyString, 43210)
             [123; 125] [123; 125; 0] (mkResponse 0 54321) udp4 udp4);
      reflexivity.
  - repeat split.
Defined.

(** ** Send *)

(** [Send] passes the whole encoding of the frame to the outbound socket
    in one write and leaves the socket as that write left it; it returns
    nil exactly when the write does, and otherwise the error of the write
    behind its own prefix.  A socket that takes the datagram has then
    sent the whole encoding, and one that refuses it has sent nothing. *)
Lemma Send_relays_the_verdict_of_the_socket (c : connection) (frame : Frame) :
  c2dConn (fst (Send c frame)) =
    fst (UDPConn_Write (c2dConn c) (encodeFrame c frame))
  /\ (snd (Send c frame) = None
      <-> snd (UDPConn_Write (c2dConn c) (encodeFrame c frame)) = None)
  /\ (forall e,
        snd (UDPConn_Write (c2dConn c) (encodeFrame c frame)) = Some e ->
        snd (Send c frame) =
          Some ("error writing frame to outbound connection: " ++ e))
  /\ (closed (c2dConn c) = false ->
      refuses (c2dConn c) (encodeFrame c frame) = None ->
      snd (Send c frame) = None
      /\ written (c2dConn (fst (Send c frame))) =
           (written (c2dConn c) ++ [encodeFrame c frame])%list)
  /\ (forall e,
        closed (c2dConn c) = false ->
        refuses (c2dConn c) (encodeFrame c frame) = Some e ->
        snd (Send c frame) =
          Some ("error writing frame to outbound connection: " ++ e)
        /\ written (c2dConn (fst (Send c frame))) = written (c2dConn c)).
Proof.
  unfold Send, UDPConn_Write.
  destruct (closed (c2dConn c)); cbn [fst snd c2dConn set_c2dConn].
  - split; [reflexivity|]. split; [split; discriminate|].
    split; [intros e He; injection He as <-; reflexivity|].
    split; [discriminate|]. intros e Hc. discriminate Hc.
  - destruct (refuses (c2dConn c) (encodeFrame c frame)) as [e|];
      cbn [fst snd c2dConn set_c2dConn written].
    + split; [reflexivity|]. split; [split; discriminate|].
      split; [intros e' He; injection He as <-; reflexivity|].
      split; [intros _ Hr; discriminate Hr|].
      intros e' _ He. injection He as <-. split; reflexivity.
    + split; [reflexivity|]. split; [split; reflexivity|].
      split; [intros e He; discriminate He|].
      split; [intros _ _; split; reflexivity|].
      intros e _ He. discriminate He.
Qed.

Lemma length_oversized :
  Z.of_nat (length (defaultEncodeFrame oversized)) = 65508.
Proof.
  unfold defaultEncodeFrame, le32, oversized. cbn [Type_ ID Seq Data].
  rewrite !length_app, repeat_length. cbn [length]. lia.
Qed.

(** A write leaves the verdicts of the socket as they were. *)
Lemma UDPConn_Write_refuses (s : UDPConn) (b : bytes) :
  refuses (fst (UDPConn_Write s b)) = refuses s.
Proof.
  unfold UDPConn_Write. destruct (closed s); [reflexivity|].
  destruct (refuses s b); reflexivity.
Qed.

(** The outbound socket of a connection that [NewConnection] returns is
    the one [DialUDP] opened. *)
Lemma NewConnection_c2dConn (net : network) (c : connection)
    (calls : list call) :
  NewConnection net [] = (inr c, calls) ->
  exists a, DialUDP net a = inr (c2dConn c).
Proof.
  run_session; cbn [fst snd app]; intros H; try discriminate.
  injection H as <- _. cbn [c2dConn]. eexists. eassumption.
Qed.

(** C8.  Oversized sends fail fast.  The outbound socket of the
    connection is a UDP socket over IPv4: [NewConnection] dials
    [deviceIP].  On such a socket, [Send] of a frame whose encoding
    exceeds [maxUDPDataBytes] returns an error at once, the error of the
    write behind the prefix of [Send], and nothing is written, neither
    the encoding nor a part of it.  For every frame and every socket,
    [Send] either writes the whole encoding as one datagram and returns
    nil, or writes nothing and returns an error.  The socket stays an
    IPv4 socket from [NewConnection] on, through every [Send]. *)
Theorem oversized_Send_fails_fast :
  (forall c frame,
      overIPv4 (c2dConn c) ->
      maxUDPDataBytes < Z.of_nat (length (encodeFrame c frame)) ->
      (exists e,
          snd (Send c frame) =
            Some ("error writing frame to outbound connection: " ++ e))
      /\ written (c2dConn (fst (Send c frame))) = written (c2dConn c))
  /\ (forall c frame,
        (snd (Send c frame) = None
         /\ written (c2dConn (fst (Send c frame))) =
              (written (c2dConn c) ++ [encodeFrame c frame])%list)
        \/ (snd (Send c frame) <> None
            /\ written (c2dConn (fst (Send c frame))) = written (c2dConn c)))
  /\ (forall net c calls,
        (forall a s, DialUDP net a = inr s -> overIPv4 s) ->
        NewConnection net [] = (inr c, calls) ->
        overIPv4 (c2dConn c))
  /\ (forall c frame,
        overIPv4 (c2dConn c) ->
        overIPv4 (c2dConn (fst (Send c frame)))
        /\ encodeFrame (fst (Send c frame)) = encodeFrame c).
Proof.
  split; [|split; [|split]].
  - intros c frame Hv4 Hlong.
    destruct (Send_relays_the_verdict_of_the_socket c frame)
      as (_ & _ & _ & _ & Hrefused).
    unfold Send, UDPConn_Write in *.
    destruct (closed (c2dConn c)) eqn:Hclosed.
    + cbn [fst snd c2dConn set_c2dConn]. split; [eexists|]; reflexivity.
    + destruct (refuses (c2dConn c) (encodeFrame c frame)) as [e|] eqn:Hr.
      * destruct (Hrefused e eq_refl eq_refl) as [He Hw].
        split; [exists e; exact He | exact Hw].
      * exfalso. apply (Hv4 (encodeFrame c frame) Hlong). exact Hr.
  - intros c frame. unfold Send, UDPConn_Write.
    destruct (closed (c2dConn c)).
    + right. cbn [fst snd c2dConn set_c2dConn]. split; [discriminate|reflexivity].
    + destruct (refuses (c2dConn c) (encodeFrame c frame)).
      * right. cbn [fst snd c2dConn set_c2dConn].
        split; [discriminate|reflexivity].
      * left. cbn [fst snd c2dConn set_c2dConn written].
        split; reflexivity.
  - intros net c calls Hnet Hnew.
    destruct (NewConnection_c2dConn net c calls Hnew) as [a Ha].
    apply (Hnet a). exact Ha.
  - intros c frame Hv4.
    destruct (Send_relays_the_verdict_of_the_socket c frame) as (Hs & _).
    split.
    + rewrite Hs. intros b Hlong. rewrite UDPConn_Write_refuses.
      apply Hv4. exact Hlong.
    + unfold Send. destruct (UDPConn_Write _ _) as [s0 [e|]]; reflexivity.
Qed.

(** The sample socket over IPv4 is one. *)
Lemma udp4_overIPv4 : overIPv4 udp4.
Proof.
  intros b Hlong. unfold udp4, maxUDPDataBytes in *. cbn [refuses].
  destruct (65507 <? Z.of_nat (length b))%Z eqn:E; [discriminate|].
  apply Z.ltb_ge in E. lia.
Qed.

Lemma oversized_Send_fails_fast_witness :
  (exists e,
      snd (Send (connectionOver udp4) oversized) =
        Some ("error writing frame to outbound connection: " ++ e))
  /\ written (c2dConn (fst (Send (connectionOver udp4) oversized))) = [].
Proof.
  apply (proj1 oversized_Send_fails_fast (connectionOver udp4) oversized).
  - exact udp4_overIPv4.
  - cbn [connectionOver encodeFrame]. rewrite length_oversized.
    unfold maxUDPDataBytes. lia.
Defined.

(** ** The buffer over the UDP connection *)

(** Over an open socket that takes every datagram, the frames the writer
    hands to [Send] go out one datagram each, encoded whole and in order,
    and nothing is logged. *)
Lemma frames_reach_the_socket (frames : list Frame) : forall c : connection,
  closed (c2dConn c) = false ->
  (forall b, refuses (c2dConn c) b = None) ->
  written (c2dConn (fst (ARNetwork.sendAll c frames))) =
    (written (c2dConn c) ++ map (encodeFrame c) frames)%list
  /\ snd (ARNetwork.sendAll c frames) = [].
Proof.
  induction frames as [|f later IH]; intros c Hopen Htakes;
    cbn [ARNetwork.sendAll map].
  - rewrite app_nil_r. split; reflexivity.
  - cbn [ARNetworkAL.Send wifiConnection]. unfold Send, UDPConn_Write.
    rewrite Hopen, Htakes.
    set (c1 := set_c2dConn c _).
    destruct (IH c1) as [Hw Hl]; [reflexivity | exact Htakes |].
    destruct (ARNetwork.sendAll c1 later) as [c2 lines].
    cbn [fst snd] in *. rewrite Hw. subst c1.
    cbn [c2dConn set_c2dConn written encodeFrame].
    rewrite <- app_assoc. split; [reflexivity | exact Hl].
Qed.

Lemma frames_reach_the_socket_witness :
  written (c2dConn (fst (ARNetwork.sendAll (connectionOver unbounded)
                           [sampleFrame; sampleFrame]))) =
  [ [3; 11; 255; 10; 0; 0; 0; 2; 0; 255];
    [3; 11; 255; 10; 0; 0; 0; 2; 0; 255] ].
Proof.
  destruct (frames_reach_the_socket [sampleFrame; sampleFrame]
              (connectionOver unbounded)) as [Hw _].
  - reflexivity.
  - intros b. reflexivity.
  - rewrite Hw. reflexivity.
Defined.

End SessionProofs.

(* ================================================================== *)
(** * Properties of the feature states *)
(* ================================================================== *)

Module StateProofs.
Import ARCommands.

Section Convention.

Context {S A : Type} (init : S) (cmds : list (D2CCommand S))
  (get : S -> A * bool) (zero : A) (owner : string)
  (stored : list value -> option A).

Lemma execAll_render (calls : list (D2CCommand S * list value)) :
  followsConvention init cmds get zero owner stored ->
  forall s0 acc s,
    Forall (fun call => In (fst call) cmds) calls ->
    get s0 = render zero acc ->
    execAll s0 calls = Some s ->
    get s = render zero (lastStored owner stored calls acc).
Proof.
  intros [_ Hstep].
  induction calls as [|[cmd args] later IH]; intros s0 acc s Hin Hget Hrun;
    cbn [execAll] in Hrun.
  - injection Hrun as <-. exact Hget.
  - destruct (execute cmd args s0) as [s1|] eqn:Hex; [|discriminate].
    inversion Hin as [|call calls' Hcmd Hlater]; subst.
    cbn [fst] in Hcmd. specialize (Hstep cmd args s0 s1 Hcmd Hex).
    unfold lastStored. cbn [fold_left fst snd].
    apply (IH s1 _ s Hlater); [|exact Hrun].
    destruct (String.eqb (cmdName cmd) owner).
    + destruct Hstep as (v & -> & ->). reflexivity.
    + rewrite Hstep. exact Hget.
Qed.

Lemma followsConvention_reportedVsDefault :
  followsConvention init cmds get zero owner stored ->
  reportedVsDefault init cmds get zero owner stored.
Proof.
  intros Hconv calls s Hin Hrun.
  apply (execAll_render calls Hconv init None s Hin); [|exact Hrun].
  apply Hconv.
Qed.

End Convention.

(** Every case of a command table, with the argument lookups of the
    handler that succeeded taken apart. *)
Ltac by_command :=
  split; [reflexivity|];
  intros cmd args s s' Hin Hex; cbn [In] in Hin;
  repeat (destruct Hin as [<-|Hin]); try contradiction;
  cbv -[uint8_at uint16_at int16_at float32_at Z.eqb] in Hex;
  repeat match type of Hex with
         | context [match ?x with Some _ => _ | None => _ end] =>
             destruct x eqn:?; try discriminate
         end;
  injection Hex as <-;
  cbv -[uint8_at uint16_at int16_at float32_at Z.eqb option_map];
  try reflexivity;
  repeat match goal with
         | H : _ = Some _ |- _ => rewrite H
         end;
  eexists; split; reflexivity.

Lemma Common_RSSI_convention :
  followsConvention Common.zero Common.D2CCommands Common.RSSI 0
    "WifiSignalChanged" (fun args => int16_at args 0).
Proof. by_command. Qed.

Lemma Common_MassStorageID_convention :
  followsConvention Common.zero Common.D2CCommands Common.MassStorageID 0
    "MassStorageContent" (fun args => uint8_at args 0).
Proof. by_command. Qed.

Lemma Common_PhotoCount_convention :
  followsConvention Common.zero Common.D2CCommands Common.PhotoCount 0
    "MassStorageContent" (fun args => uint16_at args 1).
Proof. by_command. Qed.

Lemma Common_VideoCount_convention :
  followsConvention Common.zero Common.D2CCommands Common.VideoCount 0
    "MassStorageContent" (fun args => uint16_at args 2).
Proof. by_command. Qed.

Lemma Common_PudCount_convention :
  followsConvention Common.zero Common.D2CCommands Common.PudCount 0
    "MassStorageContent" (fun args => uint16_at args 3).
Proof. by_command. Qed.

Lemma Common_CrashLogCount_convention :
  followsConvention Common.zero Common.D2CCommands Common.CrashLogCount 0
    "MassStorageContent" (fun args => uint16_at args 4).
Proof. by_command. Qed.

Lemma Common_RawPhotoCount_convention :
  followsConvention Common.zero Common.D2CCommands Common.RawPhotoCount 0
    "MassStorageContent" (fun args => uint16_at args 5).
Proof. by_command. Qed.

Lemma Common_CurrentRunMassStorageID_convention :
  followsConvention Common.zero Common.D2CCommands Common.CurrentRunMassStorageID 0
    "MassStorageContentForCurrentRun" (fun args => uint8_at args 0).
Proof. by_command. Qed.

Lemma Common_CurrentRunPhotoCount_convention :
  followsConvention Common.zero Common.D2CCommands Common.CurrentRunPhotoCount 0
    "MassStorageContentForCurrentRun" (fun args => uint16_at args 1).
Proof. by_command. Qed.

Lemma Common_CurrentRunVideoCount_convention :
  followsConvention Common.zero Common.D2CCommands Common.CurrentRunVideoCount 0
    "MassStorageContentForCurrentRun" (fun args => uint16_at args 2).
Proof. by_command. Qed.

Lemma Common_CurrentRunRawPhotoCount_convention :
  followsConvention Common.zero Common.D2CCommands Common.CurrentRunRawPhotoCount 0
    "MassStorageContentForCurrentRun" (fun args => uint16_at args 3).
Proof. by_command. Qed.

Lemma Common_BatteryPercent_convention :
  followsConvention Common.zero Common.D2CCommands Common.BatteryPercent 0
    "BatteryStateChanged" (fun args => uint8_at args 0).
Proof. by_command. Qed.

Lemma ARDrone3_MotionDetectionEnabled_convention :
  followsConvention ARDrone3.newPilotingSettingsState ARDrone3.D2CCommands ARDrone3.MotionDetectionEnabled false
    "MotionDetection" (fun args => option_map (fun z => z =? 1) (uint8_at args 0)).
Proof. by_command. Qed.

Lemma ARDrone3_MaxAltitude_convention :
  followsConvention ARDrone3.newPilotingSettingsState ARDrone3.D2CCommands ARDrone3.MaxAltitude 0
    "MaxAltitudeChanged" (fun args => float32_at args 0).
Proof. by_command. Qed.

Lemma ARDrone3_MaxAltitudeRangeMin_convention :
  followsConvention ARDrone3.newPilotingSettingsState ARDrone3.D2CCommands ARDrone3.MaxAltitudeRangeMin 0
    "MaxAltitudeChanged" (fun args => float32_at args 1).
Proof. by_command. Qed.

Lemma ARDrone3_MaxAltitudeRangeMax_convention :
  followsConvention ARDrone3.newPilotingSettingsState ARDrone3.D2CCommands ARDrone3.MaxAltitudeRangeMax 0
    "MaxAltitudeChanged" (fun args => float32_at args 2).
Proof. by_command. Qed.

Lemma ARDrone3_MaxDistance_convention :
  followsConvention ARDrone3.newPilotingSettingsState ARDrone3.D2CCommands ARDrone3.MaxDistance 0
    "MaxDistanceChanged" (fun args => float32_at args 0).
Proof. by_command. Qed.

Lemma ARDrone3_MaxDistanceRangeMin_convention :
  followsConvention ARDrone3.newPilotingSettingsState ARDrone3.D2CCommands ARDrone3.MaxDistanceRangeMin 0
    "MaxDistanceChanged" (fun args => float32_at args 1).
Proof. by_command. Qed.

Lemma ARDrone3_MaxDistanceRangeMax_convention :
  followsConvention ARDrone3.newPilotingSettingsState ARDrone3.D2CCommands ARDrone3.MaxDistanceRangeMax 0
    "MaxDistanceChanged" (fun args => float32_at args 2).
Proof. by_command. Qed.

Lemma ARDrone3_MaxTilt_convention :
  followsConvention ARDrone3.newPilotingSettingsState ARDrone3.D2CCommands ARDrone3.MaxTilt 0
    "MaxTiltChanged" (fun args => float32_at args 0).
Proof. by_command. Qed.

Lemma ARDrone3_MaxTiltRangeMin_convention :
  followsConvention ARDrone3.newPilotingSettingsState ARDrone3.D2CCommands ARDrone3.MaxTiltRangeMin 0
    "MaxTiltChanged" (fun args => float32_at args 1).
Proof. by_command. Qed.

Lemma ARDrone3_MaxTiltRangeMax_convention :
  followsConvention ARDrone3.newPilotingSettingsState ARDrone3.D2CCommands ARDrone3.MaxTiltRangeMax 0
    "MaxTiltChanged" (fun args => float32_at args 2).
Proof. by_command. Qed.

Lemma ARDrone3_GeofencingEnabled_convention :
  followsConvention ARDrone3.newPilotingSettingsState ARDrone3.D2CCommands ARDrone3.GeofencingEnabled false
    "NoFlyOverMaxDistanceChanged" (fun args => option_map (fun z => z =? 1) (uint8_at args 0)).
Proof. by_command. Qed.

Lemma ARDrone3_BankedTurningEnabled_convention :
  followsConvention ARDrone3.newPilotingSettingsState ARDrone3.D2CCommands ARDrone3.BankedTurningEnabled false
    "BankedTurnChanged" (fun args => option_map (fun z => z =? 1) (uint8_at args 0)).
Proof. by_command. Qed.

Lemma wellTyped_nil (args : list value) :
  wellTyped [] args = true -> args = [].
Proof. destruct args; [reflexivity | discriminate]. Qed.

Lemma wellTyped_cons (t : value) (template args : list value) :
  wellTyped (t :: template) args = true ->
  exists a rest,
    args = a :: rest /\ sameType t a = true /\ wellTyped template rest = true.
Proof.
  destruct args as [|a rest]; cbn [wellTyped]; [discriminate|].
  intros H. apply andb_true_iff in H. exists a, rest. tauto.
Qed.

(** Handlers do not panic on arguments of the types of their
    template. *)
Ltac by_template :=
  intros cmd args s Hin Hty; cbn [In] in Hin;
  repeat (destruct Hin as [<-|Hin]); try contradiction;
  cbn [argTemplate execute] in *;
  repeat match goal with
         | H : wellTyped (_ :: _) _ = true |- _ =>
             apply wellTyped_cons in H;
             destruct H as ([] & ? & -> & ? & H); try discriminate
         | H : wellTyped [] _ = true |- _ =>
             apply wellTyped_nil in H; subst
         end;
  eexists; reflexivity.

Lemma Common_handlers_total : forall cmd args s,
  In cmd Common.D2CCommands -> wellTyped (argTemplate cmd) args = true ->
  exists s', execute cmd args s = Some s'.
Proof. by_template. Qed.

(** Nor does a handler of the piloting settings panic on arguments of the
    types of its template. *)
Lemma ARDrone3_handlers_total : forall cmd args s,
  In cmd ARDrone3.D2CCommands -> wellTyped (argTemplate cmd) args = true ->
  exists s', execute cmd args s = Some s'.
Proof. by_template. Qed.

(** C9 (as amended).  Reported versus default.  For each of the twelve
    accessors of the common state and the twelve of the piloting settings
    state, after any sequence of commands of the feature the accessor
    returns the zero value and [false] if the command that stores its
    field was never received, and otherwise the value that the last such
    command stored and [true].  So [BatteryPercent] returns [(0, false)]
    at first and [(p, true)] after [batteryStateChanged] ran with [p].
    [Accessories] is of another kind: it returns the map of the state as
    it is, in which a listed accessory stands under its id with what the
    device reported of it. *)
Theorem accessors_follow_reported_vs_default :
  (reportedVsDefault Common.zero Common.D2CCommands Common.RSSI 0
      "WifiSignalChanged" (fun args => int16_at args 0))
  /\ (reportedVsDefault Common.zero Common.D2CCommands Common.MassStorageID 0
      "MassStorageContent" (fun args => uint8_at args 0))
  /\ (reportedVsDefault Common.zero Common.D2CCommands Common.PhotoCount 0
      "MassStorageContent" (fun args => uint16_at args 1))
  /\ (reportedVsDefault Common.zero Common.D2CCommands Common.VideoCount 0
      "MassStorageContent" (fun args => uint16_at args 2))
  /\ (reportedVsDefault Common.zero Common.D2CCommands Common.PudCount 0
      "MassStorageContent" (fun args => uint16_at args 3))
  /\ (reportedVsDefault Common.zero Common.D2CCommands Common.CrashLogCount 0
      "MassStorageContent" (fun args => uint16_at args 4))
  /\ (reportedVsDefault Common.zero Common.D2CCommands Common.RawPhotoCount 0
      "MassStorageContent" (fun args => uint16_at args 5))
  /\ (reportedVsDefault Common.zero Common.D2CCommands Common.CurrentRunMassStorageID 0
      "MassStorageContentForCurrentRun" (fun args => uint8_at args 0))
  /\ (reportedVsDefault Common.zero Common.D2CCommands Common.CurrentRunPhotoCount 0
      "MassStorageContentForCurrentRun" (fun args => uint16_at args 1))
  /\ (reportedVsDefault Common.zero Common.D2CCommands Common.CurrentRunVideoCount 0
      "MassStorageContentForCurrentRun" (fun args => uint16_at args 2))
  /\ (reportedVsDefault Common.zero Common.D2CCommands Common.CurrentRunRawPhotoCount 0
      "MassStorageContentForCurrentRun" (fun args => uint16_at args 3))
  /\ (reportedVsDefault Common.zero Common.D2CCommands Common.BatteryPercent 0
      "BatteryStateChanged" (fun args => uint8_at args 0))
  /\ (reportedVsDefault ARDrone3.newPilotingSettingsState ARDrone3.D2CCommands ARDrone3.MotionDetectionEnabled false
      "MotionDetection" (fun args => option_map (fun z => z =? 1) (uint8_at args 0)))
  /\ (reportedVsDefault ARDrone3.newPilotingSettingsState ARDrone3.D2CCommands ARDrone3.MaxAltitude 0
      "MaxAltitudeChanged" (fun args => float32_at args 0))
  /\ (reportedVsDefault ARDrone3.newPilotingSettingsState ARDrone3.D2CCommands ARDrone3.MaxAltitudeRangeMin 0
      "MaxAltitudeChanged" (fun args => float32_at args 1))
  /\ (reportedVsDefault ARDrone3.newPilotingSettingsState ARDrone3.D2CCommands ARDrone3.MaxAltitudeRangeMax 0
      "MaxAltitudeChanged" (fun args => float32_at args 2))
  /\ (reportedVsDefault ARDrone3.newPilotingSettingsState ARDrone3.D2CCommands ARDrone3.MaxDistance 0
      "MaxDistanceChanged" (fun args => float32_at args 0))
  /\ (reportedVsDefault ARDrone3.newPilotingSettingsState ARDrone3.D2CCommands ARDrone3.MaxDistanceRangeMin 0
      "MaxDistanceChanged" (fun args => float32_at args 1))
  /\ (reportedVsDefault ARDrone3.newPilotingSettingsState ARDrone3.D2CCommands ARDrone3.MaxDistanceRangeMax 0
      "MaxDistanceChanged" (fun args => float32_at args 2))
  /\ (reportedVsDefault ARDrone3.newPilotingSettingsState ARDrone3.D2CCommands ARDrone3.MaxTilt 0
      "MaxTiltChanged" (fun args => float32_at args 0))
  /\ (reportedVsDefault ARDrone3.newPilotingSettingsState ARDrone3.D2CCommands ARDrone3.MaxTiltRangeMin 0
      "MaxTiltChanged" (fun args => float32_at args 1))
  /\ (reportedVsDefault ARDrone3.newPilotingSettingsState ARDrone3.D2CCommands ARDrone3.MaxTiltRangeMax 0
      "MaxTiltChanged" (fun args => float32_at args 2))
  /\ (reportedVsDefault ARDrone3.newPilotingSettingsState ARDrone3.D2CCommands ARDrone3.GeofencingEnabled false
      "NoFlyOverMaxDistanceChanged" (fun args => option_map (fun z => z =? 1) (uint8_at args 0)))
  /\ (reportedVsDefault ARDrone3.newPilotingSettingsState ARDrone3.D2CCommands ARDrone3.BankedTurningEnabled false
      "BankedTurnChanged" (fun args => option_map (fun z => z =? 1) (uint8_at args 0)))
  /\ Common.BatteryPercent Common.zero = (0, false)
  /\ (forall c p,
        exists c',
          Common.batteryStateChanged [Uint8 p] c = Some c'
          /\ Common.BatteryPercent c' = (p, true))
  /\ (forall a,
        AccessoryState.Accessories a = AccessoryState.accessories a)
  /\ (forall a key t u v flags,
        Z.land flags 4 <> 4 -> Z.land flags 8 <> 8 ->
        exists a' acc,
          AccessoryState.connectedAccessories
            [Uint8 key; Int32 t; Str u; Str v; Uint8 flags] a = Some a'
          /\ AccessoryState.lookup (AccessoryState.Accessories a') key
               = Some acc
          /\ AccessoryState.tipe acc = t
          /\ AccessoryState.uid acc = u
          /\ AccessoryState.softwareVersion acc = v).
Proof.
  repeat match goal with
         | |- reportedVsDefault _ _ _ _ _ _ /\ _ => split
         end.
  - apply followsConvention_reportedVsDefault, Common_RSSI_convention.
  - apply followsConvention_reportedVsDefault, Common_MassStorageID_convention.
  - apply followsConvention_reportedVsDefault, Common_PhotoCount_convention.
  - apply followsConvention_reportedVsDefault, Common_VideoCount_convention.
  - apply followsConvention_reportedVsDefault, Common_PudCount_convention.
  - apply followsConvention_reportedVsDefault, Common_CrashLogCount_convention.
  - apply followsConvention_reportedVsDefault, Common_RawPhotoCount_convention.
  - apply followsConvention_reportedVsDefault, Common_CurrentRunMassStorageID_convention.
  - apply followsConvention_reportedVsDefault, Common_CurrentRunPhotoCount_convention.
  - apply followsConvention_reportedVsDefault, Common_CurrentRunVideoCount_convention.
  - apply followsConvention_reportedVsDefault, Common_CurrentRunRawPhotoCount_convention.
  - apply followsConvention_reportedVsDefault, Common_BatteryPercent_convention.
  - apply followsConvention_reportedVsDefault, ARDrone3_MotionDetectionEnabled_convention.
  - apply followsConvention_reportedVsDefault, ARDrone3_MaxAltitude_convention.
  - apply followsConvention_reportedVsDefault, ARDrone3_MaxAltitudeRangeMin_convention.
  - apply followsConvention_reportedVsDefault, ARDrone3_MaxAltitudeRangeMax_convention.
  - apply followsConvention_reportedVsDefault, ARDrone3_MaxDistance_convention.
  - apply followsConvention_reportedVsDefault, ARDrone3_MaxDistanceRangeMin_convention.
  - apply followsConvention_reportedVsDefault, ARDrone3_MaxDistanceRangeMax_convention.
  - apply followsConvention_reportedVsDefault, ARDrone3_MaxTilt_convention.
  - apply followsConvention_reportedVsDefault, ARDrone3_MaxTiltRangeMin_convention.
  - apply followsConvention_reportedVsDefault, ARDrone3_MaxTiltRangeMax_convention.
  - apply followsConvention_reportedVsDefault, ARDrone3_GeofencingEnabled_convention.
  - apply followsConvention_reportedVsDefault, ARDrone3_BankedTurningEnabled_convention.
  - split; [reflexivity|]. split; [|split].
    + intros c p. eexists. split; reflexivity.
    + reflexivity.
    + intros a key t u v flags H4 H8.
      unfold AccessoryState.connectedAccessories.
      cbn [uint8_at int32_at string_at nth_error].
      apply Z.eqb_neq in H4, H8. rewrite H4, H8.
      eexists. eexists. split; [reflexivity|].
      unfold AccessoryState.Accessories, AccessoryState.store.
      cbn [AccessoryState.accessories AccessoryState.lookup].
      rewrite Z.eqb_refl. repeat split.
Qed.

Import Samples.

Lemma Common_handlers_total_witness :
  exists c,
    Common.massStorageContent
      [Uint8 1; Uint16 12; Uint16 3; Uint16 0; Uint16 0; Uint16 4]
      Common.zero = Some c
    /\ Common.PhotoCount c = (12, true).
Proof.
  destruct (Common_handlers_total
              (NewD2CCommand 12 "MassStorageContent"
                 [Uint8 0; Uint16 0; Uint16 0; Uint16 0; Uint16 0; Uint16 0]
                 Common.massStorageContent)
              [Uint8 1; Uint16 12; Uint16 3; Uint16 0; Uint16 0; Uint16 4]
              Common.zero) as (c & Hc).
  - cbn. tauto.
  - reflexivity.
  - exists c. split; [exact Hc|]. cbn in Hc. injection Hc as <-. reflexivity.
Defined.

(** The accessory state tells no report from the default.  A listed
    accessory is returned in the map, with no flag beside it; and once
    the device has withdrawn it again, [Accessories] returns what it
    returned before anything was reported, so that nothing computed from
    its result can serve as the flag. *)
Lemma Accessories_has_no_reported_flag :
  (exists a,
      AccessoryState.connectedAccessories accessoryListed
        AccessoryState.empty = Some a
      /\ AccessoryState.Accessories a =
           [(7, AccessoryState.mkAccessory 7 2 "uid" "1.0" 0)])
  /\ ~ (exists reportedFlag : AccessoryState.accessoryMap -> bool,
          reportedFlag (AccessoryState.Accessories AccessoryState.empty)
            = false
          /\ forall calls a,
               calls <> [] ->
               Forall (fun call => In (fst call) AccessoryState.D2CCommands)
                 calls ->
               execAll AccessoryState.empty calls = Some a ->
               reportedFlag (AccessoryState.Accessories a) = true).
Proof.
  split.
  - eexists. split; reflexivity.
  - intros (reportedFlag & Hdefault & Hreported).
    specialize (Hreported
      [ (NewD2CCommand 0 "ConnectedAccessories"
           [Uint8 0; Int32 0; Str NUL; Str NUL; Uint8 0]
           AccessoryState.connectedAccessories, accessoryListed);
        (NewD2CCommand 0 "ConnectedAccessories"
           [Uint8 0; Int32 0; Str NUL; Str NUL; Uint8 0]
           AccessoryState.connectedAccessories, accessoryWithdrawn) ]
      AccessoryState.empty).
    rewrite Hdefault in Hreported.
    assert (false = true); [|discriminate].
    apply Hreported.
    + discriminate.
    + repeat constructor.
    + reflexivity.
Qed.

Lemma accessors_follow_reported_vs_default_witness :
  exists c,
    execAll Common.zero telemetry = Some c
    /\ Common.BatteryPercent c = (86, true).
Proof.
  eexists. split; [reflexivity|].
  destruct accessors_follow_reported_vs_default
    as (_ & _ & _ & _ & _ & _ & _ & _ & _ & _ & _ & Hbattery & _).
  apply (Hbattery telemetry); [|reflexivity].
  repeat constructor; cbn; tauto.
Defined.

End StateProofs.

(* ================================================================== *)
(** * The writer of the buffer, whatever the acks *)
(* ================================================================== *)

Module WriterProofs.
Import ARNetwork BufferProofs Samples.

Section WithConnection.

Context {C : Type} {connection : ARNetworkAL.Connection C}.

Implicit Types (c : c2dBuffer C) (frame : Frame).

(** *** One wait *)

Lemma awaitAck_clock c nf :
  clock c <= clock (snd (awaitAck c nf))
           <= clock c + Z.max 0 (AckTimeout (config c)).
Proof.
  unfold awaitAck. destruct (ackCh c) as [|[ready ack] later]; cbn [snd clock].
  - lia.
  - destruct (ready <? _) eqn:Hready; cbn [snd clock]; [|lia].
    apply Z.ltb_lt in Hready. lia.
Qed.

(** A wait that receives a frame takes the first of the channel; one that
    times out leaves the channel as it is. *)
Lemma awaitAck_ackCh c nf :
  match fst (awaitAck c nf) with
  | TimedOut => ackCh (snd (awaitAck c nf)) = ackCh c
  | _ => exists ready ack,
           ackCh c = (ready, ack) :: ackCh (snd (awaitAck c nf))
           /\ (fst (awaitAck c nf) = AckMatches ->
               carries ack (ARNetworkAL.Seq nf))
  end.
Proof.
  unfold awaitAck. destruct (ackCh c) as [|[ready ack] later]; cbn [fst snd ackCh].
  - reflexivity.
  - destruct (ready <? _); cbn [fst snd ackCh]; [|reflexivity].
    destruct (bytes_Equal _ _) eqn:Heq; exists ready, ack;
      (split; [reflexivity|]); intros H; [|discriminate].
    apply bytes_Equal_eq in Heq. unfold carries. symmetry. exact Heq.
Qed.

Lemma awaitAck_skipn c nf :
  exists k, (k <= 1)%nat /\ ackCh (snd (awaitAck c nf)) = skipn k (ackCh c).
Proof.
  pose proof (awaitAck_ackCh c nf) as H.
  destruct (fst (awaitAck c nf)).
  - destruct H as (ready & ack & -> & _). exists 1%nat. split; [lia|reflexivity].
  - destruct H as (ready & ack & -> & _). exists 1%nat. split; [lia|reflexivity].
  - exists 0%nat. split; [lia|]. rewrite H. reflexivity.
Qed.

(** *** The bounds of one item *)

Lemma writeFrameFrom_bounded n : forall fuel attempts frame c,
  0 <= attempts ->
  attempts + Z.of_nat n = MaxRetries (config c) + 1 ->
  0 <= MaxRetries (config c) < intMax ->
  (n <= fuel)%nat ->
  fst (writeFrameFrom fuel attempts frame c) <> StillLooping
  /\ (length (handed (snd (writeFrameFrom fuel attempts frame c)))
        <= length (handed c) + n)%nat
  /\ ((0 < n)%nat ->
      (length (handed c)
         < length (handed (snd (writeFrameFrom fuel attempts frame c))))%nat)
  /\ clock c <= clock (snd (writeFrameFrom fuel attempts frame c))
             <= clock c + Z.of_nat n * Z.max 0 (AckTimeout (config c))
  /\ config (snd (writeFrameFrom fuel attempts frame c)) = config c
  /\ exists k,
       (k <= n)%nat
       /\ ackCh (snd (writeFrameFrom fuel attempts frame c)) = skipn k (ackCh c).
Proof.
  induction n as [|n IH]; intros fuel attempts frame c Ha Hn HR Hfuel.
  - assert (Hstop : retrying c attempts = false).
    { unfold retrying. apply orb_false_iff. split.
      - apply Z.leb_gt. lia.
      - apply Z.eqb_neq. lia. }
    destruct fuel; cbn [writeFrameFrom]; rewrite Hstop; cbn [fst snd];
      (split; [discriminate|]); (split; [lia|]); (split; [lia|]);
      (split; [lia|]); (split; [reflexivity|]); exists 0%nat;
      (split; [lia | reflexivity]).
  - destruct fuel as [|fuel]; [lia|].
    assert (Hgo : retrying c attempts = true).
    { unfold retrying. apply orb_true_iff. left. apply Z.leb_le. lia. }
    cbn [writeFrameFrom]. rewrite Hgo.
    destruct (send_spec c frame)
      as (_ & Hcfg & _ & Hacks & Hclk & Hh & _).
    destruct (send c frame) as [nf c1]. cbn [fst snd] in *.
    assert (Hlen1 : length (handed c1) = S (length (handed c))).
    { rewrite Hh, length_app. cbn. lia. }
    assert (Hnext : forall c2,
      config c2 = config c -> handed c2 = handed c1 ->
      clock c <= clock c2 <= clock c + Z.max 0 (AckTimeout (config c)) ->
      (exists k, (k <= 1)%nat /\ ackCh c2 = skipn k (ackCh c)) ->
      fst (writeFrameFrom fuel (int_incr attempts) frame c2) <> StillLooping
      /\ (length (handed (snd (writeFrameFrom fuel (int_incr attempts) frame c2)))
            <= length (handed c) + S n)%nat
      /\ ((0 < S n)%nat ->
          (length (handed c)
             < length (handed (snd (writeFrameFrom fuel (int_incr attempts)
                                      frame c2))))%nat)
      /\ clock c <= clock (snd (writeFrameFrom fuel (int_incr attempts) frame c2))
                 <= clock c + Z.of_nat (S n) * Z.max 0 (AckTimeout (config c))
      /\ config (snd (writeFrameFrom fuel (int_incr attempts) frame c2))
           = config c
      /\ exists k,
           (k <= S n)%nat
           /\ ackCh (snd (writeFrameFrom fuel (int_incr attempts) frame c2))
                = skipn k (ackCh c)).
    { intros c2 Hcfg2 Hh2 Hclk2 (k & Hk1 & Hk).
      rewrite int_incr_small by lia.
      destruct (IH fuel (attempts + 1) frame c2)
        as (He & Hl & _ & Hc & Hcf & (k' & Hk'n & Hk'));
        try (rewrite Hcfg2); try lia.
      rewrite Hcfg2 in Hc.
      split; [exact He|]. split; [rewrite Hh2, Hlen1 in Hl; lia|].
      split.
      { intros _.
        pose proof (proj1 (writeFrameFrom_handed fuel (attempts + 1) frame c2))
          as Hmono.
        rewrite Hh2, Hlen1 in Hmono. lia. }
      split; [nia|]. split; [rewrite Hcf; exact Hcfg2|].
      exists (k' + k)%nat. split; [lia|].
      rewrite Hk', Hk, skipn_skipn. reflexivity. }
    destruct (ARNetworkAL.Type_ nf =? ARNetworkAL.FrameTypeDataWithAck).
    + pose proof (awaitAck_frame c1 nf) as (Hcfg2 & _ & _ & Hh2 & _).
      pose proof (awaitAck_clock c1 nf) as Hclk2.
      pose proof (awaitAck_skipn c1 nf) as Hacks2.
      rewrite Hcfg, Hclk in Hclk2. rewrite Hacks in Hacks2.
      destruct (awaitAck c1 nf) as [w c2]. cbn [fst snd] in *.
      destruct w;
        try (apply Hnext; [congruence | exact Hh2 | exact Hclk2 | exact Hacks2]).
      cbn [fst snd]. split; [discriminate|].
      split; [rewrite Hh2, Hlen1; lia|].
      split; [intros _; rewrite Hh2, Hlen1; lia|].
      split; [nia|]. split; [congruence|].
      destruct Hacks2 as (k & Hk1 & Hk). exists k. split; [lia | exact Hk].
    + apply Hnext; [exact Hcfg | reflexivity | rewrite Hclk; lia |].
      exists 0%nat. split; [lia|]. rewrite Hacks. reflexivity.
Qed.

(** Whatever arrives on the ack channel and whatever [Send] returns,
    [writeFrame] returns after at least one and at most [MaxRetries + 1]
    sends, within [MaxRetries + 1] timeouts, having taken at most that
    many frames from the head of the ack channel. *)
Theorem writeFrame_returns_within_bounds (fuel : nat) frame c :
  0 <= MaxRetries (config c) < intMax ->
  (Z.to_nat (MaxRetries (config c)) + 1 <= fuel)%nat ->
  fst (writeFrame fuel frame c) <> StillLooping
  /\ (length (handed c) < length (handed (snd (writeFrame fuel frame c)))
        <= length (handed c) + Z.to_nat (MaxRetries (config c)) + 1)%nat
  /\ clock c <= clock (snd (writeFrame fuel frame c))
             <= clock c + (MaxRetries (config c) + 1)
                            * Z.max 0 (AckTimeout (config c))
  /\ exists taken : nat,
       Z.of_nat taken <= MaxRetries (config c) + 1
       /\ ackCh (snd (writeFrame fuel frame c)) = skipn taken (ackCh c).
Proof.
  intros HR Hfuel. unfold writeFrame.
  destruct (writeFrameFrom_bounded (Z.to_nat (MaxRetries (config c)) + 1)
              fuel 0 frame c)
    as (He & Hle & Hlt & Hclk & _ & (k & Hk & Hacks)); try lia.
  split; [exact He|]. split; [lia|].
  split.
  - replace (MaxRetries (config c) + 1)
      with (Z.of_nat (Z.to_nat (MaxRetries (config c)) + 1)) by lia.
    exact Hclk.
  - exists k. split; [lia | exact Hacks].
Qed.

(** *** A return on an ack *)

Lemma writeFrameFrom_acked fuel : forall attempts frame c,
  fst (writeFrameFrom fuel attempts frame c) = ReturnedOnAck ->
  FrameType (config c) = ARNetworkAL.FrameTypeDataWithAck
  /\ exists before sent taken ready ack,
       handed (snd (writeFrameFrom fuel attempts frame c)) = before ++ [sent]
       /\ ARNetworkAL.Data sent = Data frame
       /\ ackCh c =
            taken ++ (ready, ack)
              :: ackCh (snd (writeFrameFrom fuel attempts frame c))
       /\ carries ack (ARNetworkAL.Seq sent).
Proof.
  induction fuel as [|fuel IH]; intros attempts frame c;
    cbn [writeFrameFrom]; destruct (retrying c attempts);
    try (cbn [fst]; discriminate).
  destruct (send_spec c frame) as (Hnf & Hcfg & _ & Hacks & _ & Hh & _).
  destruct (send c frame) as [nf c1]. cbn [fst snd] in *.
  destruct (ARNetworkAL.Type_ nf =? ARNetworkAL.FrameTypeDataWithAck) eqn:Ety.
  - pose proof (awaitAck_frame c1 nf) as (Hcfg2 & _ & _ & Hh2 & _).
    pose proof (awaitAck_ackCh c1 nf) as Hacks2.
    destruct (awaitAck c1 nf) as [w c2]. cbn [fst snd] in *.
    assert (Hty : FrameType (config c) = ARNetworkAL.FrameTypeDataWithAck).
    { apply Z.eqb_eq in Ety. rewrite Hnf in Ety. exact Ety. }
    destruct w.
    + intros _. split; [exact Hty|].
      destruct Hacks2 as (ready & ack & Hch & Hcar).
      exists (handed c), nf, [], ready, ack. cbn [fst snd app].
      split; [congruence|]. split; [rewrite Hnf; reflexivity|].
      split; [congruence|]. apply Hcar. reflexivity.
    + intros H. destruct (IH _ _ _ H)
        as (_ & before & sent & taken & ready & ack & H1 & H2 & H3 & H4).
      split; [exact Hty|].
      destruct Hacks2 as (ready0 & ack0 & Hch & _).
      exists before, sent, ((ready0, ack0) :: taken), ready, ack.
      split; [exact H1|]. split; [exact H2|]. split; [|exact H4].
      rewrite <- Hacks, Hch, H3. reflexivity.
    + intros H. destruct (IH _ _ _ H)
        as (_ & before & sent & taken & ready & ack & H1 & H2 & H3 & H4).
      split; [exact Hty|].
      exists before, sent, taken, ready, ack.
      split; [exact H1|]. split; [exact H2|]. split; [|exact H4].
      rewrite <- Hacks, <- Hacks2. exact H3.
  - intros H. destruct (IH _ _ _ H) as (Hty & _).
    rewrite Hcfg in Hty. apply Z.eqb_neq in Ety. rewrite Hnf in Ety.
    cbn [ARNetworkAL.Type_] in Ety. contradiction.
Qed.

(** [writeFrame] returns before its attempts are used up only for a
    frame type that is acknowledged, and only on an ack that carries the
    sequence number of the frame sent last; that ack is the last frame
    taken from the ack channel, and the frame sent last has the payload of
    the queued item. *)
Theorem early_return_needs_the_ack_of_the_last_send (fuel : nat) frame c :
  fst (writeFrame fuel frame c) = ReturnedOnAck ->
  FrameType (config c) = ARNetworkAL.FrameTypeDataWithAck
  /\ exists before sent taken ready ack,
       handed (snd (writeFrame fuel frame c)) = before ++ [sent]
       /\ ARNetworkAL.Data sent = Data frame
       /\ ackCh c = taken ++ (ready, ack) :: ackCh (snd (writeFrame fuel frame c))
       /\ carries ack (ARNetworkAL.Seq sent).
Proof. apply writeFrameFrom_acked. Qed.

(** *** The connection has no say *)

Lemma send_overReliable c frame :
  fst (send (overReliable c) frame) = fst (send c frame)
  /\ snd (send (overReliable c) frame) = overReliable (snd (send c frame)).
Proof.
  unfold send, overReliable.
  cbn [config conn seq ackCh clock handed logged ARNetworkAL.Send reliable].
  destruct (ARNetworkAL.Send (conn c) _) as [cn err].
  cbn [fst snd config conn seq ackCh clock handed logged]. split; reflexivity.
Qed.

Lemma awaitAck_overReliable c nf :
  fst (awaitAck (overReliable c) nf) = fst (awaitAck c nf)
  /\ snd (awaitAck (overReliable c) nf) = overReliable (snd (awaitAck c nf)).
Proof.
  unfold awaitAck, overReliable.
  cbn [config conn seq ackCh clock handed logged].
  destruct (ackCh c) as [|[ready ack] later]; cbn [fst snd]; [split; reflexivity|].
  destruct (ready <? _); cbn [fst snd config conn seq ackCh clock handed logged];
    split; reflexivity.
Qed.

Lemma writeFrameFrom_overReliable fuel : forall attempts frame c,
  writeFrameFrom fuel attempts frame (overReliable c) =
  (fst (writeFrameFrom fuel attempts frame c),
   overReliable (snd (writeFrameFrom fuel attempts frame c))).
Proof.
  induction fuel as [|fuel IH]; intros attempts frame c; cbn [writeFrameFrom];
    change (retrying (overReliable c) attempts) with (retrying c attempts);
    destruct (retrying c attempts); try reflexivity.
  destruct (send_overReliable c frame) as [Hf Hs].
  destruct (send (overReliable c) frame) as [nf' c1'].
  destruct (send c frame) as [nf c1]. cbn [fst snd] in Hf, Hs. subst nf' c1'.
  destruct (ARNetworkAL.Type_ nf =? ARNetworkAL.FrameTypeDataWithAck).
  - destruct (awaitAck_overReliable c1 nf) as [Hw Hc].
    destruct (awaitAck (overReliable c1) nf) as [w' c2'].
    destruct (awaitAck c1 nf) as [w c2]. cbn [fst snd] in Hw, Hc. subst w' c2'.
    destruct w; [reflexivity | apply IH | apply IH].
  - apply IH.
Qed.

(** What [Send] returns has no influence on the writer.  A run of
    [writeFrames] over any connection hands over the same frames, takes
    the same acks and the same time, leaves the same counter and ends the
    same way as the run over a connection that never fails: an error of
    [Send] is logged and the attempt counts like any other. *)
Theorem Send_errors_do_not_steer_the_writer (fuel : nat) (outCh : list Frame) :
  forall c,
    writeFrames fuel outCh (overReliable c) =
    (fst (writeFrames fuel outCh c),
     overReliable (snd (writeFrames fuel outCh c))).
Proof.
  induction outCh as [|frame later IH]; intros c; cbn [writeFrames];
    [reflexivity|].
  unfold writeFrame. rewrite writeFrameFrom_overReliable.
  destruct (writeFrameFrom fuel 0 frame c) as [e c']. cbn [fst snd].
  destruct e; try apply IH. reflexivity.
Qed.

(** *** The queue *)

Lemma writeFrameFrom_payload fuel : forall attempts frame c,
  exists new,
    handed (snd (writeFrameFrom fuel attempts frame c)) = handed c ++ new
    /\ map ARNetworkAL.Data new = repeat (Data frame) (length new)
    /\ Forall (fun nf => ARNetworkAL.ID nf = ID (config c)
                         /\ ARNetworkAL.Type_ nf = FrameType (config c)) new
    /\ config (snd (writeFrameFrom fuel attempts frame c)) = config c.
Proof.
  induction fuel as [|fuel IH]; intros attempts frame c; cbn [writeFrameFrom];
    destruct (retrying c attempts);
    try (exists []; cbn; rewrite app_nil_r; repeat split; constructor).
  destruct (send_spec c frame) as (Hnf & Hcfg & _ & _ & _ & Hh & _).
  destruct (send c frame) as [nf c1]. cbn [fst snd] in *.
  rewrite <- Hnf in Hh.
  assert (Hnext : forall c2 a,
    config c2 = config c -> handed c2 = handed c1 ->
    exists new,
      handed (snd (writeFrameFrom fuel a frame c2)) = handed c ++ new
      /\ map ARNetworkAL.Data new = repeat (Data frame) (length new)
      /\ Forall (fun nf => ARNetworkAL.ID nf = ID (config c)
                           /\ ARNetworkAL.Type_ nf = FrameType (config c)) new
      /\ config (snd (writeFrameFrom fuel a frame c2)) = config c).
  { intros c2 a Hcfg2 Hh2.
    destruct (IH a frame c2) as (new & H1 & H2 & H3 & H4).
    exists (nf :: new). rewrite H1, Hh2, Hh, <- app_assoc.
    split; [reflexivity|]. cbn [map length repeat].
    split; [rewrite H2, Hnf; reflexivity|].
    split; [|congruence].
    constructor; [rewrite Hnf; split; reflexivity|].
    rewrite Hcfg2 in H3. exact H3. }
  destruct (ARNetworkAL.Type_ nf =? ARNetworkAL.FrameTypeDataWithAck).
  - pose proof (awaitAck_frame c1 nf) as (Hcfg2 & _ & _ & Hh2 & _).
    destruct (awaitAck c1 nf) as [w c2]. cbn [fst snd] in *.
    destruct w; try (apply Hnext; congruence).
    cbn [fst snd]. exists [nf]. rewrite Hh2, Hh.
    split; [reflexivity|]. split; [rewrite Hnf; reflexivity|].
    split; [|congruence].
    constructor; [rewrite Hnf; split; reflexivity | constructor].
  - apply Hnext; [exact Hcfg | reflexivity].
Qed.

Lemma blocks_cons frame n later counts :
  blocks (frame :: later) (n :: counts) =
  repeat (Data frame) n ++ blocks later counts.
Proof. reflexivity. Qed.

(** The queue is written in order and nothing of it is skipped.  With
    [MaxRetries] not negative, [writeFrames] comes to the end of any queue;
    the payloads it hands to the connection are those of the queued
    frames, in the order of the queue, each between one and
    [MaxRetries + 1] times in a row, and every frame carries the id and
    the frame type of the buffer. *)
Theorem queue_is_written_in_order (fuel : nat) (outCh : list Frame) : forall c,
  0 <= MaxRetries (config c) < intMax ->
  (Z.to_nat (MaxRetries (config c)) + 1 <= fuel)%nat ->
  exists emitted counts,
    fst (writeFrames fuel outCh c) = LoopEnded
    /\ handed (snd (writeFrames fuel outCh c)) = handed c ++ emitted
    /\ length counts = length outCh
    /\ Forall (fun n => 1 <= Z.of_nat n <= MaxRetries (config c) + 1) counts
    /\ map ARNetworkAL.Data emitted = blocks outCh counts
    /\ Forall (fun nf => ARNetworkAL.ID nf = ID (config c)
                         /\ ARNetworkAL.Type_ nf = FrameType (config c))
         emitted.
Proof.
  induction outCh as [|frame later IH]; intros c HR Hfuel; cbn [writeFrames].
  - exists [], []. cbn. rewrite app_nil_r. repeat split; constructor.
  - unfold writeFrame.
    destruct (writeFrameFrom_bounded (Z.to_nat (MaxRetries (config c)) + 1)
                fuel 0 frame c)
      as (He & Hle & Hlt & _ & _ & _); try lia.
    destruct (writeFrameFrom_payload fuel 0 frame c)
      as (new & Hh & Hdata & Hid & Hcfg).
    destruct (writeFrameFrom fuel 0 frame c) as [e c1]. cbn [fst snd] in *.
    destruct (IH c1) as (emitted & counts & H1 & H2 & H3 & H4 & H5 & H6);
      try (rewrite Hcfg; assumption).
    rewrite Hcfg in H4, H6.
    assert (Hlen : (1 <= length new <= Z.to_nat (MaxRetries (config c)) + 1)%nat).
    { rewrite Hh, length_app in Hle, Hlt. lia. }
    assert (Hgoal :
      fst (writeFrames fuel later c1) = LoopEnded
      /\ handed (snd (writeFrames fuel later c1)) = handed c ++ new ++ emitted
      /\ length (length new :: counts) = length (frame :: later)
      /\ Forall (fun n => 1 <= Z.of_nat n <= MaxRetries (config c) + 1)
           (length new :: counts)
      /\ map ARNetworkAL.Data (new ++ emitted) =
           blocks (frame :: later) (length new :: counts)
      /\ Forall (fun nf => ARNetworkAL.ID nf = ID (config c)
                           /\ ARNetworkAL.Type_ nf = FrameType (config c))
           (new ++ emitted)).
    { split; [exact H1|]. split; [rewrite H2, Hh, <- app_assoc; reflexivity|].
      split; [cbn [length]; congruence|].
      split; [constructor; [lia | exact H4]|].
      split; [rewrite blocks_cons, map_app, Hdata, H5; reflexivity|].
      apply Forall_app. split; assumption. }
    exists (new ++ emitted), (length new :: counts).
    destruct e; [exact Hgoal | exact Hgoal | contradiction He; reflexivity].
Qed.

(** *** A buffer as [newC2DBuffer] makes it *)

Lemma writeFrames_unacked (outCh : list Frame) :
  forall fuel cfg cn s clk h lg,
  0 <= MaxRetries cfg < intMax ->
  is_uint8 s ->
  (Z.to_nat (MaxRetries cfg) + 1 <= fuel)%nat ->
  let c' := snd (writeFrames fuel outCh (mkBuffer cfg cn s [] clk h lg)) in
  fst (writeFrames fuel outCh (mkBuffer cfg cn s [] clk h lg)) = LoopEnded
  /\ handed c' =
       h ++ queueFrames cfg s (Z.to_nat (MaxRetries cfg) + 1) outCh
  /\ clock c' =
       clk + Z.of_nat (length outCh) * (MaxRetries cfg + 1) * waitOf cfg
  /\ ackCh c' = [].
Proof.
  induction outCh as [|frame later IH]; intros fuel cfg cn s clk h lg HR Hs Hfuel;
    cbn [writeFrames].
  - cbn. rewrite app_nil_r. repeat split; lia || reflexivity.
  - unfold writeFrame.
    rewrite (writeFrameFrom_unacked (Z.to_nat (MaxRetries cfg) + 1))
      by (try assumption; try lia; right; reflexivity).
    cbn zeta.
    destruct (IH fuel cfg
                (fst (sendAll cn (attemptFrames cfg s (Data frame)
                                    (Z.to_nat (MaxRetries cfg) + 1))))
                (uint8 (s + Z.of_nat (Z.to_nat (MaxRetries cfg) + 1)))
                (clk + Z.of_nat (Z.to_nat (MaxRetries cfg) + 1) * waitOf cfg)
                (h ++ attemptFrames cfg s (Data frame)
                        (Z.to_nat (MaxRetries cfg) + 1))
                (lg ++ snd (sendAll cn (attemptFrames cfg s (Data frame)
                                          (Z.to_nat (MaxRetries cfg) + 1))))
                HR (uint8_range _) Hfuel)
      as (H1 & H2 & H3 & H4).
    split; [exact H1|]. split; [rewrite H2, <- app_assoc; reflexivity|].
    split; [|exact H4]. rewrite H3. cbn [length].
    replace (Z.of_nat (Z.to_nat (MaxRetries cfg) + 1))
      with (MaxRetries cfg + 1) by lia.
    rewrite Nat2Z.inj_succ. ring.
Qed.

(** [newC2DBuffer] starts the counter at zero and leaves [ackCh] nil,
    and a receive from a nil channel never proceeds.  As long as the
    channel is as [newC2DBuffer] left it, every wait for an ack times out:
    whatever its frame type, the buffer hands every queued frame to the
    connection exactly [MaxRetries + 1] times, numbered from 0 onwards,
    and an acknowledged channel spends [MaxRetries + 1] timeouts on each
    item. *)
Theorem fresh_buffer_is_never_acknowledged (fuel : nat)
    (bufCfg : C2DBufferConfig) (cn : C) (now : Z) (outCh : list Frame) :
  0 <= MaxRetries bufCfg < intMax ->
  (Z.to_nat (MaxRetries bufCfg) + 1 <= fuel)%nat ->
  let c' := snd (writeFrames fuel outCh (newC2DBuffer bufCfg cn now)) in
  fst (writeFrames fuel outCh (newC2DBuffer bufCfg cn now)) = LoopEnded
  /\ handed c' =
       queueFrames bufCfg 0 (Z.to_nat (MaxRetries bufCfg) + 1) outCh
  /\ clock c' =
       now + Z.of_nat (length outCh) * (MaxRetries bufCfg + 1) * waitOf bufCfg.
Proof.
  intros HR Hfuel. unfold newC2DBuffer.
  destruct (writeFrames_unacked outCh fuel bufCfg cn 0 now [] [] HR)
    as (H1 & H2 & H3 & _); [unfold is_uint8; lia | exact Hfuel |].
  cbn zeta. split; [exact H1|]. split; [exact H2 | exact H3].
Qed.

End WithConnection.

Lemma writeFrame_returns_within_bounds_witness :
  fst (writeFrame 5 payload (buffer (ackedConfig 1) staleThenRight))
    <> StillLooping
  /\ clock (snd (writeFrame 5 payload (buffer (ackedConfig 1) staleThenRight)))
       <= 20.
Proof.
  destruct (writeFrame_returns_within_bounds 5 payload
              (buffer (ackedConfig 1) staleThenRight))
    as (He & _ & Hclk & _); [cbn; unfold intMax; lia | cbn; lia |].
  split; [exact He|]. cbn in Hclk |- *. lia.
Defined.

Lemma early_return_needs_the_ack_of_the_last_send_witness :
  exists before sent taken ready ack,
    handed (snd (writeFrame 5 payload (buffer (ackedConfig 1) lateAck)))
      = before ++ [sent]
    /\ ARNetworkAL.Data sent = Data payload
    /\ lateAck =
         taken ++ (ready, ack)
           :: ackCh (snd (writeFrame 5 payload (buffer (ackedConfig 1) lateAck)))
    /\ carries ack (ARNetworkAL.Seq sent).
Proof.
  exact (proj2 (early_return_needs_the_ack_of_the_last_send 5 payload
                  (buffer (ackedConfig 1) lateAck) eq_refl)).
Defined.

Lemma queue_is_written_in_order_witness :
  exists emitted counts,
    handed (snd (writeFrames 5 [payload; payload]
                   (buffer (ackedConfig 1) staleThenRight))) = emitted
    /\ length counts = 2%nat
    /\ map ARNetworkAL.Data emitted = blocks [payload; payload] counts.
Proof.
  destruct (queue_is_written_in_order 5 [payload; payload]
              (buffer (ackedConfig 1) staleThenRight))
    as (emitted & counts & _ & Hh & Hlen & _ & Hdata & _);
    [cbn; unfold intMax; lia | cbn; lia |].
  exists emitted, counts. split; [exact Hh|]. split; [exact Hlen | exact Hdata].
Defined.

Lemma fresh_buffer_is_never_acknowledged_witness :
  map ARNetworkAL.Seq
    (handed (snd (writeFrames 5 [payload; payload]
                    (newC2DBuffer (ackedConfig 1) tt 0)))) = [0; 1; 2; 3]
  /\ clock (snd (writeFrames 5 [payload; payload]
                   (newC2DBuffer (ackedConfig 1) tt 0))) = 40.
Proof.
  assert (H := fresh_buffer_is_never_acknowledged 5 (ackedConfig 1) tt 0
                 [payload; payload]).
  cbn zeta in H. destruct H as (_ & Hh & Hclk);
    [cbn; unfold intMax; lia | cbn; lia |].
  rewrite Hh, Hclk. split; reflexivity.
Defined.

End WriterProofs.

(* ================================================================== *)
(** * The life of a connection *)
(* ================================================================== *)

Module LifecycleProofs.
Import ARNetworkAL Wifi Samples ConnectionProofs SessionProofs.
Local Open Scope string_scope.

(** ** The frames of a datagram *)

Lemma frames_are_taken_in_order (frames : list Frame) : forall (k : nat) c,
  (k <= length frames)%nat ->
  run (set_receiver c (deliver frames)) (repeat ReceiveCalled k) =
  Some (set_receiver c (deliver (skipn k frames)),
        map (fun f => (f, true, None)) (firstn k frames)).
Proof.
  induction frames as [|f rest IH]; intros [|k] c Hk; cbn [length] in Hk;
    try lia; try reflexivity.
  assert (Hrec : Receive (set_receiver c (deliver (f :: rest))) =
                 Some ((f, true, None), set_receiver c (deliver rest)))
    by reflexivity.
  cbn [repeat run step]. rewrite Hrec. cbn [option_map fst snd].
  rewrite (IH k c) by lia. reflexivity.
Qed.

(** The frames decoded from one datagram reach the callers of
    [Receive] one per call, in the order of the datagram, each with
    [true] and a nil error; the goroutine holds the frames not yet taken
    and is back at its outer select, ready for the next datagram, only
    when the last one has been taken. *)
Theorem datagram_frames_are_received_in_order (c : connection)
    (datagram : bytes) (frames : list Frame) (k : nat) :
  receiver c = AtReadFromUDP ->
  decodeData c (firstn (Z.to_nat maxUDPDataBytes) datagram) = inr frames ->
  (k <= length frames)%nat ->
  run c (ReadFromUDPReturns (inl datagram) :: repeat ReceiveCalled k) =
    Some (set_receiver c (deliver (skipn k frames)),
          map (fun f => (f, true, None)) (firstn k frames))
  /\ (receiver (set_receiver c (deliver (skipn k frames))) = AtSelect
      <-> k = length frames).
Proof.
  intros Hat Hdec Hk. split.
  - cbn [run step option_map]. unfold receivePackets. rewrite Hat, Hdec.
    cbn [option_map].
    change (set_receiver c (deliver frames))
      with (set_receiver (set_receiver c (deliver frames)) (deliver frames)).
    rewrite (frames_are_taken_in_order frames k _ Hk). reflexivity.
  - cbn [receiver set_receiver]. split.
    + intros H. destruct (skipn k frames) as [|f rest] eqn:Hs;
        [|discriminate].
      assert (Hl : length (skipn k frames) = 0%nat) by (rewrite Hs; reflexivity).
      rewrite length_skipn in Hl. lia.
    + intros ->. rewrite skipn_all. reflexivity.
Qed.

(** ** After [Close] *)

Lemma step_keeps_sockets c ev c' out :
  step c ev = Some (c', out) ->
  c2dConn c' = c2dConn c /\ d2cConn c' = d2cConn c
  /\ encodeFrame c' = encodeFrame c.
Proof.
  intros H. destruct ev; cbn [step] in H.
  - unfold closeStopCh in H. destruct (rcvStopClosed c); [discriminate|].
    injection H as <- <-. repeat split.
  - unfold receivePackets in H.
    destruct (receiver c); try discriminate.
    destruct (rcvStopClosed c); injection H as <- <-; repeat split.
  - unfold receivePackets in H.
    destruct (receiver c), err; try discriminate;
      injection H as <- <-; repeat split.
  - unfold receivePackets in H.
    destruct (receiver c) as [| | |e0|f0 rest0|], r as [d|e];
      try discriminate.
    + destruct (decodeData c _); injection H as <- <-; repeat split.
    + destruct (reported e); injection H as <- <-; repeat split.
  - unfold Receive in H. destruct (receiver c); try discriminate;
      injection H as <- <-; repeat split.
  - unfold receivePackets in H.
    destruct (receiver c); try discriminate;
      destruct (rcvStopClosed c); try discriminate;
      injection H as <- <-; repeat split.
Qed.

(** No step of the goroutine or of a caller of [Receive] touches a
    socket. *)
Lemma run_keeps_sockets evs : forall c c' outs,
  run c evs = Some (c', outs) ->
  c2dConn c' = c2dConn c /\ d2cConn c' = d2cConn c
  /\ encodeFrame c' = encodeFrame c.
Proof.
  induction evs as [|ev evs IH]; intros c c' outs Hrun; cbn [run] in Hrun.
  - injection Hrun as <- <-. repeat split.
  - destruct (step c ev) as [[c1 out]|] eqn:Hstep; [|discriminate].
    destruct (run c1 evs) as [[c2 outs2]|] eqn:Hrest; [|discriminate].
    injection Hrun as <- <-.
    destruct (step_keeps_sockets _ _ _ _ Hstep) as (H1 & H2 & H3).
    destruct (IH _ _ _ Hrest) as (H4 & H5 & H6).
    repeat split; congruence.
Qed.

Lemma UDPConn_Close_closed s :
  closed (fst (UDPConn_Close s)) = true
  /\ written (fst (UDPConn_Close s)) = written s
  /\ refuses (fst (UDPConn_Close s)) = refuses s.
Proof.
  unfold UDPConn_Close. destruct (closed s) eqn:E; cbn; repeat split.
  exact E.
Qed.

(** [Close] is final.  Once it has returned, both sockets are closed
    and the outbound one has sent what it had sent when [Close] was
    called; a second [Close] panics on the closed [rcvStopCh] and gives no
    result; and every [Send] fails with the error of the socket behind
    its prefix, writing nothing. *)
Theorem Close_is_final (c : connection) (meanwhile : list event)
    (c' : connection) (err : option error) :
  Close c meanwhile = Some (c', err) ->
  closed (c2dConn c') = true
  /\ closed (d2cConn c') = true
  /\ written (c2dConn c') = written (c2dConn c)
  /\ (forall again, Close c' again = None)
  /\ (forall frame,
        exists e,
          snd (Send c' frame) =
            Some ("error writing frame to outbound connection: " ++ e)
          /\ written (c2dConn (fst (Send c' frame))) = written (c2dConn c)).
Proof.
  unfold Close. unfold closeStopCh at 1.
  destruct (rcvStopClosed c) eqn:Hopen; [discriminate|].
  destruct (run (set_rcvStopClosed c true) meanwhile) as [[c2 outs]|] eqn:Hrun;
    [|discriminate].
  pose proof (run_keeps_stop_closed _ _ _ _ Hrun eq_refl) as Hstop.
  destruct (run_keeps_sockets _ _ _ _ Hrun) as (Hout & Hin & _).
  cbn [c2dConn d2cConn set_rcvStopClosed] in Hout, Hin.
  destruct (receiver c2); try discriminate.
  destruct (UDPConn_Close_closed (c2dConn c2)) as (Ho1 & Ho2 & _).
  destruct (UDPConn_Close_closed (d2cConn c2)) as (Hi1 & _).
  destruct (UDPConn_Close (c2dConn c2)) as [out outErr].
  destruct (UDPConn_Close (d2cConn c2)) as [inb inErr].
  cbn [fst] in Ho1, Ho2, Hi1.
  intros H. injection H as <- _.
  cbn [c2dConn d2cConn set_c2dConn set_d2cConn].
  split; [exact Ho1|]. split; [exact Hi1|]. split; [congruence|].
  split.
  - intros again. unfold closeStopCh.
    cbn [rcvStopClosed set_c2dConn set_d2cConn]. rewrite Hstop. reflexivity.
  - intros frame. unfold Send, UDPConn_Write.
    cbn [c2dConn encodeFrame set_c2dConn set_d2cConn]. rewrite Ho1.
    eexists. split; [reflexivity|]. cbn [fst c2dConn set_c2dConn]. congruence.
Qed.

(** ** The TCP connection of the handshake *)

(** On every path through [NewConnection] the TCP connection of the
    handshake is closed exactly when it was opened, and closing it is the
    last thing [NewConnection] does: whichever step fails after the dial,
    the deferred close runs.  The receiving goroutine is started exactly
    when [NewConnection] returns a connection. *)
Theorem handshake_connection_is_always_closed (net : network) :
  (In CallTCPClose (snd (NewConnection net []))
   <-> exists a, In (CallDialTCP a) (snd (NewConnection net []))
                 /\ DialTCP net a = None)
  /\ (In CallTCPClose (snd (NewConnection net [])) ->
      exists before,
        snd (NewConnection net []) = (before ++ [CallTCPClose])%list
        /\ ~ In CallTCPClose before)
  /\ (In GoReceivePackets (snd (NewConnection net []))
      <-> exists c, fst (NewConnection net []) = inr c).
Proof.
  run_session; cbn [fst snd app In];
    (split; [split | split; [|split]]).
  (* a close implies a successful dial *)
  all: try (intros H; repeat destruct H as [H|H]; try discriminate;
            try contradiction;
            eexists; split; [left; reflexivity | assumption]).
  (* a successful dial implies a close *)
  all: try (intros (x & H & Hd); repeat destruct H as [H|H];
            try discriminate; try contradiction;
            first [ congruence
                  | solve [repeat (first [left; reflexivity | right])] ]).
  (* the close is the last call *)
  all: try (intros H; repeat destruct H as [H|H]; try discriminate;
            try contradiction;
            match goal with
            | |- exists before, ?t = (before ++ [CallTCPClose])%list /\ _ =>
                exists (removelast t); split; [reflexivity|];
                cbn; intros H'; repeat destruct H' as [H'|H'];
                try discriminate; try contradiction
            end).
  (* the goroutine is started exactly on success *)
  all: try (intros H; repeat destruct H as [H|H]; try discriminate;
            try contradiction; eexists; reflexivity).
  all: intros (x & H); first [ discriminate
         | solve [repeat (first [left; reflexivity | right])] ].
Qed.

Lemma datagram_frames_are_received_in_order_witness :
  run reading
    [ ReadFromUDPReturns (inl twoFrames); ReceiveCalled; ReceiveCalled ] =
  Some (set_receiver reading AtSelect,
        [ (sampleFrame, true, None); (sampleFrame, true, None) ]).
Proof.
  apply (proj1 (datagram_frames_are_received_in_order reading twoFrames
                  [sampleFrame; sampleFrame] 2 eq_refl eq_refl
                  (le_n 2))).
Defined.

Lemma Close_is_final_witness :
  exists c' err,
    Close reading closingEvents = Some (c', err)
    /\ closed (c2dConn c') = true
    /\ Close c' closingEvents = None.
Proof.
  eexists. eexists. split; [reflexivity|].
  destruct (Close_is_final reading closingEvents _ _ eq_refl)
    as (Hclosed & _ & _ & Hagain & _).
  split; [exact Hclosed | apply Hagain].
Defined.

End LifecycleProofs.

(* ================================================================== *)
(** * What the feature states keep *)
(* ================================================================== *)

Module FeatureProofs.
Import ARCommands AccessoryState StateProofs Samples.

(** ** Sequences of commands *)

(** A property that every command of a table keeps is kept by every
    sequence of its commands. *)
Lemma execAll_invariant {S : Type} (P : S -> Prop) (cmds : list (D2CCommand S)) :
  (forall cmd args s s',
      In cmd cmds -> execute cmd args s = Some s' -> P s -> P s') ->
  forall calls s s',
    Forall (fun call => In (fst call) cmds) calls ->
    execAll s calls = Some s' -> P s -> P s'.
Proof.
  intros Hstep. induction calls as [|[cmd args] later IH]; intros s s' Hall Hex HP;
    cbn [execAll] in Hex.
  - injection Hex as <-. exact HP.
  - destruct (execute cmd args s) as [s1|] eqn:E; [|discriminate].
    inversion Hall as [|? ? Hin Hlater]; subst.
    apply (IH s1 s' Hlater Hex). apply (Hstep cmd args s s1 Hin E HP).
Qed.

(** Every case of a command table for an invariant on the reported
    flags. *)
Ltac by_handler :=
  let Hcmd := fresh "Hcmd" in
  let Hrun := fresh "Hrun" in
  let st := fresh "st" in
  intros ? ? st ? Hcmd Hrun; cbn [In] in Hcmd;
  repeat (destruct Hcmd as [<-|Hcmd]); try contradiction;
  cbv -[uint8_at uint16_at int16_at float32_at Z.eqb] in Hrun;
  repeat match type of Hrun with
         | context [match ?x with Some _ => _ | None => _ end] =>
             destruct x eqn:?; try discriminate
         end;
  injection Hrun as <-;
  destruct st;
  cbv -[Z.eqb]; intros HP;
  try exact HP; try (repeat split; reflexivity).

(** The counts of the mass storage are reported together.  From the
    state in which nothing is reported, after any sequence of commands
    the six accessors of the mass storage content are either all reported
    or all at their default, and so are the four of the current run. *)
Theorem mass_storage_counts_are_reported_together
    (calls : list (D2CCommand Common.commonState * list value))
    (c : Common.commonState) :
  Forall (fun call => In (fst call) Common.D2CCommands) calls ->
  execAll Common.zero calls = Some c ->
  (snd (Common.PhotoCount c) = snd (Common.MassStorageID c)
   /\ snd (Common.VideoCount c) = snd (Common.MassStorageID c)
   /\ snd (Common.PudCount c) = snd (Common.MassStorageID c)
   /\ snd (Common.CrashLogCount c) = snd (Common.MassStorageID c)
   /\ snd (Common.RawPhotoCount c) = snd (Common.MassStorageID c))
  /\ (snd (Common.CurrentRunPhotoCount c)
        = snd (Common.CurrentRunMassStorageID c)
      /\ snd (Common.CurrentRunVideoCount c)
           = snd (Common.CurrentRunMassStorageID c)
      /\ snd (Common.CurrentRunRawPhotoCount c)
           = snd (Common.CurrentRunMassStorageID c)).
Proof.
  intros Hall Hex.
  apply (execAll_invariant
           (fun c =>
              (snd (Common.PhotoCount c) = snd (Common.MassStorageID c)
               /\ snd (Common.VideoCount c) = snd (Common.MassStorageID c)
               /\ snd (Common.PudCount c) = snd (Common.MassStorageID c)
               /\ snd (Common.CrashLogCount c) = snd (Common.MassStorageID c)
               /\ snd (Common.RawPhotoCount c) = snd (Common.MassStorageID c))
              /\ (snd (Common.CurrentRunPhotoCount c)
                    = snd (Common.CurrentRunMassStorageID c)
                  /\ snd (Common.CurrentRunVideoCount c)
                       = snd (Common.CurrentRunMassStorageID c)
                  /\ snd (Common.CurrentRunRawPhotoCount c)
                       = snd (Common.CurrentRunMassStorageID c)))
           Common.D2CCommands) with (calls := calls) (s := Common.zero);
    [| exact Hall | exact Hex | repeat split].
  by_handler.
  all: destruct HP as [H1 H2]; split; [try exact H1 | try exact H2];
    repeat split; reflexivity.
Qed.

(** A setting is reported together with its range: after any sequence of
    commands, the maximum altitude, distance and tilt are each reported
    exactly when their lower and upper bounds are. *)
Theorem setting_is_reported_with_its_range
    (calls : list (D2CCommand ARDrone3.pilotingSettingsState * list value))
    (p : ARDrone3.pilotingSettingsState) :
  Forall (fun call => In (fst call) ARDrone3.D2CCommands) calls ->
  execAll ARDrone3.newPilotingSettingsState calls = Some p ->
  (snd (ARDrone3.MaxAltitudeRangeMin p) = snd (ARDrone3.MaxAltitude p)
   /\ snd (ARDrone3.MaxAltitudeRangeMax p) = snd (ARDrone3.MaxAltitude p))
  /\ (snd (ARDrone3.MaxDistanceRangeMin p) = snd (ARDrone3.MaxDistance p)
      /\ snd (ARDrone3.MaxDistanceRangeMax p) = snd (ARDrone3.MaxDistance p))
  /\ (snd (ARDrone3.MaxTiltRangeMin p) = snd (ARDrone3.MaxTilt p)
      /\ snd (ARDrone3.MaxTiltRangeMax p) = snd (ARDrone3.MaxTilt p)).
Proof.
  intros Hall Hex.
  apply (execAll_invariant
           (fun p =>
              (snd (ARDrone3.MaxAltitudeRangeMin p) = snd (ARDrone3.MaxAltitude p)
               /\ snd (ARDrone3.MaxAltitudeRangeMax p)
                    = snd (ARDrone3.MaxAltitude p))
              /\ (snd (ARDrone3.MaxDistanceRangeMin p)
                    = snd (ARDrone3.MaxDistance p)
                  /\ snd (ARDrone3.MaxDistanceRangeMax p)
                       = snd (ARDrone3.MaxDistance p))
              /\ (snd (ARDrone3.MaxTiltRangeMin p) = snd (ARDrone3.MaxTilt p)
                  /\ snd (ARDrone3.MaxTiltRangeMax p)
                       = snd (ARDrone3.MaxTilt p)))
           ARDrone3.D2CCommands)
    with (calls := calls) (s := ARDrone3.newPilotingSettingsState);
    [| exact Hall | exact Hex | repeat split].
  by_handler.
  all: destruct HP as (H1 & H2 & H3);
    (split; [try exact H1 | split; [try exact H2 | try exact H3]]);
    repeat split; reflexivity.
Qed.

(** * The accessories *)

(** ** The map *)

Lemma lookup_delete_eq (m : accessoryMap) (key : Z) :
  lookup (delete m key) key = None.
Proof.
  induction m as [|[k acc] later IH]; cbn [delete lookup]; [reflexivity|].
  destruct (k =? key) eqn:E; [exact IH|].
  cbn [lookup]. rewrite E. exact IH.
Qed.

Lemma lookup_delete_neq (m : accessoryMap) (key other : Z) :
  other <> key -> lookup (delete m key) other = lookup m other.
Proof.
  intros Hne. induction m as [|[k acc] later IH]; cbn [delete lookup];
    [reflexivity|].
  destruct (k =? key) eqn:E.
  - apply Z.eqb_eq in E. subst k.
    destruct (key =? other) eqn:E'; [apply Z.eqb_eq in E'; congruence|].
    exact IH.
  - cbn [lookup]. destruct (k =? other); [reflexivity | exact IH].
Qed.

Lemma lookup_store_eq (m : accessoryMap) (key : Z) (acc : accessory) :
  lookup (store m key acc) key = Some acc.
Proof. unfold store. cbn [lookup]. rewrite Z.eqb_refl. reflexivity. Qed.

Lemma lookup_store_neq (m : accessoryMap) (key other : Z) (acc : accessory) :
  other <> key -> lookup (store m key acc) other = lookup m other.
Proof.
  intros Hne. unfold store. cbn [lookup].
  destruct (key =? other) eqn:E; [apply Z.eqb_eq in E; congruence|].
  apply lookup_delete_neq. exact Hne.
Qed.

(** ** The two update paths *)

Lemma connectedAccessories_update a key t u v flags :
  Z.land flags 4 <> 4 -> Z.land flags 8 <> 8 ->
  connectedAccessories [Uint8 key; Int32 t; Str u; Str v; Uint8 flags] a =
  Some (mkAccessoryState
          (store (accessories a) key
             (mkAccessory (id (entry a key)) t u v
                (batteryPercent (entry a key))))).
Proof.
  intros H4 H8. unfold connectedAccessories.
  cbn [uint8_at int32_at string_at nth_error].
  apply Z.eqb_neq in H4, H8. rewrite H4, H8. reflexivity.
Qed.

Lemma battery_update a key level flags :
  Z.land flags 4 <> 4 -> Z.land flags 8 <> 8 ->
  battery [Uint8 key; Uint8 level; Uint8 flags] a =
  Some (mkAccessoryState
          (store (accessories a) key
             (mkAccessory (id (entry a key)) (tipe (entry a key))
                (uid (entry a key)) (softwareVersion (entry a key)) level))).
Proof.
  intros H4 H8. unfold battery. cbn [uint8_at nth_error].
  apply Z.eqb_neq in H4, H8. rewrite H4, H8. reflexivity.
Qed.

Lemma entry_store_eq m key acc :
  entry (mkAccessoryState (store m key acc)) key = acc.
Proof. unfold entry. cbn [accessories]. rewrite lookup_store_eq. reflexivity. Qed.

Lemma entry_store_neq m key other acc :
  other <> key ->
  entry (mkAccessoryState (store m key acc)) other =
  entry (mkAccessoryState m) other.
Proof.
  intros Hne. unfold entry. cbn [accessories].
  rewrite lookup_store_neq by exact Hne. reflexivity.
Qed.

(** A listing and a battery report write different fields of an
    accessory.  Received in either order, for the same accessory or for
    two, they leave the same accessories; for one accessory, the entry
    holds the type, uid and version of the listing beside the level of
    the battery report. *)
Theorem listing_and_battery_report_commute (a : accessoryState)
    (key1 t : Z) (u v : string) (flags1 key2 level flags2 : Z) :
  Z.land flags1 4 <> 4 -> Z.land flags1 8 <> 8 ->
  Z.land flags2 4 <> 4 -> Z.land flags2 8 <> 8 ->
  let listing := [Uint8 key1; Int32 t; Str u; Str v; Uint8 flags1] in
  let report := [Uint8 key2; Uint8 level; Uint8 flags2] in
  exists a1 a12 a2 a21,
    connectedAccessories listing a = Some a1
    /\ battery report a1 = Some a12
    /\ battery report a = Some a2
    /\ connectedAccessories listing a2 = Some a21
    /\ (forall key,
          lookup (Accessories a12) key = lookup (Accessories a21) key)
    /\ (key1 = key2 ->
        lookup (Accessories a12) key1 =
          Some (mkAccessory (id (entry a key1)) t u v level)).
Proof.
  intros H14 H18 H24 H28 listing report. subst listing report.
  eexists. eexists. eexists. eexists.
  split; [apply connectedAccessories_update; assumption|].
  split; [apply battery_update; assumption|].
  split; [apply battery_update; assumption|].
  split; [apply connectedAccessories_update; assumption|].
  destruct a as [m]. unfold Accessories. cbn [accessories].
  destruct (Z.eq_dec key1 key2) as [<-|Hne].
  - rewrite !entry_store_eq. cbn [id tipe uid softwareVersion batteryPercent].
    split.
    + intros key. destruct (Z.eq_dec key key1) as [->|Hk].
      * rewrite !lookup_store_eq. reflexivity.
      * rewrite !lookup_store_neq by exact Hk. reflexivity.
    + intros _. rewrite lookup_store_eq. reflexivity.
  - rewrite !entry_store_neq by congruence.
    split; [|intros H; contradiction].
    intros key. destruct (Z.eq_dec key key2) as [->|Hk2].
    + rewrite lookup_store_eq, (lookup_store_neq _ key1 key2) by congruence.
      rewrite lookup_store_eq. reflexivity.
    + rewrite (lookup_store_neq _ key2 key) by exact Hk2.
      destruct (Z.eq_dec key key1) as [->|Hk1].
      * rewrite !lookup_store_eq. reflexivity.
      * rewrite !lookup_store_neq by assumption. reflexivity.
Qed.

(** ** Removal *)

(** A report flagged Remove (and not Empty) deletes the accessory from
    the map, whichever of the two commands carries it: a battery report
    that withdraws a level withdraws the listing with it.  The other
    accessories stay, and a battery level reported for the accessory
    afterwards starts a new entry with the zero type and empty uid and
    version. *)
Theorem removal_forgets_the_whole_accessory (a : accessoryState)
    (key level flags : Z) (t : Z) (u v : string) :
  Z.land flags 4 <> 4 -> Z.land flags 8 = 8 ->
  exists a',
    battery [Uint8 key; Uint8 level; Uint8 flags] a = Some a'
    /\ connectedAccessories [Uint8 key; Int32 t; Str u; Str v; Uint8 flags] a
         = Some a'
    /\ lookup (Accessories a') key = None
    /\ (forall other, other <> key ->
          lookup (Accessories a') other = lookup (Accessories a) other)
    /\ forall level' flags',
         Z.land flags' 4 <> 4 -> Z.land flags' 8 <> 8 ->
         exists a'',
           battery [Uint8 key; Uint8 level'; Uint8 flags'] a' = Some a''
           /\ lookup (Accessories a'') key =
                Some (mkAccessory key 0 EmptyString EmptyString level').
Proof.
  intros H4 H8. apply Z.eqb_neq in H4. apply Z.eqb_eq in H8.
  exists (mkAccessoryState (delete (accessories a) key)).
  unfold battery, connectedAccessories.
  cbn [uint8_at int32_at string_at nth_error]. rewrite H4, H8.
  split; [reflexivity|]. split; [reflexivity|].
  unfold Accessories. cbn [accessories].
  split; [apply lookup_delete_eq|].
  split; [intros other Hne; apply lookup_delete_neq; exact Hne|].
  intros level' flags' H4' H8'. eexists.
  split; [apply battery_update; assumption|].
  cbn [accessories]. rewrite lookup_store_eq. unfold entry.
  cbn [accessories]. rewrite lookup_delete_eq. reflexivity.
Qed.

(** ** Keys and ids *)

Lemma handler_keeps_ids cmd args a a' :
  In cmd D2CCommands -> execute cmd args a = Some a' ->
  (forall key acc, lookup (accessories a) key = Some acc -> id acc = key) ->
  forall key acc, lookup (accessories a') key = Some acc -> id acc = key.
Proof.
  intros Hin Hex Hinv. cbn [In D2CCommands] in Hin.
  assert (Hentry : forall k, id (entry a k) = k).
  { intros k. unfold entry. destruct (lookup (accessories a) k) eqn:E.
    - apply (Hinv k). exact E.
    - reflexivity. }
  assert (Hdel : forall k key acc,
             lookup (delete (accessories a) k) key = Some acc -> id acc = key).
  { intros k key acc H. destruct (Z.eq_dec key k) as [->|Hne].
    - rewrite lookup_delete_eq in H. discriminate.
    - rewrite lookup_delete_neq in H by exact Hne. apply (Hinv key). exact H. }
  assert (Hsto : forall k new key acc,
             id new = k ->
             lookup (store (accessories a) k new) key = Some acc ->
             id acc = key).
  { intros k new key acc Hid H. destruct (Z.eq_dec key k) as [->|Hne].
    - rewrite lookup_store_eq in H. injection H as <-. exact Hid.
    - rewrite lookup_store_neq in H by exact Hne. apply (Hinv key). exact H. }
  destruct Hin as [<-|[<-|[]]]; cbn [execute] in Hex.
  - unfold connectedAccessories in Hex.
    destruct (uint8_at args 4) as [flags|]; [|discriminate].
    destruct (Z.land flags 4 =? 4); [injection Hex as <-; exact Hinv|].
    destruct (uint8_at args 0) as [k|]; [|discriminate].
    destruct (Z.land flags 8 =? 8).
    + injection Hex as <-. cbn [accessories]. apply Hdel.
    + destruct (int32_at args 1), (string_at args 2), (string_at args 3);
        try discriminate.
      injection Hex as <-. cbn [accessories]. intros key acc.
      apply Hsto. cbn [id]. apply Hentry.
  - unfold battery in Hex.
    destruct (uint8_at args 2) as [flags|]; [|discriminate].
    destruct (Z.land flags 4 =? 4); [injection Hex as <-; exact Hinv|].
    destruct (uint8_at args 0) as [k|]; [|discriminate].
    destruct (Z.land flags 8 =? 8).
    + injection Hex as <-. cbn [accessories]. apply Hdel.
    + destruct (uint8_at args 1); try discriminate.
      injection Hex as <-. cbn [accessories]. intros key acc.
      apply Hsto. cbn [id]. apply Hentry.
Qed.

(** Every accessory of the map is filed under its own id.  If that holds
    of a state (it holds of the empty map), it holds after any sequence
    of commands of the feature: an entry is created with the id it is
    stored under, and no handler writes the id of an existing one. *)
Theorem accessories_are_filed_under_their_ids
    (calls : list (D2CCommand accessoryState * list value))
    (a a' : accessoryState) :
  (forall key acc, lookup (Accessories a) key = Some acc -> id acc = key) ->
  Forall (fun call => In (fst call) D2CCommands) calls ->
  execAll a calls = Some a' ->
  forall key acc, lookup (Accessories a') key = Some acc -> id acc = key.
Proof.
  unfold Accessories. intros Hinv Hall Hex.
  apply (execAll_invariant
           (fun s => forall key acc,
                       lookup (accessories s) key = Some acc -> id acc = key)
           D2CCommands handler_keeps_ids calls a a' Hall Hex Hinv).
Qed.

(** ** No panic *)

(** No handler of the accessory state panics on arguments of the types
    of its template, whatever the list flags are. *)
Theorem AccessoryState_handlers_total : forall cmd args s,
  In cmd D2CCommands -> wellTyped (argTemplate cmd) args = true ->
  exists s', execute cmd args s = Some s'.
Proof.
  intros cmd args s Hin Hty; cbn [In D2CCommands] in Hin;
  repeat (destruct Hin as [<-|Hin]); try contradiction;
  cbn [argTemplate execute] in *;
  repeat match goal with
         | H : wellTyped (_ :: _) _ = true |- _ =>
             apply wellTyped_cons in H;
             destruct H as ([] & ? & -> & ? & H); try discriminate
         | H : wellTyped [] _ = true |- _ =>
             apply wellTyped_nil in H; subst
         end.
  - unfold connectedAccessories. cbn [uint8_at int32_at string_at nth_error].
    destruct (Z.land _ 4 =? 4); [eexists; reflexivity|].
    destruct (Z.land _ 8 =? 8); eexists; reflexivity.
  - unfold battery. cbn [uint8_at nth_error].
    destruct (Z.land _ 4 =? 4); [eexists; reflexivity|].
    destruct (Z.land _ 8 =? 8); eexists; reflexivity.
Qed.


(** ** Instances *)

Lemma ARDrone3_handlers_total_witness :
  exists p,
    ARDrone3.maxTiltChanged [Float32 1; Float32 2; Float32 3]
      ARDrone3.newPilotingSettingsState = Some p
    /\ ARDrone3.MaxTiltRangeMax p = (3, true).
Proof.
  destruct (ARDrone3_handlers_total
              (NewD2CCommand 1 "MaxTiltChanged"
                 [Float32 0; Float32 0; Float32 0] ARDrone3.maxTiltChanged)
              [Float32 1; Float32 2; Float32 3]
              ARDrone3.newPilotingSettingsState) as (p & Hp).
  - cbn. tauto.
  - reflexivity.
  - exists p. split; [exact Hp|]. cbn in Hp. injection Hp as <-. reflexivity.
Defined.

Lemma mass_storage_counts_are_reported_together_witness :
  exists c,
    execAll Common.zero telemetry = Some c
    /\ snd (Common.PhotoCount c) = snd (Common.MassStorageID c).
Proof.
  eexists. split; [reflexivity|].
  apply (mass_storage_counts_are_reported_together telemetry);
    [|reflexivity].
  repeat constructor; cbn; tauto.
Defined.

Lemma setting_is_reported_with_its_range_witness :
  exists p,
    execAll ARDrone3.newPilotingSettingsState tiltReported = Some p
    /\ snd (ARDrone3.MaxTiltRangeMin p) = snd (ARDrone3.MaxTilt p).
Proof.
  eexists. split; [reflexivity|].
  apply (setting_is_reported_with_its_range tiltReported); [|reflexivity].
  repeat constructor; cbn; tauto.
Defined.

Lemma listing_and_battery_report_commute_witness :
  exists a1 a12,
    connectedAccessories accessoryListed empty = Some a1
    /\ battery batteryReported a1 = Some a12
    /\ lookup (Accessories a12) 7 = Some (mkAccessory 7 2 "uid" "1.0" 55).
Proof.
  destruct (listing_and_battery_report_commute empty 7 2 "uid" "1.0" 0 7 55 0)
    as (a1 & a12 & _ & _ & H1 & H2 & _ & _ & _ & Hentry);
    try (cbn; lia).
  exists a1, a12. split; [exact H1|]. split; [exact H2|].
  rewrite (Hentry eq_refl). reflexivity.
Defined.

Lemma removal_forgets_the_whole_accessory_witness :
  exists a',
    battery [Uint8 7; Uint8 0; Uint8 8]
      (mkAccessoryState [(7, mkAccessory 7 2 "uid" "1.0" 55)]) = Some a'
    /\ lookup (Accessories a') 7 = None.
Proof.
  destruct (removal_forgets_the_whole_accessory
              (mkAccessoryState [(7, mkAccessory 7 2 "uid" "1.0" 55)])
              7 0 8 0 EmptyString EmptyString)
    as (a' & H1 & _ & H2 & _); try (cbn; lia).
  exists a'. split; [exact H1 | exact H2].
Defined.

Lemma accessories_are_filed_under_their_ids_witness :
  exists a',
    execAll empty
      [ (NewD2CCommand 0 "ConnectedAccessories"
           [Uint8 0; Int32 0; Str NUL; Str NUL; Uint8 0]
           connectedAccessories, accessoryListed);
        (NewD2CCommand 1 "Battery" [Uint8 0; Uint8 0; Uint8 0] battery,
         batteryReported) ] = Some a'
    /\ lookup (Accessories a') 7 = Some (mkAccessory 7 2 "uid" "1.0" 55)
    /\ forall key acc, lookup (Accessories a') key = Some acc -> id acc = key.
Proof.
  eexists. split; [reflexivity|]. split; [reflexivity|].
  apply (accessories_are_filed_under_their_ids
           [ (NewD2CCommand 0 "ConnectedAccessories"
                [Uint8 0; Int32 0; Str NUL; Str NUL; Uint8 0]
                connectedAccessories, accessoryListed);
             (NewD2CCommand 1 "Battery" [Uint8 0; Uint8 0; Uint8 0] battery,
              batteryReported) ]
           empty).
  - intros key acc H. discriminate H.
  - repeat constructor; cbn; tauto.
  - reflexivity.
Defined.

Lemma AccessoryState_handlers_total_witness :
  exists a, battery batteryReported empty = Some a.
Proof.
  apply (AccessoryState_handlers_total
           (NewD2CCommand 1 "Battery" [Uint8 0; Uint8 0; Uint8 0] battery)
           batteryReported empty).
  - cbn. tauto.
  - reflexivity.
Defined.

End FeatureProofs.

(* ================================================================== *)
(** * Shutdown *)
(* ================================================================== *)

Module ShutdownProofs.
Import ARNetworkAL Wifi Samples ConnectionProofs.
Local Open Scope string_scope.

(** ** Schedules *)

(** The first [S n] events of a schedule are its first event and the
    first [n] of the schedule that follows it. *)
Lemma schedule_S (sched : nat -> event) (n : nat) :
  map sched (List.seq 0 (S n)) =
  sched 0%nat :: map (fun k => sched (S k)) (List.seq 0 n).
Proof. cbn [List.seq map]. rewrite <- seq_shift, map_map. reflexivity. Qed.

(** A schedule that the system can follow for ever starts with a step
    that the system can take, and goes on with a schedule that the state
    reached can follow for ever. *)
Lemma schedule_first (c : connection) (sched : nat -> event) :
  (forall n, run c (map sched (List.seq 0 n)) <> None) ->
  exists c1 out,
    step c (sched 0%nat) = Some (c1, out)
    /\ (forall n, run c1 (map (fun k => sched (S k)) (List.seq 0 n)) <> None)
    /\ (forall n c2 outs,
          run c1 (map (fun k => sched (S k)) (List.seq 0 n)) = Some (c2, outs) ->
          run c (map sched (List.seq 0 (S n))) = Some (c2, (out ++ outs)%list)).
Proof.
  intros Hexec.
  destruct (step c (sched 0%nat)) as [[c1 out]|] eqn:Hstep.
  - exists c1, out. split; [reflexivity|]. split.
    + intros n Hnone. apply (Hexec (S n)). rewrite schedule_S.
      cbn [run]. rewrite Hstep, Hnone. reflexivity.
    + intros n c2 outs Hrun. rewrite schedule_S. cbn [run].
      rewrite Hstep, Hrun. reflexivity.
  - exfalso. apply (Hexec 1%nat). cbn [List.seq map run]. rewrite Hstep.
    reflexivity.
Qed.

(** ** Where the goroutine stands when [rcvStopCh] is closed *)

Lemma exits_from_select (c : connection) (sched : nat -> event) :
  rcvStopClosed c = true -> receiver c = AtSelect ->
  (forall n, run c (map sched (List.seq 0 n)) <> None) ->
  exists n c2 outs,
    run c (map sched (List.seq 0 n)) = Some (c2, outs)
    /\ receiver c2 = Exited.
Proof.
  intros Hstop Hat Hexec.
  destruct (schedule_first c sched Hexec) as (c1 & out & Hstep & _ & Hlift).
  exists 1%nat, c1, (out ++ [])%list. split; [apply (Hlift 0%nat); reflexivity|].
  destruct (sched 0%nat); cbn [step] in Hstep;
    unfold receivePackets, Receive, closeStopCh in Hstep;
    rewrite ?Hat, ?Hstop in Hstep; cbn [option_map] in Hstep;
    try discriminate.
  injection Hstep as <- _. reflexivity.
Qed.

Lemma exits_from_frames (frames : list Frame) :
  forall (c : connection) (sched : nat -> event),
    rcvStopClosed c = true -> receiver c = deliver frames ->
    (forall n, run c (map sched (List.seq 0 n)) <> None) ->
    exists n c2 outs,
      run c (map sched (List.seq 0 n)) = Some (c2, outs)
      /\ receiver c2 = Exited.
Proof.
  induction frames as [|f rest IH]; intros c sched Hstop Hat Hexec.
  - apply exits_from_select; assumption.
  - cbn [deliver] in Hat.
    destruct (schedule_first c sched Hexec)
      as (c1 & out & Hstep & Hexec1 & Hlift).
    assert (Hnext : rcvStopClosed c1 = true /\ receiver c1 = deliver rest).
    { destruct (sched 0%nat); cbn [step] in Hstep;
        unfold receivePackets, Receive, closeStopCh in Hstep;
        rewrite ?Hat, ?Hstop in Hstep; cbn [option_map] in Hstep;
        try discriminate; injection Hstep as <- _;
        (split; [exact Hstop | reflexivity]). }
    destruct Hnext as [Hstop1 Hat1].
    destruct (IH c1 _ Hstop1 Hat1 Hexec1) as (n & c2 & outs & Hrun & Hexit).
    exists (S n), c2, (out ++ outs)%list.
    split; [apply Hlift; exact Hrun | exact Hexit].
Qed.

Lemma exits_from_error (c : connection) (sched : nat -> event) (e : error) :
  rcvStopClosed c = true -> receiver c = OfferingErr e ->
  (forall n, run c (map sched (List.seq 0 n)) <> None) ->
  exists n c2 outs,
    run c (map sched (List.seq 0 n)) = Some (c2, outs)
    /\ receiver c2 = Exited.
Proof.
  intros Hstop Hat Hexec.
  destruct (schedule_first c sched Hexec)
    as (c1 & out & Hstep & Hexec1 & Hlift).
  assert (Hnext : rcvStopClosed c1 = true
                  /\ (receiver c1 = AtSelect \/ receiver c1 = Exited)).
  { destruct (sched 0%nat); cbn [step] in Hstep;
      unfold receivePackets, Receive, closeStopCh in Hstep;
      rewrite ?Hat, ?Hstop in Hstep; cbn [option_map] in Hstep;
      try discriminate; injection Hstep as <- _;
      (split; [exact Hstop|]); [left | right]; reflexivity. }
  destruct Hnext as [Hstop1 [Hat1|Hexit1]].
  - destruct (exits_from_select c1 _ Hstop1 Hat1 Hexec1)
      as (n & c2 & outs & Hrun & Hexit).
    exists (S n), c2, (out ++ outs)%list.
    split; [apply Hlift; exact Hrun | exact Hexit].
  - exists 1%nat, c1, (out ++ [])%list.
    split; [apply (Hlift 0%nat); reflexivity | exact Hexit1].
Qed.

Lemma exits_from_read (c : connection) (sched : nat -> event) :
  rcvStopClosed c = true -> receiver c = AtReadFromUDP ->
  (forall n, run c (map sched (List.seq 0 n)) <> None) ->
  exists n c2 outs,
    run c (map sched (List.seq 0 n)) = Some (c2, outs)
    /\ receiver c2 = Exited.
Proof.
  intros Hstop Hat Hexec.
  destruct (schedule_first c sched Hexec)
    as (c1 & out & Hstep & Hexec1 & Hlift).
  assert (Hnext : rcvStopClosed c1 = true
                  /\ ((exists e, receiver c1 = OfferingErr e)
                      \/ exists frames, receiver c1 = deliver frames)).
  { destruct (sched 0%nat) as [| |r|[d|err]| |]; cbn [step] in Hstep;
      unfold receivePackets, Receive, closeStopCh in Hstep;
      rewrite ?Hat, ?Hstop in Hstep; cbn [option_map] in Hstep;
      try discriminate.
    - destruct (decodeData c _) as [e|frames]; injection Hstep as <- _;
        (split; [exact Hstop|]); [left | right]; eexists; reflexivity.
    - destruct (reported err); injection Hstep as <- _;
        (split; [exact Hstop|]); [left; eexists; reflexivity|].
      right. exists []. reflexivity. }
  destruct Hnext as [Hstop1 [[e Hat1]|[frames Hat1]]].
  - destruct (exits_from_error c1 _ e Hstop1 Hat1 Hexec1)
      as (n & c2 & outs & Hrun & Hexit).
    exists (S n), c2, (out ++ outs)%list.
    split; [apply Hlift; exact Hrun | exact Hexit].
  - destruct (exits_from_frames frames c1 _ Hstop1 Hat1 Hexec1)
      as (n & c2 & outs & Hrun & Hexit).
    exists (S n), c2, (out ++ outs)%list.
    split; [apply Hlift; exact Hrun | exact Hexit].
Qed.

Lemma exits_from_deadline (c : connection) (sched : nat -> event) :
  rcvStopClosed c = true -> receiver c = AtSetReadDeadline ->
  (forall n, run c (map sched (List.seq 0 n)) <> None) ->
  exists n c2 outs,
    run c (map sched (List.seq 0 n)) = Some (c2, outs)
    /\ receiver c2 = Exited.
Proof.
  intros Hstop Hat Hexec.
  destruct (schedule_first c sched Hexec)
    as (c1 & out & Hstep & Hexec1 & Hlift).
  assert (Hnext : rcvStopClosed c1 = true
                  /\ ((exists e, receiver c1 = OfferingErr e)
                      \/ receiver c1 = AtReadFromUDP)).
  { destruct (sched 0%nat) as [| |[e|]|r| |]; cbn [step] in Hstep;
      unfold receivePackets, Receive, closeStopCh in Hstep;
      rewrite ?Hat, ?Hstop in Hstep; cbn [option_map] in Hstep;
      try discriminate; injection Hstep as <- _;
      (split; [exact Hstop|]); [left; eexists | right]; reflexivity. }
  destruct Hnext as [Hstop1 [[e Hat1]|Hat1]].
  - destruct (exits_from_error c1 _ e Hstop1 Hat1 Hexec1)
      as (n & c2 & outs & Hrun & Hexit).
    exists (S n), c2, (out ++ outs)%list.
    split; [apply Hlift; exact Hrun | exact Hexit].
  - destruct (exits_from_read c1 _ Hstop1 Hat1 Hexec1)
      as (n & c2 & outs & Hrun & Hexit).
    exists (S n), c2, (out ++ outs)%list.
    split; [apply Hlift; exact Hrun | exact Hexit].
Qed.

(** Once [rcvStopCh] is closed, whatever happens next, the goroutine
    returns. *)
Lemma exits_on_every_schedule (c : connection) (sched : nat -> event) :
  rcvStopClosed c = true ->
  (forall n, run c (map sched (List.seq 0 n)) <> None) ->
  exists n c2 outs,
    run c (map sched (List.seq 0 n)) = Some (c2, outs)
    /\ receiver c2 = Exited.
Proof.
  intros Hstop Hexec. destruct (receiver c) as [| | |e|f rest|] eqn:Hat.
  - apply exits_from_select; assumption.
  - apply exits_from_deadline; assumption.
  - apply exits_from_read; assumption.
  - apply (exits_from_error c sched e); assumption.
  - apply (exits_from_frames (f :: rest)); assumption.
  - exists 0%nat, c, []. split; [reflexivity | exact Hat].
Qed.

(** [Close] returns on every schedule.

    Once [rcvStopCh] is closed the goroutine waits for nobody: it can
    always take a step of its own, whatever the operating system answers
    to the call it is blocked in, and in particular it needs no caller of
    [Receive] to take what it offers.

    And however the steps of the goroutine, the answers of the operating
    system and the calls of [Receive] follow one another after the close
    of [rcvStopCh], as long as the system goes on the goroutine returns
    after finitely many of them, and [Close] gets [rcvDoneCh], closes the
    sockets and returns. *)
Theorem Close_returns_on_every_schedule :
  (forall c,
      rcvStopClosed c = true ->
      match receiver c with
      | AtSelect => receivePackets c Scheduled <> None
      | AtSetReadDeadline =>
          forall r, receivePackets c (SetReadDeadlineReturns r) <> None
      | AtReadFromUDP =>
          forall r, receivePackets c (ReadFromUDPReturns r) <> None
      | OfferingErr _ | OfferingFrame _ _ =>
          receivePackets c StopObserved <> None
      | Exited => True
      end)
  /\ (forall c (sched : nat -> event),
        rcvStopClosed c = false ->
        (forall n,
            run (set_rcvStopClosed c true) (map sched (List.seq 0 n)) <> None) ->
        exists n c' err,
          Close c (map sched (List.seq 0 n)) = Some (c', err)).
Proof.
  split.
  - intros c Hstop. unfold receivePackets.
    destruct (receiver c) as [| | |e|f rest|]; rewrite ?Hstop;
      try discriminate; try exact I.
    + intros [e|]; discriminate.
    + intros [d|e]; [destruct (decodeData c _) | destruct (reported e)];
        discriminate.
  - intros c sched Hopen Hexec.
    destruct (exits_on_every_schedule (set_rcvStopClosed c true) sched
                eq_refl Hexec) as (n & c2 & outs & Hrun & Hexit).
    exists n. unfold Close, closeStopCh. rewrite Hopen, Hrun, Hexit.
    destruct (UDPConn_Close (c2dConn c2)) as [out outErr].
    destruct (UDPConn_Close (d2cConn c2)) as [inb inErr].
    eexists. eexists. reflexivity.
Qed.

(** After the goroutine has returned, callers can go on calling
    [Receive]. *)
Lemma run_after_exit (n : nat) : forall c,
  receiver c = Exited ->
  run c (repeat ReceiveCalled n) <> None.
Proof.
  induction n as [|n IH]; intros c Hexit; cbn [repeat run]; [discriminate|].
  cbn [step]. unfold Receive. rewrite Hexit. cbn [option_map fst snd].
  specialize (IH c Hexit). destruct (run c (repeat ReceiveCalled n)) as [[c' o]|];
    [discriminate | contradiction].
Qed.

Lemma closingSchedule_goes_on (n : nat) :
  run (set_rcvStopClosed reading true) (map closingSchedule (List.seq 0 n))
    <> None.
Proof.
  destruct n as [|[|n]]; try (cbn; discriminate).
  rewrite schedule_S, schedule_S.
  assert (Hrest : map (fun k => closingSchedule (S (S k))) (List.seq 0 n)
                  = repeat ReceiveCalled n).
  { clear. generalize 0%nat. induction n as [|n IH]; intros k;
      cbn [List.seq map repeat]; [reflexivity|].
    rewrite IH. reflexivity. }
  rewrite Hrest. cbn [run].
  assert (H0 : step (set_rcvStopClosed reading true) (closingSchedule 0) =
               Some (set_receiver (set_rcvStopClosed reading true) AtSelect,
                     [])) by reflexivity.
  assert (H1 : step (set_receiver (set_rcvStopClosed reading true) AtSelect)
                 (closingSchedule 1) =
               Some (set_receiver (set_rcvStopClosed reading true) Exited,
                     [])) by reflexivity.
  rewrite H0, H1.
  pose proof (run_after_exit n
                (set_receiver (set_rcvStopClosed reading true) Exited)
                eq_refl) as H.
  destruct (run _ (repeat ReceiveCalled n)) as [[c' o]|];
    [discriminate | contradiction].
Qed.

Lemma Close_returns_on_every_schedule_witness :
  exists n c' err,
    Close reading (map closingSchedule (List.seq 0 n)) = Some (c', err).
Proof.
  apply (proj2 Close_returns_on_every_schedule reading closingSchedule
           eq_refl closingSchedule_goes_on).
Defined.

End ShutdownProofs.
